(** * India traffic dashboard: the congestion resolution pipeline

    A shallow embedding of [traffic_data.py] (the two live clients, the
    simulator and the orchestrator) and of the colour helpers of
    [utils.py], with the properties stated about them.

    Conventions of the embedding.
    - A Python number is written as the rational [Q] it denotes: an int
      is an integer, a float is a double (IEEE 754 binary64). [b64 x] is
      the double nearest to [x], ties to the even mantissa, with the
      subnormal range below 2^-1022. An arithmetic operation of the
      source on floats is the exact operation followed by [b64], and it
      reads its operands through [b64]: this is what Python does to an
      int that meets a float and to a decimal literal, and it leaves a
      double as it is ([b64_idem]). [round(x, 1)] yields the tenth
      k/10 nearest to the double [x], ties to the even k, written as
      that tenth (Python stores the double nearest to it and prints
      k/10). Numbers are compared with [==] ([Qeq]), as Python's [==]
      does.
    - [PNum q] with [q] integral stands for the int [q], and also for
      the float of that value when [q] is a double: the source treats
      the two alike, except in a division whose other operand is an int
      that is not a double (an int beyond 2^53), where [truediv] follows
      the reading as two ints. The statements about the division of
      Client A take two doubles, or two ints.
    - A number of magnitude 2^1024 or more is an int where it enters a
      division or a format, which raise OverflowError; as the result
      of an operation on floats it stands for an infinity, with which
      the source goes on computing (the clamp to [0, 100] treats both
      alike). NaN and an infinity inside a decoded JSON body are outside
      the model, and so is [int()] of an infinity: coordinates are
      degrees.
    - A Python string is the [string] of its UTF-8 bytes; iterating it
      yields its characters, and [ord] of a character is its code point.
    - A dict is the list of its items in insertion order, its keys
      distinct; [city_coords] is iterated in that order.
    - Values whose type is only known at run time (a decoded JSON body,
      the speed fields of a result tuple) are [pyval].
    - Effects (the HTTP request, the clock, the log) are threaded through
      a state-and-exception monad [M] over an environment [env] that
      fixes what the network and the clock answer at each instant. *)

From Stdlib Require Import ZArith QArith Qround Qminmax Qabs Qpower Lqa Lia.
From Stdlib Require Import Bool List String Ascii.
Import ListNotations.

Set Warnings "-register-all".
Local Open Scope string_scope.
Local Open Scope Q_scope.

(** ** Python values *)

Inductive pyval : Type :=
| PNone
| PBool (b : bool)
| PNum (q : Q)
| PStr (s : string)
| PList (l : list pyval)
| PDict (items : list (string * pyval)).

(** The exceptions that the source can meet. *)
Inductive exn : Type :=
| Timeout            (* requests.exceptions.Timeout *)
| ConnectionError    (* requests.exceptions.ConnectionError *)
| RequestException   (* any other failure of requests.get *)
| ValueError         (* also: the body is not JSON *)
| TypeError
| AttributeError
| KeyError
| IndexError
| ZeroDivisionError
| OverflowError.

(** ** The world: network, clock and log *)

Inductive request : Type :=
| TomTomFlow (api_key : string) (lat lon : Q)
| MapmyIndiaRoute (api_key : string) (start_lon start_lat end_lon end_lat : Q).

(** What [requests.get] can do: raise, or hand back a response with a
    status code and a body ([None] when the body does not decode as
    JSON, so that [response.json()] raises). *)
Inductive http_outcome : Type :=
| NetTimeout
| NetConnectionError
| NetOtherError
| Response (status_code : Z) (body : option pyval).

Record datetime : Type := mkDatetime {
  hour : Z;
  weekday : Z;          (* 0 = Monday, 6 = Sunday *)
  isoformat : string
}.

(** The answers of the outside world, by instant. *)
Record env : Type := mkEnv {
  net : nat -> request -> http_outcome;
  clock : nat -> datetime
}.

(** The log lines that tell which source was consulted. *)
Inductive log_line : Type :=
| RequestingTomTom (lat lon : Q)
| RequestingMapmyIndia (lat lon : Q)
| SimulationFor (city : string).

Record world : Type := mkWorld {
  tick : nat;
  log : list log_line
}.

Inductive outcome (A : Type) : Type :=
| Return (a : A) (w : world)
| Raise (e : exn) (w : world).
Arguments Return {A} a w.
Arguments Raise {A} e w.

Definition M (A : Type) : Type := world -> outcome A.

Definition ret {A} (a : A) : M A := fun w => Return a w.

Definition bind {A B} (c : M A) (k : A -> M B) : M B :=
  fun w => match c w with
           | Return a w' => k a w'
           | Raise e w' => Raise e w'
           end.

Definition raise {A} (e : exn) : M A := fun w => Raise e w.

(** [try: c except Exception as e: h e] *)
Definition try_except {A} (c : M A) (h : exn -> M A) : M A :=
  fun w => match c w with
           | Return a w' => Return a w'
           | Raise e w' => h e w'
           end.

Declare Scope py_scope.
Delimit Scope py_scope with py.
Notation "x <- c ;; k" := (bind c (fun x => k))
  (at level 61, c at next level, right associativity) : py_scope.
Notation "' p <- c ;; k" := (bind c (fun x => let 'p := x in k))
  (at level 61, p pattern, c at next level, right associativity) : py_scope.
Notation "c ;;; k" := (bind c (fun _ => k))
  (at level 61, right associativity) : py_scope.
Local Open Scope py_scope.

Definition logger_info (l : log_line) : M unit :=
  fun w => Return tt {| tick := tick w; log := log w ++ [l] |}.

Section Effects.
Variable E : env.

(** [requests.get(url, params=params, timeout=15)] *)
Definition requests_get (r : request) : M (Z * option pyval) :=
  fun w =>
    let w' := {| tick := S (tick w); log := log w |} in
    match net E (tick w) r with
    | NetTimeout => Raise Timeout w'
    | NetConnectionError => Raise ConnectionError w'
    | NetOtherError => Raise RequestException w'
    | Response status body => Return (status, body) w'
    end.

(** [datetime.now()] *)
Definition datetime_now : M datetime :=
  fun w => Return (clock E (tick w)) {| tick := S (tick w); log := log w |}.
End Effects.

(** [response.json()] *)
Definition response_json (body : option pyval) : M pyval :=
  match body with
  | Some data => ret data
  | None => raise ValueError
  end.

(** ** Python numbers *)

Definition Qltb (x y : Q) : bool := negb (Qle_bool y x).

(** Nearest integer, ties to even. *)
Definition round_half_even (x : Q) : Z :=
  let f := Qfloor x in
  match Qcompare (x - inject_Z f) (1 # 2) with
  | Lt => f
  | Gt => (f + 1)%Z
  | Eq => if Z.even f then f else (f + 1)%Z
  end.

Definition pow2 (e : Z) : Q := Qpower 2 e.

(** The integer part of the binary logarithm of a positive rational. *)
Definition Qlog2 (x : Q) : Z :=
  let k := (Z.log2 (Qnum x) - Z.log2 (Zpos (Qden x)))%Z in
  if Qle_bool (pow2 k) x then k else (k - 1)%Z.

(** The exponent of the last place of the doubles around [x]: 53 bits
    of mantissa, and no exponent below -1074. *)
Definition ulp_exp (x : Q) : Z := Z.max (Qlog2 (Qabs x) - 52) (-1074).

(** The multiple of 2^e nearest to [x], ties to the even multiple. *)
Definition grid (e : Z) (x : Q) : Q :=
  inject_Z (round_half_even (x / pow2 e)) * pow2 e.

(** The double nearest to [x]. *)
Definition b64 (x : Q) : Q := grid (ulp_exp x) x.

(** [x + y], [x - y], [x * y] and [x / y] where a float is involved. *)
Definition fadd (x y : Q) : Q := b64 (b64 x + b64 y).
Definition fsub (x y : Q) : Q := b64 (b64 x - b64 y).
Definition fmul (x y : Q) : Q := b64 (b64 x * b64 y).
Definition fdiv (x y : Q) : Q := b64 (b64 x / b64 y).

(** Beyond the largest double: the nearest double would be 2^1024. *)
Definition too_large (x : Q) : bool := Qle_bool (pow2 1024) (Qabs (b64 x)).

(** The value of an int (or of a float without a fractional part). *)
Definition is_integer (x : Q) : bool := (Qnum x mod Zpos (Qden x) =? 0)%Z.

(** ** Python primitives used by the source *)

Fixpoint dict_lookup (items : list (string * pyval)) (k : string) : option pyval :=
  match items with
  | [] => None
  | (k', v) :: rest => if String.eqb k' k then Some v else dict_lookup rest k
  end.

(** [d.get(k, default)]: only a dict has [get]. *)
Definition py_get (d : pyval) (k : string) (default : pyval) : M pyval :=
  match d with
  | PDict items =>
      match dict_lookup items k with
      | Some v => ret v
      | None => ret default
      end
  | _ => raise AttributeError
  end.

(** The numeric value of a Python object in arithmetic and ordering:
    numbers, and booleans as 1 and 0. *)
Definition py_num (v : pyval) : option Q :=
  match v with
  | PNum q => Some q
  | PBool true => Some 1
  | PBool false => Some 0
  | _ => None
  end.

(** [v > 0] *)
Definition py_gt0 (v : pyval) : M bool :=
  match py_num v with
  | Some q => ret (Qltb 0 q)
  | None => raise TypeError
  end.

(** [a / b]. Between two ints the quotient is rounded once, and a
    quotient beyond the doubles raises OverflowError. When a float is
    involved an int operand is converted first, which raises
    OverflowError when it is beyond the doubles; the division is then
    that of two doubles, which does not raise on overflow. *)
Definition truediv (x y : Q) : exn + Q :=
  if is_integer x && is_integer y then
    if Qeq_bool y 0 then inl ZeroDivisionError
    else if too_large (x / y) then inl OverflowError
    else inr (b64 (x / y))
  else
    if too_large x || too_large y then inl OverflowError
    else if Qeq_bool (b64 y) 0 then inl ZeroDivisionError
    else inr (fdiv x y).

Definition py_truediv (a b : pyval) : M Q :=
  match py_num a, py_num b with
  | Some x, Some y =>
      match truediv x y with
      | inl e => raise e
      | inr q => ret q
      end
  | _, _ => raise TypeError
  end.

(** [f"{v:.0%}"]: a number is formatted as a float, so that an int
    beyond the doubles raises OverflowError; a string raises ValueError,
    the rest TypeError. *)
Definition py_format_percent (v : pyval) : M unit :=
  match v with
  | PNum q => if too_large q then raise OverflowError else ret tt
  | PBool _ => ret tt
  | PStr _ => raise ValueError
  | _ => raise TypeError
  end.

(** [needle in hay] on strings. *)
Fixpoint str_in (needle hay : string) : bool :=
  if String.prefix needle hay then true
  else match hay with
       | EmptyString => false
       | String _ rest => str_in needle rest
       end.

(** [min(a, b)] and [max(a, b)]: the first argument wins ties. *)
Definition py_min (a b : Q) : Q := if Qltb b a then b else a.
Definition py_max (a b : Q) : Q := if Qltb a b then b else a.

(** [round(x, 1)] of a double [x]: the nearest tenth, ties to even. *)
Definition py_round1 (x : Q) : Q := inject_Z (round_half_even (x * 10)) / 10.

(** [int(x)]: truncation towards zero. *)
Definition py_int (x : Q) : Z := Z.quot (Qnum x) (Zpos (Qden x)).

Definition byte_value (c : ascii) : Z := Z.of_nat (nat_of_ascii c).

(** The characters of a string, each as its [ord]: the code points
    that its UTF-8 bytes encode. A byte 10xxxxxx continues the
    character before it with six more bits; any other byte starts a
    character. [pending] is the character being read. *)
Fixpoint ords_from (s : string) (pending : option Z) : list Z :=
  match s with
  | EmptyString =>
      match pending with Some c => [c] | None => [] end
  | String b rest =>
      let n := byte_value b in
      if ((128 <=? n) && (n <? 192))%Z then
        ords_from rest (Some (match pending with
                              | Some c => c * 64 + (n - 128)
                              | None => n - 128
                              end)%Z)
      else
        let lead := (if n <? 128 then n
                     else if n <? 224 then n - 192
                     else if n <? 240 then n - 224
                     else n - 240)%Z in
        match pending with
        | Some c => c :: ords_from rest (Some lead)
        | None => ords_from rest (Some lead)
        end
  end.

(** [[ord(c) for c in s]] *)
Definition ords (s : string) : list Z := ords_from s None.

(** [sum(ord(c) for c in s)]: from 0, one character after the other. *)
Definition sum_ord (s : string) : Z := fold_left Z.add (ords s) 0%Z.

(** Truthiness of a string: non-empty. *)
Definition truthy (s : string) : bool :=
  match s with
  | EmptyString => false
  | String _ _ => true
  end.

(** ["routes" in data]: key of a dict, element of a list, substring of
    a string; anything else is not iterable. *)
Definition py_in_routes (data : pyval) : M bool :=
  match data with
  | PDict items =>
      ret (match dict_lookup items "routes" with Some _ => true | None => false end)
  | PList l =>
      ret (existsb (fun v => match v with
                             | PStr s => String.eqb s "routes"
                             | _ => false
                             end) l)
  | PStr s => ret (str_in "routes" s)
  | _ => raise TypeError
  end.

(** [data[k]] for a string key [k]. *)
Definition py_getitem_str (data : pyval) (k : string) : M pyval :=
  match data with
  | PDict items =>
      match dict_lookup items k with
      | Some v => ret v
      | None => raise KeyError
      end
  | _ => raise TypeError
  end.

(** [len(v)] *)
Definition py_len (v : pyval) : M nat :=
  match v with
  | PStr s => ret (String.length s)
  | PList l => ret (List.length l)
  | PDict items => ret (List.length items)
  | _ => raise TypeError
  end.

(** [v[0]] *)
Definition py_getitem0 (v : pyval) : M pyval :=
  match v with
  | PList (x :: _) => ret x
  | PList [] => raise IndexError
  | PStr (String c _) => ret (PStr (String c EmptyString))
  | PStr EmptyString => raise IndexError
  | PDict _ => raise KeyError
  | _ => raise TypeError
  end.

(** ** The result tuple of the three sources *)

(** [(congestion_percentage, source, current_speed, free_flow_speed)] *)
Definition tuple4 : Type := (option Q * string * pyval * pyval)%type.

Definition NA : pyval := PStr "N/A".

(** The two statements shared by both live clients:
    [congestion = round((1 - speed_ratio) * 100, 1)] and
    [congestion = max(0, min(100, congestion))]. *)
Definition congestion_of_ratio (speed_ratio : Q) : Q :=
  let congestion := py_round1 (fmul (fsub 1 speed_ratio) 100) in
  py_max 0 (py_min 100 congestion).

Section Clients.
Variable E : env.

(** *** traffic_data.py, get_traffic_from_tomtom *)
Definition get_traffic_from_tomtom (lat lon : Q) (api_key : string) : M tuple4 :=
  try_except
    (logger_info (RequestingTomTom lat lon) ;;;
     '(status_code, body) <- requests_get E (TomTomFlow api_key lat lon) ;;
     if (status_code =? 200)%Z then
       data <- response_json body ;;
       flow_data <- py_get data "flowSegmentData" (PDict []) ;;
       current_speed <- py_get flow_data "currentSpeed" (PNum 0) ;;
       free_flow_speed <- py_get flow_data "freeFlowSpeed" (PNum 1) ;;
       current_travel_time <- py_get flow_data "currentTravelTime" (PNum 0) ;;
       free_flow_travel_time <- py_get flow_data "freeFlowTravelTime" (PNum 1) ;;
       confidence <- py_get flow_data "confidence" (PNum 0) ;;
       positive <- py_gt0 free_flow_speed ;;
       if positive then
         speed_ratio <- py_truediv current_speed free_flow_speed ;;
         let congestion := congestion_of_ratio speed_ratio in
         py_format_percent confidence ;;;
         ret (Some congestion, "TomTom Traffic API", current_speed, free_flow_speed)
       else
         ret (None, "TomTom Failed", NA, NA)
     else if (status_code =? 401)%Z then
       ret (None, "TomTom Auth Failed", NA, NA)
     else if (status_code =? 403)%Z then
       ret (None, "TomTom Forbidden", NA, NA)
     else if (status_code =? 429)%Z then
       ret (None, "TomTom Rate Limited", NA, NA)
     else
       ret (None, "TomTom Failed", NA, NA))
    (fun e =>
       match e with
       | Timeout => ret (None, "TomTom Timeout", NA, NA)
       | ConnectionError => ret (None, "TomTom Connection Failed", NA, NA)
       | _ => ret (None, "TomTom Error", NA, NA)
       end).

(** *** traffic_data.py, get_traffic_from_mapmyindia

    The function returns a tuple on some paths and falls off its end
    on the others; falling off the end returns Python's [None], which
    is the [None] of the [option] here. *)
Definition get_traffic_from_mapmyindia (lat lon : Q) (api_key : string)
  : M (option tuple4) :=
  try_except
    (let start_lon := lon in
     let start_lat := lat in
     let end_lon := fadd lon 0.01 in
     let end_lat := fadd lat 0.01 in
     logger_info (RequestingMapmyIndia lat lon) ;;;
     '(status_code, body) <-
        requests_get E (MapmyIndiaRoute api_key start_lon start_lat end_lon end_lat) ;;
     if (status_code =? 200)%Z then
       data <- response_json body ;;
       has_routes <- py_in_routes data ;;
       nonempty <- (if has_routes
                    then routes <- py_getitem_str data "routes" ;;
                         n <- py_len routes ;;
                         ret (0 <? n)%nat
                    else ret false) ;;
       if nonempty then
         routes <- py_getitem_str data "routes" ;;
         route <- py_getitem0 routes ;;
         duration <- py_get route "duration" (PNum 0) ;;
         distance <- py_get route "distance" (PNum 1) ;;
         distance_pos <- py_gt0 distance ;;
         both_pos <- (if distance_pos then py_gt0 duration else ret false) ;;
         if both_pos then
           km <- py_truediv distance (PNum 1000) ;;
           hours <- py_truediv duration (PNum 3600) ;;
           current_speed <- py_truediv (PNum km) (PNum hours) ;;
           let free_flow_speed := 50 in
           let speed_ratio := fdiv current_speed free_flow_speed in
           let congestion := congestion_of_ratio speed_ratio in
           ret (Some (Some congestion, "MapmyIndia Route API",
                      PNum (py_round1 current_speed), PNum free_flow_speed))
         else ret None
       else ret None
     else if (status_code =? 401)%Z then
       ret (Some (None, "MapmyIndia Auth Failed", NA, NA))
     else
       ret (Some (None, "MapmyIndia Failed", NA, NA)))
    (fun e => ret (Some (None, "MapmyIndia Error", NA, NA))).
End Clients.

(** ** traffic_data.py, get_simulated_congestion *)

(** [seed = sum(ord(c) for c in city) + int(lat * 100) + int(lon * 100)] *)
Definition sim_seed (city : string) (lat lon : Q) : Z :=
  (sum_ord city + py_int (fmul lat 100) + py_int (fmul lon 100))%Z.

(** [base_congestion = (seed % 40) + 20]; Python's [%] takes the sign of
    the divisor, as [Z.modulo] does. *)
Definition sim_base_congestion (seed : Z) : Z := (seed mod 40 + 20)%Z.

Definition rush_factor (hour : Z) : Q :=
  if ((7 <=? hour) && (hour <=? 10))%Z then 1.5
  else if ((17 <=? hour) && (hour <=? 20))%Z then 1.6
  else if ((11 <=? hour) && (hour <=? 16))%Z then 1.2
  else 0.8.

Definition weekend_factor (day_of_week : Z) : Q :=
  if (5 <=? day_of_week)%Z then 0.7 else 1.0.

Definition city_factors : list (string * Q) :=
  [ ("Mumbai", 1.3); ("Delhi", 1.25); ("Bengaluru", 1.4); ("Chennai", 1.1);
    ("Pune", 1.15); ("Hyderabad", 1.1); ("Kolkata", 1.2); ("Ahmedabad", 1.05);
    ("Jaipur", 1.0); ("Lucknow", 0.95) ].

(** [table.get(key, default)] on a dict of numbers. *)
Fixpoint factor_get (table : list (string * Q)) (key : string) (default : Q) : Q :=
  match table with
  | [] => default
  | (k, v) :: rest => if String.eqb k key then v else factor_get rest key default
  end.

(** The function body after [now = datetime.now()], as a function of
    the time read. *)
Definition simulated_congestion_at (now : datetime) (city : string) (lat lon : Q)
  : tuple4 :=
  let seed := sim_seed city lat lon in
  let hour := hour now in
  let day_of_week := weekday now in
  let base_congestion := sim_base_congestion seed in
  let rush_factor := rush_factor hour in
  let weekend_factor := weekend_factor day_of_week in
  let city_factor := factor_get city_factors city 1.0 in
  let congestion :=
    fmul (fmul (fmul (inject_Z base_congestion) rush_factor) weekend_factor)
         city_factor in
  let congestion := py_min congestion 100 in
  let congestion := py_round1 congestion in
  let free_flow_speed := 50 in
  let speed_reduction := fdiv congestion 100 in
  let current_speed := py_round1 (fmul free_flow_speed (fsub 1 speed_reduction)) in
  (Some congestion, "AI Prediction Model", PNum current_speed, PNum free_flow_speed).

(** ** traffic_data.py, get_congestion_for_cities *)

(** One entry of [results]. *)
Record reading : Type := mkReading {
  r_city : string;
  r_lat : Q;
  r_lon : Q;
  r_congestion : option Q;
  r_source : string;
  r_current_speed : pyval;
  r_free_flow_speed : pyval;
  r_timestamp : string
}.

Definition is_none {A} (o : option A) : bool :=
  match o with None => true | Some _ => false end.

(** [a, b, c, d = f(...)]: unpacking Python's [None] raises TypeError. *)
Definition unpack (r : option tuple4) : M tuple4 :=
  match r with
  | Some t => ret t
  | None => raise TypeError
  end.

Section Orchestrator.
Variable E : env.

Definition get_simulated_congestion (city : string) (lat lon : Q) : M tuple4 :=
  now <- datetime_now E ;;
  logger_info (SimulationFor city) ;;;
  ret (simulated_congestion_at now city lat lon).

(** The body of the [for city, (lat, lon) in city_coords.items()] loop:
    it yields the entry appended to [results] and the new values of
    [api_working] and [api_source]. *)
Definition process_city (tomtom_key mapmyindia_key : string)
    (api_working : bool) (api_source : string)
    (city : string) (lat lon : Q) : M (reading * bool * string) :=
  let congestion : option Q := None in
  let source := "Unknown" in
  let current_speed := NA in
  let free_flow_speed := NA in
  (* Try TomTom first *)
  '(congestion, source, current_speed, free_flow_speed, api_working, api_source) <-
    (if truthy tomtom_key then
       '(congestion, source, current_speed, free_flow_speed) <-
          get_traffic_from_tomtom E lat lon tomtom_key ;;
       if negb (is_none congestion) && str_in "API" source
       then ret (congestion, source, current_speed, free_flow_speed,
                 true, "TomTom Traffic API")
       else ret (congestion, source, current_speed, free_flow_speed,
                 api_working, api_source)
     else ret (congestion, source, current_speed, free_flow_speed,
               api_working, api_source)) ;;
  (* Try MapmyIndia as backup *)
  '(congestion, source, current_speed, free_flow_speed, api_working, api_source) <-
    (if is_none congestion && truthy mapmyindia_key then
       returned <- get_traffic_from_mapmyindia E lat lon mapmyindia_key ;;
       '(congestion, source, current_speed, free_flow_speed) <- unpack returned ;;
       if negb (is_none congestion) && str_in "API" source
       then ret (congestion, source, current_speed, free_flow_speed,
                 true, "MapmyIndia Route API")
       else ret (congestion, source, current_speed, free_flow_speed,
                 api_working, api_source)
     else ret (congestion, source, current_speed, free_flow_speed,
               api_working, api_source)) ;;
  (* Fallback to simulation *)
  '(congestion, source, current_speed, free_flow_speed) <-
    (if is_none congestion then get_simulated_congestion city lat lon
     else ret (congestion, source, current_speed, free_flow_speed)) ;;
  now <- datetime_now E ;;
  ret ({| r_city := city; r_lat := lat; r_lon := lon;
          r_congestion := congestion; r_source := source;
          r_current_speed := current_speed;
          r_free_flow_speed := free_flow_speed;
          r_timestamp := isoformat now |},
       api_working, api_source).

(** The loop over [city_coords.items()], in the dict's order. *)
Fixpoint for_cities (items : list (string * (Q * Q)))
    (tomtom_key mapmyindia_key : string)
    (results : list reading) (api_working : bool) (api_source : string)
  : M (list reading * bool * string) :=
  match items with
  | [] => ret (results, api_working, api_source)
  | (city, (lat, lon)) :: rest =>
      '(entry, api_working, api_source) <-
         process_city tomtom_key mapmyindia_key api_working api_source city lat lon ;;
      for_cities rest tomtom_key mapmyindia_key (results ++ [entry])
                 api_working api_source
  end.

(** [city_coords] is the list of the dict's items in insertion order. *)
Definition get_congestion_for_cities (city_coords : list (string * (Q * Q)))
    (tomtom_key mapmyindia_key : string) : M (list reading * bool * string) :=
  let results := [] in
  let api_working := false in
  let api_source := "None" in
  started <- datetime_now E ;;
  for_cities city_coords tomtom_key mapmyindia_key results api_working api_source.
End Orchestrator.

(** ** utils.py *)

Definition congestion_to_color (congestion : Q) : string :=
  if Qltb congestion 30 then "#48bb78"
  else if Qltb congestion 60 then "#ecc94b"
  else "#f56565".

Definition get_congestion_status (congestion : Q) : string * string * string :=
  if Qltb congestion 30 then ("Free Flow", "🟢", "#48bb78")
  else if Qltb congestion 60 then ("Moderate Traffic", "🟡", "#ecc94b")
  else ("Heavy Congestion", "🔴", "#f56565").

(** [normalize_congestion]: [min(max(congestion / 100, 0), 1.0)] *)
Definition normalize_congestion (congestion : Q) : Q :=
  py_min (py_max (fdiv congestion 100) 0) 1.0.

(** [radius_from_congestion]: [int(5 + (congestion / 100) * 15)] *)
Definition radius_from_congestion (congestion : Q) : Z :=
  py_int (fadd 5 (fmul (fdiv congestion 100) 15)).

Definition get_traffic_advice (congestion : Q) : string :=
  if Qltb congestion 30 then
    "Traffic is moving smoothly. Excellent time to travel!"
  else if Qltb congestion 45 then
    "Light traffic. Good conditions for travel with minimal delays."
  else if Qltb congestion 60 then
    "Moderate traffic. Expect some delays. Plan extra time."
  else if Qltb congestion 75 then
    "Heavy traffic. Significant delays expected. Consider alternate routes."
  else
    "Severe congestion. Major delays. Avoid if possible or use public transport.".

(** [calculate_eta_multiplier]: [1.0 + (congestion / 100) * 2.0] *)
Definition calculate_eta_multiplier (congestion : Q) : Q :=
  fadd 1.0 (fmul (fdiv congestion 100) 2.0).

(** The dict that [get_rush_hour_info] returns, by its four keys. *)
Record rush_hour_info : Type := mkRushHourInfo {
  is_rush_hour : bool;
  period : string;
  description : string;
  icon : string
}.

Definition get_rush_hour_info (hour : Z) : rush_hour_info :=
  if ((7 <=? hour) && (hour <=? 10))%Z then
    {| is_rush_hour := true;
       period := "Morning Rush";
       description := "High traffic - Morning commute hours";
       icon := "🌅" |}
  else if ((17 <=? hour) && (hour <=? 20))%Z then
    {| is_rush_hour := true;
       period := "Evening Rush";
       description := "High traffic - Evening commute hours";
       icon := "🌆" |}
  else if ((0 <=? hour) && (hour <=? 6))%Z then
    {| is_rush_hour := false;
       period := "Night";
       description := "Low traffic - Late night/early morning";
       icon := "🌙" |}
  else
    {| is_rush_hour := false;
       period := "Off-Peak";
       description := "Moderate traffic - Off-peak hours";
       icon := "☀️" |}.

Definition categorize_congestion (congestion : Q) : string :=
  if Qltb congestion 30 then "Low"
  else if Qltb congestion 60 then "Moderate"
  else if Qltb congestion 80 then "High"
  else "Severe".

(** The initial world of a run. *)
Definition w0 : world := {| tick := 0; log := [] |}.

(** * Vocabulary of the statements *)

(** ** Numbers *)

(** A double: a rational that rounding leaves alone. *)
Definition is_double (x : Q) : Prop := b64 x == x.

(** ** Shapes of answers *)

(** The exceptions that come from handling data, as opposed to those of
    the network. *)
Definition data_error (e : exn) : Prop :=
  match e with
  | Timeout | ConnectionError | RequestException => False
  | _ => True
  end.

(** Between the request and the [return], a client body touches neither
    the network nor the clock nor the log: each step either yields a
    value in the same world or raises a data error in it. *)
Definition pure_or_raise {A} (c : M A) (P : A -> Prop) : Prop :=
  forall w, (exists a, c w = Return a w /\ P a) \/
            (exists e, c w = Raise e w /\ data_error e).

Definition anything {A} (_ : A) : Prop := True.

(** A failure carries no congestion and no speeds, and its label does
    not read as a live one. *)
Definition failure_tuple (t : tuple4) : Prop :=
  exists label, t = (None, label, NA, NA) /\ str_in "API" label = false.

(** A success carries the client's label and a congestion in range. *)
Definition success_tuple (label : string) (t : tuple4) : Prop :=
  exists c cs ffs, t = (Some c, label, cs, ffs) /\ 0 <= c <= 100.

(** A source was called once: one more instant, one more log line. *)
Definition after_call (l : log_line) (w w' : world) : Prop :=
  tick w' = S (tick w) /\ log w' = (log w ++ [l])%list.

(** Client B returns a tuple of the same two shapes, or nothing at
    all when it falls off the end of its body. *)
Definition mapmyindia_shape (r : option tuple4) : Prop :=
  r = None \/
  exists t, r = Some t /\
            (failure_tuple t \/ success_tuple "MapmyIndia Route API" t).

(** The parse failure of Client A: no congestion, and a label other
    than the success label. *)
Definition parse_failure (t : tuple4) : Prop :=
  fst (fst (fst t)) = None /\ snd (fst (fst t)) <> "TomTom Traffic API".

(** [flow_data.get(k, default)] once [flow_data] is known to be a dict. *)
Definition field_or (flow : list (string * pyval)) (k : string) (default : pyval)
  : pyval :=
  match dict_lookup flow k with
  | Some v => v
  | None => default
  end.

(** The failure of Client B inside its [try]. *)
Definition mapmyindia_error : tuple4 := (None, "MapmyIndia Error", NA, NA).


(** ** Entries and summary of a run *)

(** The orchestrator's test of a live label: ["API" in source]. *)
Definition live (r : reading) : bool := str_in "API" (r_source r).

(** What a completed iteration hands to the loop. *)
Record step_ok (api_working : bool) (api_source : string)
    (city : string) (lat lon : Q)
    (entry : reading) (api_working' : bool) (api_source' : string) : Prop := {
  so_city : r_city entry = city;
  so_lat : r_lat entry = lat;
  so_lon : r_lon entry = lon;
  so_congestion : exists c, r_congestion entry = Some c /\ 0 <= c <= 100;
  so_summary :
    if live entry
    then api_working' = true /\ api_source' = r_source entry
    else api_working' = api_working /\ api_source' = api_source
}.

(** The one way an iteration ends in an exception: the secondary key is
    configured and Client B returned nothing. *)
Definition fell_off_the_end (E : env) (mapmyindia_key : string) (w' : world) : Prop :=
  truthy mapmyindia_key = true /\
  exists lat lon w1,
    get_traffic_from_mapmyindia E lat lon mapmyindia_key w1 = Return None w'.

(** The name the loop leaves in [api_source]: each live entry
    overwrites it. *)
Definition last_live_source (entries : list reading) (initial : string) : string :=
  fold_left (fun name r => if live r then r_source r else name) entries initial.

(** The label of the last live entry, "None" without one. *)
Definition source_of_last_live (results : list reading) : string :=
  match find live (rev results) with
  | Some r => r_source r
  | None => "None"
  end.

(** An entry answers the item of [city_coords] it was made for. *)
Definition reading_of (item : string * (Q * Q)) (r : reading) : Prop :=
  r_city r = fst item /\ r_lat r = fst (snd item) /\ r_lon r = snd (snd item) /\
  exists c, r_congestion r = Some c /\ 0 <= c <= 100.

(** ** The specification's formulas *)

(** The specification's clamp. *)
Definition clamp (x lo hi : Q) : Q := Qmax lo (Qmin x hi).






(** The sum of a list of integers. *)
Definition Zsum (l : list Z) : Z := fold_right Z.add 0%Z l.

(** A name of ASCII characters only. *)
Definition all_ascii (s : string) : bool :=
  forallb (fun b => (byte_value b <? 128)%Z) (list_ascii_of_string s).

(** Follows the specification's words (section 4.4, step 1):
    [seed = sum(character codes of city name) + floor(lat*100)
            + floor(lon*100)], in exact arithmetic. *)
Definition seed_spec (city : string) (lat lon : Q) : Z :=
  (Zsum (ords city) + Qfloor (lat * 100) + Qfloor (lon * 100))%Z.

(** Rounding towards zero: down for a non-negative number, up for a
    negative one. *)
Definition toward_zero (x : Q) : Z :=
  if Qle_bool 0 x then Qfloor x else Qceiling x.

(** Two times are in the same hour-of-day bucket when the rush-hour
    rule gives them the same factor; two times of the same hour are. *)
Definition same_hour_bucket (t1 t2 : datetime) : Prop :=
  rush_factor (hour t1) = rush_factor (hour t2).

(** Two times are in the same class of day when both or neither fall
    on a weekend. *)
Definition same_day_class (t1 t2 : datetime) : Prop :=
  (5 <=? weekday t1)%Z = (5 <=? weekday t2)%Z.

(** Follows the specification's words (section 4.5): [activeSourceName]
    names the first live source that succeeded across the whole run,
    and the primary's name is reported whenever the primary succeeded
    for some city. *)
Definition first_live_source (results : list reading) : string :=
  match find live results with
  | Some r => r_source r
  | None => "None"
  end.

Definition names_first_live_source (run : outcome (list reading * bool * string))
  : Prop :=
  match run with
  | Return (results, _, api_source) _ =>
      api_source = first_live_source results /\
      (Exists (fun r => r_source r = "TomTom Traffic API") results ->
       api_source = "TomTom Traffic API")
  | Raise _ _ => True
  end.

(** ** Traces and labels *)

(** The three labels under which an entry can reach [results]. *)
Definition final_label (source : string) : Prop :=
  source = "TomTom Traffic API" \/
  source = "MapmyIndia Route API" \/
  source = "AI Prediction Model".

(** The sources that an iteration consults, in order, read off the keys
    and the label of the entry it produced: the primary when its key is
    set; then, unless the primary produced the entry, the secondary when
    its key is set; then, unless the secondary produced it, the
    simulator. *)
Definition consulted (tomtom_key mapmyindia_key : string)
    (city : string) (lat lon : Q) (source : string) : list log_line :=
  ((if truthy tomtom_key then [RequestingTomTom lat lon] else []) ++
   (if String.eqb source "TomTom Traffic API" then []
    else (if truthy mapmyindia_key then [RequestingMapmyIndia lat lon] else []) ++
         (if String.eqb source "MapmyIndia Route API" then []
          else [SimulationFor city])))%list.

Definition entry_log (tomtom_key mapmyindia_key : string) (r : reading)
  : list log_line :=
  consulted tomtom_key mapmyindia_key (r_city r) (r_lat r) (r_lon r) (r_source r).

(** A log line that the keys allow: a request only to a client whose
    key is set. *)
Definition allowed_by_keys (tomtom_key mapmyindia_key : string) (l : log_line)
  : Prop :=
  match l with
  | RequestingTomTom _ _ => truthy tomtom_key = true
  | RequestingMapmyIndia _ _ => truthy mapmyindia_key = true
  | SimulationFor _ => True
  end.

(** The number of clock readings and requests of an iteration that
    produced [r]: one per consulted source, and one for the timestamp. *)
Definition entry_ticks (tomtom_key mapmyindia_key : string) (r : reading) : nat :=
  S (List.length (entry_log tomtom_key mapmyindia_key r)).

(** The world in which a computation ended, either way. *)
Definition world_of {A} (o : outcome A) : world :=
  match o with
  | Return _ w => w
  | Raise _ w => w
  end.

(** A final label, and the key that a live label presupposes. *)
Definition label_with_key (tomtom_key mapmyindia_key : string) (source : string)
  : Prop :=
  final_label source /\
  (source = "TomTom Traffic API" -> truthy tomtom_key = true) /\
  (source = "MapmyIndia Route API" -> truthy mapmyindia_key = true).

(** The primary left the city without a congestion: its key is not
    set and it was not called, or it was called from [w], returned to
    [w1] and reported a failure. *)
Definition primary_gave_nothing (E : env) (tomtom_key : string)
    (lat lon : Q) (w w1 : world) : Prop :=
  (truthy tomtom_key = false /\ w1 = w) \/
  (truthy tomtom_key = true /\
   exists label cs ffs,
     get_traffic_from_tomtom E lat lon tomtom_key w
     = Return (None, label, cs, ffs) w1).

(** The secondary left the city without a congestion, but returned. *)
Definition secondary_gave_nothing (E : env) (mapmyindia_key : string)
    (lat lon : Q) (w1 w2 : world) : Prop :=
  (truthy mapmyindia_key = false /\ w2 = w1) \/
  (truthy mapmyindia_key = true /\
   exists label cs ffs,
     get_traffic_from_mapmyindia E lat lon mapmyindia_key w1
     = Return (Some (None, label, cs, ffs)) w2).

(** ** Sample worlds *)

Definition wednesday_8am : datetime := mkDatetime 8 2 "2024-01-03T08:00:00".

(** A flow-segment body with the given speeds. *)
Definition flow_body (current_speed free_flow_speed : Q) : pyval :=
  PDict [("flowSegmentData",
          PDict [("currentSpeed", PNum current_speed);
                 ("freeFlowSpeed", PNum free_flow_speed);
                 ("currentTravelTime", PNum 120);
                 ("freeFlowTravelTime", PNum 60);
                 ("confidence", PNum 0.9)])].

(** A routing body with one route. *)
Definition route_body (duration distance : Q) : pyval :=
  PDict [("routes", PList [PDict [("duration", PNum duration);
                                  ("distance", PNum distance)]])].

(** Every request is answered 200 with the same body. *)
Definition env_always_200 (body : pyval) : env :=
  {| net := fun _ _ => Response 200 (Some body); clock := fun _ => wednesday_8am |}.

(** The primary answers 200 with [flow_body 25 50] up to instant 1, the
    instant of the first request of a run, and 429 afterwards; the
    secondary answers every request with [secondary]. *)
Definition env_primary_once (secondary : http_outcome) : env :=
  {| net := fun t r =>
              match r with
              | TomTomFlow _ _ _ =>
                  if (t <=? 1)%nat then Response 200 (Some (flow_body 25 50))
                  else Response 429 None
              | MapmyIndiaRoute _ _ _ _ _ => secondary
              end;
     clock := fun _ => wednesday_8am |}.

(** No network, and a clock that stands at [t]. *)
Definition env_at (t : datetime) : env :=
  {| net := fun _ _ => NetTimeout; clock := fun _ => t |}.

Definition pune : string * (Q * Q) := ("Pune", (18.5204, 73.8567)).

Definition mumbai : string * (Q * Q) := ("Mumbai", (19.0760, 72.8777)).

(** Every request meets the same outcome. *)
Definition env_always (o : http_outcome) : env :=
  {| net := fun _ _ => o; clock := fun _ => wednesday_8am |}.

(** A run over two cities with both keys configured, in the world where
    the primary answers its first request alone and the secondary finds
    a route of 1000 m in 90 s: its entries and the world it leaves. *)
Definition two_city_env : env :=
  env_primary_once (Response 200 (Some (route_body 90 1000))).

Definition two_city_results : list reading :=
  [ {| r_city := "Mumbai"; r_lat := 19.0760; r_lon := 72.8777;
       r_congestion := Some 50.0; r_source := "TomTom Traffic API";
       r_current_speed := PNum 25; r_free_flow_speed := PNum 50;
       r_timestamp := "2024-01-03T08:00:00" |};
    {| r_city := "Pune"; r_lat := 18.5204; r_lon := 73.8567;
       r_congestion := Some 20.0; r_source := "MapmyIndia Route API";
       r_current_speed := PNum 40.0; r_free_flow_speed := PNum 50;
       r_timestamp := "2024-01-03T08:00:00" |} ].

Definition two_city_world : world :=
  {| tick := 6;
     log := [RequestingTomTom 19.0760 72.8777;
             RequestingTomTom 18.5204 73.8567;
             RequestingMapmyIndia 18.5204 73.8567] |}.
(** * Properties *)

(** ** Arithmetic of the Python primitives *)

(** [lra] does not read a division: turn [x / c], for a literal [c],
    into a product first. *)
Ltac qlra :=
  unfold Qdiv in *;
  repeat match goal with
         | H : context [Qinv (Qmake ?n ?d)] |- _ =>
             let v := eval cbv in (Qinv (Qmake n d)) in
             change (Qinv (Qmake n d)) with v in H
         | |- context [Qinv (Qmake ?n ?d)] =>
             let v := eval cbv in (Qinv (Qmake n d)) in
             change (Qinv (Qmake n d)) with v
         end;
  lra.

Lemma Qltb_lt (x y : Q) : Qltb x y = true <-> x < y.
Proof.
  unfold Qltb. rewrite negb_true_iff. split; intros H.
  - apply Qnot_le_lt. intros Hle. apply Qle_bool_iff in Hle. congruence.
  - destruct (Qle_bool y x) eqn:Hb; [| reflexivity].
    apply Qle_bool_iff in Hb. apply Qle_not_lt in Hb. contradiction.
Qed.

Lemma Qltb_ge (x y : Q) : Qltb x y = false <-> y <= x.
Proof.
  unfold Qltb. rewrite negb_false_iff. apply Qle_bool_iff.
Qed.

(** Rounding never crosses an integer. *)
Lemma round_half_even_floor (x : Q) :
  round_half_even x = Qfloor x \/
  (round_half_even x = (Qfloor x + 1)%Z /\ inject_Z (Qfloor x) < x).
Proof.
  unfold round_half_even.
  destruct (Qcompare (x - inject_Z (Qfloor x)) (1 # 2)) eqn:Hc.
  - apply Qeq_alt in Hc.
    destruct (Z.even (Qfloor x)); [left; reflexivity |].
    right. split; [reflexivity | lra].
  - left; reflexivity.
  - apply Qgt_alt in Hc. right. split; [reflexivity | lra].
Qed.

Lemma round_half_even_ge (x : Q) (k : Z) :
  inject_Z k <= x -> (k <= round_half_even x)%Z.
Proof.
  intros H. apply Qfloor_resp_le in H. rewrite Qfloor_Z in H.
  destruct (round_half_even_floor x) as [-> | [-> _]]; lia.
Qed.

Lemma round_half_even_le (x : Q) (k : Z) :
  x <= inject_Z k -> (round_half_even x <= k)%Z.
Proof.
  intros H.
  destruct (round_half_even_floor x) as [-> | [-> Hlt]].
  - apply Qfloor_resp_le in H. now rewrite Qfloor_Z in H.
  - assert (Hk : inject_Z (Qfloor x) < inject_Z k) by lra.
    rewrite <- Zlt_Qlt in Hk. lia.
Qed.

#[global] Instance round_half_even_comp : Proper (Qeq ==> eq) round_half_even.
Proof.
  intros x y Hxy. unfold round_half_even.
  rewrite (Qfloor_comp _ _ Hxy).
  assert (Hc : Qcompare (x - inject_Z (Qfloor y)) (1 # 2)
               = Qcompare (y - inject_Z (Qfloor y)) (1 # 2)).
  { apply Qcompare_comp; [rewrite Hxy |]; reflexivity. }
  now rewrite Hc.
Qed.

#[global] Instance py_round1_comp : Proper (Qeq ==> Qeq) py_round1.
Proof.
  intros x y Hxy. unfold py_round1.
  assert (H : x * 10 == y * 10) by (rewrite Hxy; reflexivity).
  now rewrite (round_half_even_comp _ _ H).
Qed.

(** [round(x, 1)] never crosses a multiple of a tenth. *)
Lemma py_round1_ge (x : Q) (k : Z) :
  inject_Z k / 10 <= x -> inject_Z k / 10 <= py_round1 x.
Proof.
  intros H. unfold py_round1.
  assert (Hk : (k <= round_half_even (x * 10))%Z).
  { apply round_half_even_ge. qlra. }
  rewrite Zle_Qle in Hk. qlra.
Qed.

Lemma py_round1_le (x : Q) (k : Z) :
  x <= inject_Z k / 10 -> py_round1 x <= inject_Z k / 10.
Proof.
  intros H. unfold py_round1.
  assert (Hk : (round_half_even (x * 10) <= k)%Z).
  { apply round_half_even_le. qlra. }
  rewrite Zle_Qle in Hk. qlra.
Qed.

Lemma py_round1_nonneg (x : Q) : 0 <= x -> 0 <= py_round1 x.
Proof.
  intros H. assert (Hr : inject_Z 0 / 10 <= py_round1 x).
  { apply py_round1_ge. change (inject_Z 0 / 10) with (0 # 10). lra. }
  change (inject_Z 0 / 10) with (0 # 10) in Hr. lra.
Qed.

Lemma py_round1_nonpos (x : Q) : x <= 0 -> py_round1 x <= 0.
Proof.
  intros H. assert (Hr : py_round1 x <= inject_Z 0 / 10).
  { apply py_round1_le. change (inject_Z 0 / 10) with (0 # 10). lra. }
  change (inject_Z 0 / 10) with (0 # 10) in Hr. lra.
Qed.

Lemma py_round1_le_100 (x : Q) : x <= 100 -> py_round1 x <= 100.
Proof.
  intros H. assert (Hr : py_round1 x <= inject_Z 1000 / 10).
  { apply py_round1_le. change (inject_Z 1000 / 10) with (1000 # 10). lra. }
  change (inject_Z 1000 / 10) with (1000 # 10) in Hr. lra.
Qed.

Lemma py_round1_ge_100 (x : Q) : 100 <= x -> 100 <= py_round1 x.
Proof.
  intros H. assert (Hr : inject_Z 1000 / 10 <= py_round1 x).
  { apply py_round1_ge. change (inject_Z 1000 / 10) with (1000 # 10). lra. }
  change (inject_Z 1000 / 10) with (1000 # 10) in Hr. lra.
Qed.

(** [max(0, min(100, c))] lands in [0, 100] whatever [c] is. *)
Lemma clamp_range (c : Q) : 0 <= py_max 0 (py_min 100 c) <= 100.
Proof.
  unfold py_max, py_min.
  destruct (Qltb c 100) eqn:H1.
  - apply Qltb_lt in H1.
    destruct (Qltb 0 c) eqn:H2; [apply Qltb_lt in H2 |]; lra.
  - destruct (Qltb 0 100) eqn:H2; [| discriminate]. lra.
Qed.

Lemma congestion_of_ratio_range (r : Q) : 0 <= congestion_of_ratio r <= 100.
Proof. apply clamp_range. Qed.

(** ** Rounding against clamping, and truncation *)

Lemma clamp_cases (x : Q) :
  (x <= 0 /\ clamp x 0 100 == 0) \/
  (0 <= x <= 100 /\ clamp x 0 100 == x) \/
  (100 <= x /\ clamp x 0 100 == 100).
Proof.
  unfold clamp.
  destruct (Q.min_spec x 100) as [[H1 E1] | [H1 E1]];
    destruct (Q.max_spec 0 (Qmin x 100)) as [[H2 E2] | [H2 E2]];
    rewrite E2; clear E2; rewrite E1 in *.
  - right; left. split; [lra | reflexivity].
  - left. split; [lra | reflexivity].
  - right; right. split; [lra | reflexivity].
  - lra.
Qed.

(** The code rounds and then clamps. *)
Lemma round_then_clamp_cases (x : Q) :
  (x <= 0 -> py_max 0 (py_min 100 (py_round1 x)) == 0) /\
  (0 <= x <= 100 -> py_max 0 (py_min 100 (py_round1 x)) == py_round1 x) /\
  (100 <= x -> py_max 0 (py_min 100 (py_round1 x)) == 100).
Proof.
  pose proof (py_round1_nonpos x) as Hnp.
  pose proof (py_round1_nonneg x) as Hnn.
  pose proof (py_round1_le_100 x) as Hle.
  pose proof (py_round1_ge_100 x) as Hge.
  unfold py_max, py_min.
  destruct (Qltb (py_round1 x) 100) eqn:H1;
    [apply Qltb_lt in H1 | apply Qltb_ge in H1];
    (destruct (Qltb 0 _) eqn:H2; [apply Qltb_lt in H2 | apply Qltb_ge in H2]);
    repeat split; intros H; try reflexivity; try lra.
Qed.

Lemma round_then_clamp_is_spec (x : Q) :
  py_max 0 (py_min 100 (py_round1 x)) == py_round1 (clamp x 0 100).
Proof.
  destruct (round_then_clamp_cases x) as (Hlo & Hmid & Hhi).
  destruct (clamp_cases x) as [[H E] | [[H E] | [H E]]]; rewrite E.
  - rewrite (Hlo H). reflexivity.
  - apply Hmid, H.
  - rewrite (Hhi H). reflexivity.
Qed.

Lemma py_int_toward_zero (x : Q) : py_int x = toward_zero x.
Proof.
  unfold py_int, toward_zero, Qceiling, Qfloor, Qle_bool, Qopp.
  destruct x as [n d]. cbn [Qnum Qden].
  rewrite Z.mul_1_r. cbn [Z.mul].
  destruct (Z.leb_spec 0 n) as [Hn | Hn].
  - apply Z.quot_div_nonneg; lia.
  - rewrite <- (Z.quot_div_nonneg (- n) (Z.pos d)) by lia.
    rewrite Z.quot_opp_l by lia. lia.
Qed.

Lemma py_int_floor_nonneg (x : Q) : 0 <= x -> py_int x = Qfloor x.
Proof.
  intros H. rewrite py_int_toward_zero. unfold toward_zero.
  apply Qle_bool_iff in H. now rewrite H.
Qed.

(** ** Binary floating point *)

(** *** Powers of two and the binary logarithm *)

Lemma pow2_pos (e : Z) : 0 < pow2 e.
Proof. apply Qpower_0_lt. reflexivity. Qed.

Lemma pow2_add (a b : Z) : pow2 (a + b) == pow2 a * pow2 b.
Proof. apply Qpower_plus. discriminate. Qed.

Lemma pow2_le (a b : Z) : (a <= b)%Z -> pow2 a <= pow2 b.
Proof. intros H. apply Qpower_le_compat_l; [exact H | discriminate]. Qed.

Lemma pow2_lt (a b : Z) : (a < b)%Z -> pow2 a < pow2 b.
Proof. intros H. apply Qpower_lt_compat_l; [exact H | reflexivity]. Qed.

Lemma pow2_lt_inv (a b : Z) : pow2 a < pow2 b -> (a < b)%Z.
Proof. intros H. apply (Qpower_lt_compat_l_inv 2); [exact H | reflexivity]. Qed.

Lemma pow2_Z (n : Z) : (0 <= n)%Z -> pow2 n == inject_Z (2 ^ n).
Proof. intros H. unfold pow2. now rewrite Zpower_Qpower. Qed.

Lemma Qlog2_spec (x : Q) : 0 < x -> pow2 (Qlog2 x) <= x < pow2 (Qlog2 x + 1).
Proof.
  intros Hx. unfold Qlog2.
  destruct x as [n d]. cbn [Qnum Qden].
  assert (Hn : (0 < n)%Z).
  { unfold Qlt in Hx. cbn in Hx. lia. }
  set (a := Z.log2 n). set (b := Z.log2 (Z.pos d)).
  pose proof (Z.log2_spec n Hn) as [Ha1 Ha2]. fold a in Ha1, Ha2.
  pose proof (Z.log2_spec (Z.pos d) (Pos2Z.is_pos d)) as [Hb1 Hb2]. fold b in Hb1, Hb2.
  pose proof (Z.log2_nonneg n) as Ha0. fold a in Ha0.
  pose proof (Z.log2_nonneg (Z.pos d)) as Hb0. fold b in Hb0.
  assert (Hxd : (n # d) * inject_Z (Z.pos d) == inject_Z n).
  { unfold Qeq, Qmult, inject_Z. cbn. lia. }
  assert (Hup : (n # d) < pow2 (a - b + 1)).
  { apply (Qmult_lt_r _ _ (pow2 b) (pow2_pos b)).
    rewrite <- pow2_add. replace (a - b + 1 + b)%Z with (Z.succ a) by lia.
    apply Qle_lt_trans with ((n # d) * inject_Z (Z.pos d)).
    - apply Qmult_le_l; [exact Hx |]. rewrite pow2_Z by lia. now rewrite <- Zle_Qle.
    - rewrite Hxd, pow2_Z by lia. now rewrite <- Zlt_Qlt. }
  assert (Hlo : pow2 (a - b - 1) < (n # d)).
  { apply (Qmult_lt_r _ _ (pow2 (Z.succ b)) (pow2_pos _)).
    rewrite <- pow2_add. replace (a - b - 1 + Z.succ b)%Z with a by lia.
    apply Qle_lt_trans with ((n # d) * inject_Z (Z.pos d)).
    - rewrite Hxd, pow2_Z by lia. now rewrite <- Zle_Qle.
    - apply Qmult_lt_l; [exact Hx |]. rewrite pow2_Z by lia. now rewrite <- Zlt_Qlt. }
  destruct (Qle_bool (pow2 (a - b)) (n # d)) eqn:Hc.
  - apply Qle_bool_iff in Hc. split; assumption.
  - assert (Hlt : (n # d) < pow2 (a - b)).
    { apply Qnot_le_lt. intros H. apply Qle_bool_iff in H. congruence. }
    replace (a - b - 1 + 1)%Z with (a - b)%Z by lia.
    split; [apply Qlt_le_weak; exact Hlo | exact Hlt].
Qed.

Lemma Qlog2_unique (x : Q) (k : Z) : pow2 k <= x -> x < pow2 (k + 1) -> Qlog2 x = k.
Proof.
  intros H1 H2.
  assert (Hx : 0 < x) by (pose proof (pow2_pos k); lra).
  destruct (Qlog2_spec x Hx) as [H3 H4].
  assert (Ha : (Qlog2 x < k + 1)%Z) by (apply pow2_lt_inv; lra).
  assert (Hb : (k < Qlog2 x + 1)%Z) by (apply pow2_lt_inv; lra).
  lia.
Qed.

Lemma Qlog2_mono (x y : Q) : 0 < x -> x <= y -> (Qlog2 x <= Qlog2 y)%Z.
Proof.
  intros Hx Hxy.
  destruct (Qlog2_spec x Hx) as [H1 _].
  destruct (Qlog2_spec y) as [_ H2]; [lra |].
  assert (H : (Qlog2 x < Qlog2 y + 1)%Z) by (apply pow2_lt_inv; lra).
  lia.
Qed.

Lemma Qlog2_comp (x y : Q) : 0 < x -> x == y -> Qlog2 x = Qlog2 y.
Proof.
  intros Hx Hxy. symmetry. destruct (Qlog2_spec x Hx) as [H1 H2].
  apply Qlog2_unique; rewrite <- Hxy; assumption.
Qed.

(** *** Rounding to the nearest integer *)

Lemma round_half_even_mono (x y : Q) :
  x <= y -> (round_half_even x <= round_half_even y)%Z.
Proof.
  intros Hxy.
  pose proof (Qfloor_resp_le _ _ Hxy) as Hf.
  destruct (Z.eq_dec (Qfloor x) (Qfloor y)) as [Heq | Hne].
  - unfold round_half_even. rewrite <- Heq.
    destruct (Qcompare_spec (x - inject_Z (Qfloor x)) (1 # 2)) as [Hx | Hx | Hx];
      destruct (Qcompare_spec (y - inject_Z (Qfloor x)) (1 # 2)) as [Hy | Hy | Hy];
      try (destruct (Z.even (Qfloor x))); try lia; exfalso; lra.
  - destruct (round_half_even_floor x) as [Hx | [Hx _]];
      destruct (round_half_even_floor y) as [Hy | [Hy _]]; lia.
Qed.

Lemma round_half_even_Z (m : Z) : round_half_even (inject_Z m) = m.
Proof.
  unfold round_half_even. rewrite Qfloor_Z.
  destruct (Qcompare_spec (inject_Z m - inject_Z m) (1 # 2)) as [H | H | H];
    [exfalso; lra | reflexivity | exfalso; lra].
Qed.


Lemma Qfloor_opp_frac (x : Q) :
  inject_Z (Qfloor x) < x -> Qfloor (- x) = (- Qfloor x - 1)%Z.
Proof.
  intros H. pose proof (Qlt_floor x) as Hhi.
  rewrite inject_Z_plus in Hhi. change (inject_Z 1) with 1 in Hhi.
  pose proof (Qfloor_le (- x)) as H1. pose proof (Qlt_floor (- x)) as H2.
  rewrite inject_Z_plus in H2. change (inject_Z 1) with 1 in H2.
  assert (Ha : inject_Z (Qfloor (- x)) < inject_Z (- Qfloor x)).
  { rewrite inject_Z_opp. lra. }
  assert (Hb : inject_Z (- Qfloor x + -2) < inject_Z (Qfloor (- x))).
  { rewrite inject_Z_plus, inject_Z_opp.
    change (inject_Z (-2)) with (-2). lra. }
  rewrite <- Zlt_Qlt in Ha, Hb. lia.
Qed.

Lemma round_half_even_opp (x : Q) : round_half_even (- x) = (- round_half_even x)%Z.
Proof.
  pose proof (Qfloor_le x) as Hlo.
  destruct (Qlt_le_dec (inject_Z (Qfloor x)) x) as [Hfrac | Hint].
  - pose proof (Qfloor_opp_frac x Hfrac) as Hf.
    unfold round_half_even. set (f := Qfloor x) in *. set (g := Qfloor (- x)) in *.
    assert (Hg : inject_Z g == - inject_Z f - 1).
    { rewrite Hf. unfold Zminus. rewrite inject_Z_plus, !inject_Z_opp. reflexivity. }
    assert (Heven : Z.even g = negb (Z.even f)).
    { rewrite Hf. replace (- f - 1)%Z with (- (f + 1))%Z by lia.
      rewrite Z.even_opp, Z.even_add. cbn. now destruct (Z.even f). }
    rewrite Heven.
    destruct (Qcompare_spec (x - inject_Z f) (1 # 2)) as [H | H | H];
      destruct (Qcompare_spec (- x - inject_Z g) (1 # 2)) as [H' | H' | H'];
      try (exfalso; lra); try lia.
    destruct (Z.even f); cbn [negb]; lia.
  - assert (Hx : x == inject_Z (Qfloor x)) by lra.
    assert (Hnx : - x == inject_Z (- Qfloor x)) by (rewrite inject_Z_opp; lra).
    rewrite (round_half_even_comp _ _ Hnx), (round_half_even_comp _ _ Hx).
    now rewrite !round_half_even_Z.
Qed.

(** ** Rounding to a grid of step 2^e *)

Lemma grid_mono (e : Z) (x y : Q) : x <= y -> grid e x <= grid e y.
Proof.
  intros H. unfold grid. pose proof (pow2_pos e) as Hp.
  apply Qmult_le_compat_r; [| lra].
  rewrite <- Zle_Qle. apply round_half_even_mono.
  unfold Qdiv. apply Qmult_le_compat_r; [exact H |].
  apply Qlt_le_weak, Qinv_lt_0_compat, Hp.
Qed.

Lemma grid_fix (e m : Z) : grid e (inject_Z m * pow2 e) == inject_Z m * pow2 e.
Proof.
  unfold grid. pose proof (pow2_pos e) as Hp.
  assert (H : inject_Z m * pow2 e / pow2 e == inject_Z m) by (field; lra).
  now rewrite (round_half_even_comp _ _ H), round_half_even_Z.
Qed.


Lemma grid_opp (e : Z) (x : Q) : grid e (- x) == - grid e x.
Proof.
  unfold grid. pose proof (pow2_pos e) as Hp.
  assert (H : - x / pow2 e == - (x / pow2 e)) by (field; lra).
  rewrite (round_half_even_comp _ _ H), round_half_even_opp, inject_Z_opp. ring.
Qed.

(** ** The double nearest to a rational *)

Lemma ulp_exp_opp (x : Q) : ulp_exp (- x) = ulp_exp x.
Proof.
  unfold ulp_exp. f_equal. f_equal. f_equal.
  destruct x as [n d]. unfold Qabs, Qopp. cbn. now rewrite Z.abs_opp.
Qed.

Lemma b64_opp (x : Q) : b64 (- x) == - b64 x.
Proof. unfold b64. rewrite ulp_exp_opp. apply grid_opp. Qed.

Lemma b64_nonneg (x : Q) : 0 <= x -> 0 <= b64 x.
Proof.
  intros H. unfold b64.
  pose proof (grid_mono (ulp_exp x) 0 x H) as Hm.
  assert (E : grid (ulp_exp x) 0 == 0).
  { pose proof (grid_fix (ulp_exp x) 0) as Hf.
    assert (Hz : inject_Z 0 * pow2 (ulp_exp x) == 0) by ring.
    unfold grid in *. 
    assert (Hd : 0 / pow2 (ulp_exp x) == inject_Z 0 * pow2 (ulp_exp x) / pow2 (ulp_exp x)).
    { pose proof (pow2_pos (ulp_exp x)). field. lra. }
    rewrite (round_half_even_comp _ _ Hd). rewrite Hf. ring. }
  lra.
Qed.

Lemma ulp_exp_mono (x y : Q) : 0 < x -> x <= y -> (ulp_exp x <= ulp_exp y)%Z.
Proof.
  intros Hx Hxy. unfold ulp_exp.
  assert (H : (Qlog2 (Qabs x) <= Qlog2 (Qabs y))%Z).
  { apply Qlog2_mono; rewrite !Qabs_pos by lra; assumption. }
  lia.
Qed.

Lemma b64_mono_pos (x y : Q) : 0 < x -> x <= y -> b64 x <= b64 y.
Proof.
  intros Hx Hxy. pose proof (ulp_exp_mono x y Hx Hxy) as He.
  unfold b64.
  destruct (Z.eq_dec (ulp_exp x) (ulp_exp y)) as [Heq | Hne].
  - rewrite Heq. now apply grid_mono.
  - assert (Hlt : (ulp_exp x < ulp_exp y)%Z) by lia. clear He Hne.
    set (ex := ulp_exp x) in *. set (ey := ulp_exp y) in *.
    assert (Hy : 0 < y) by lra.
    destruct (Qlog2_spec (Qabs x)) as [_ Hx2]; [rewrite Qabs_pos; lra |].
    destruct (Qlog2_spec (Qabs y)) as [Hy1 _]; [rewrite Qabs_pos; lra |].
    rewrite Qabs_pos in Hx2 at 1 by lra. rewrite Qabs_pos in Hy1 at 2 by lra.
    assert (Hey : ey = (Qlog2 (Qabs y) - 52)%Z) by (unfold ey, ex, ulp_exp in *; lia).
    assert (Hex : (Qlog2 (Qabs x) - 52 <= ex)%Z) by (unfold ex, ulp_exp; lia).
    set (B := pow2 (ey + 52)).
    assert (HxB : x <= B).
    { apply Qlt_le_weak, Qlt_le_trans with (1 := Hx2). apply pow2_le. lia. }
    assert (HBy : B <= y).
    { unfold B. replace (ey + 52)%Z with (Qlog2 (Qabs y)) by lia. exact Hy1. }
    assert (HBx : B == inject_Z (2 ^ (ey + 52 - ex)) * pow2 ex).
    { unfold B. rewrite <- pow2_Z by lia. rewrite <- pow2_add. f_equiv. lia. }
    assert (HBy' : B == inject_Z (2 ^ 52) * pow2 ey).
    { unfold B. rewrite <- pow2_Z by lia. rewrite <- pow2_add. f_equiv. lia. }
    apply Qle_trans with B.
    + apply Qle_trans with (grid ex B); [now apply grid_mono |].
      unfold grid. 
      assert (Hd : B / pow2 ex == inject_Z (2 ^ (ey + 52 - ex)) * pow2 ex / pow2 ex).
      { now rewrite HBx. }
      rewrite (round_half_even_comp _ _ Hd).
      fold (grid ex (inject_Z (2 ^ (ey + 52 - ex)) * pow2 ex)).
      rewrite grid_fix, <- HBx. apply Qle_refl.
    + apply Qle_trans with (grid ey B); [| now apply grid_mono].
      unfold grid.
      assert (Hd : B / pow2 ey == inject_Z (2 ^ 52) * pow2 ey / pow2 ey).
      { now rewrite HBy'. }
      rewrite (round_half_even_comp _ _ Hd).
      fold (grid ey (inject_Z (2 ^ 52) * pow2 ey)).
      rewrite grid_fix, <- HBy'. apply Qle_refl.
Qed.

Lemma b64_zero (x : Q) : x == 0 -> b64 x == 0.
Proof.
  intros H. 
  assert (H1 : 0 <= b64 x) by (apply b64_nonneg; lra).
  assert (H2 : 0 <= b64 (- x)) by (apply b64_nonneg; lra).
  rewrite b64_opp in H2. lra.
Qed.

(** Rounding to the nearest double keeps the order. *)
Lemma b64_mono (x y : Q) : x <= y -> b64 x <= b64 y.
Proof.
  intros Hxy.
  destruct (Qlt_le_dec 0 x) as [Hx | Hx].
  - now apply b64_mono_pos.
  - destruct (Qlt_le_dec y 0) as [Hy | Hy].
    + assert (H : b64 (- y) <= b64 (- x)) by (apply b64_mono_pos; lra).
      rewrite !b64_opp in H. lra.
    + assert (H1 : 0 <= b64 y) by now apply b64_nonneg.
      assert (H2 : 0 <= b64 (- x)) by (apply b64_nonneg; lra).
      rewrite b64_opp in H2. lra.
Qed.

#[global] Instance b64_comp : Proper (Qeq ==> Qeq) b64.
Proof.
  intros x y Hxy. apply Qle_antisym; apply b64_mono; lra.
Qed.


(** A multiple of 2^e with a mantissa of at most 53 bits is a double. *)
Lemma b64_fix (m e : Z) :
  (Z.abs m <= 2 ^ 53)%Z -> (-1074 <= e)%Z ->
  b64 (inject_Z m * pow2 e) == inject_Z m * pow2 e.
Proof.
  intros Hm He.
  assert (Hnonneg : forall m, (0 <= m <= 2 ^ 53)%Z ->
                              b64 (inject_Z m * pow2 e) == inject_Z m * pow2 e).
  { clear m Hm. intros m [Hm0 Hm].
    destruct (Z.eq_dec m 0) as [-> | Hnz].
    { rewrite b64_zero; ring. }
    set (x := inject_Z m * pow2 e).
    pose proof (pow2_pos e) as Hp.
    assert (Hm1 : 1 <= inject_Z m).
    { change 1 with (inject_Z 1). rewrite <- Zle_Qle. lia. }
    assert (Hx : 0 < x) by (unfold x; nra).
    assert (Hab : Qabs x == x) by (apply Qabs_pos; lra).
    destruct (Qlog2_spec (Qabs x)) as [Hl _]; [lra |].
    rewrite Hab in Hl at 2.
    assert (Hxle : x <= pow2 (e + 53)).
    { unfold x. rewrite pow2_add, (Qmult_comm (pow2 e)).
      apply Qmult_le_compat_r; [| lra].
      rewrite (pow2_Z 53) by lia. now rewrite <- Zle_Qle. }
    assert (HL : (Qlog2 (Qabs x) <= e + 53)%Z).
    { assert (H : (Qlog2 (Qabs x) < e + 53 + 1)%Z).
      { apply pow2_lt_inv. apply Qle_lt_trans with x; [exact Hl |].
        apply Qle_lt_trans with (1 := Hxle). apply pow2_lt. lia. }
      lia. }
    unfold b64. set (u := ulp_exp x).
    destruct (Z_le_gt_dec u e) as [Hu | Hu].
    - assert (E : x == inject_Z (m * 2 ^ (e - u)) * pow2 u).
      { unfold x. rewrite inject_Z_mult, <- (pow2_Z (e - u)) by lia.
        rewrite <- Qmult_assoc, <- pow2_add. do 2 f_equiv. lia. }
      unfold grid.
      assert (Hd : x / pow2 u == inject_Z (m * 2 ^ (e - u)) * pow2 u / pow2 u)
        by now rewrite E.
      rewrite (round_half_even_comp _ _ Hd).
      fold (grid u (inject_Z (m * 2 ^ (e - u)) * pow2 u)).
      rewrite grid_fix. now rewrite <- E.
    - (* only when the mantissa is 2^53 itself *)
      assert (Hu1 : u = (e + 1)%Z) by (unfold u, ulp_exp in *; lia).
      assert (HLe : Qlog2 (Qabs x) = (e + 53)%Z) by (unfold u, ulp_exp in *; lia).
      rewrite HLe in Hl.
      assert (Hx53 : x == pow2 (e + 53)) by lra.
      assert (E : x == inject_Z (2 ^ 52) * pow2 u).
      { rewrite Hx53, Hu1, <- (pow2_Z 52), <- pow2_add by lia. f_equiv. lia. }
      unfold grid.
      assert (Hd : x / pow2 u == inject_Z (2 ^ 52) * pow2 u / pow2 u)
        by now rewrite E.
      rewrite (round_half_even_comp _ _ Hd).
      fold (grid u (inject_Z (2 ^ 52) * pow2 u)).
      rewrite grid_fix. now rewrite <- E. }
  destruct (Z_le_gt_dec 0 m) as [H0 | H0].
  - apply Hnonneg. lia.
  - assert (E : inject_Z m * pow2 e == - (inject_Z (- m) * pow2 e)).
    { rewrite inject_Z_opp. ring. }
    rewrite E, b64_opp, Hnonneg by lia. reflexivity.
Qed.

Lemma b64_mantissa (x : Q) :
  (Z.abs (round_half_even (x / pow2 (ulp_exp x))) <= 2 ^ 53)%Z.
Proof.
  pose proof (pow2_pos (ulp_exp x)) as Hp.
  assert (Hpos : forall y, 0 <= y ->
            (0 <= round_half_even (y / pow2 (ulp_exp y)) <= 2 ^ 53)%Z).
  { intros y Hy. set (u := ulp_exp y). pose proof (pow2_pos u) as Hu.
    split.
    - rewrite <- (round_half_even_Z 0). apply round_half_even_mono.
      change (inject_Z 0) with 0. apply Qle_shift_div_l; lra.
    - rewrite <- (round_half_even_Z (2 ^ 53)). apply round_half_even_mono.
      apply Qle_shift_div_r; [exact Hu |].
      rewrite <- (pow2_Z 53), <- pow2_add by lia.
      destruct (Qeq_dec y 0) as [Hz | Hnz].
      + pose proof (pow2_pos (53 + u)). lra.
      + assert (Hy0 : 0 < y) by lra.
        destruct (Qlog2_spec (Qabs y)) as [_ Hl]; [rewrite Qabs_pos; lra |].
        rewrite Qabs_pos in Hl at 1 by lra.
        apply Qlt_le_weak, Qlt_le_trans with (1 := Hl). apply pow2_le.
        unfold u, ulp_exp. lia. }
  destruct (Qlt_le_dec x 0) as [Hneg | Hnn].
  - assert (Hnx : 0 <= - x) by lra.
    specialize (Hpos (- x) Hnx). rewrite ulp_exp_opp in Hpos.
    assert (E : - x / pow2 (ulp_exp x) == - (x / pow2 (ulp_exp x))) by (field; lra).
    rewrite (round_half_even_comp _ _ E), round_half_even_opp in Hpos. lia.
  - specialize (Hpos x Hnn). lia.
Qed.

(** Rounding twice is rounding once: the operands of an operation that
    are doubles already are read as they are. *)
Lemma b64_idem (x : Q) : is_double (b64 x).
Proof.
  unfold is_double, b64 at 2, grid.
  apply b64_fix; [apply b64_mantissa |].
  unfold ulp_exp. lia.
Qed.

(** *** The operations on floats keep the order *)

Lemma fmul_nonneg (x y : Q) : 0 <= x -> 0 <= y -> 0 <= fmul x y.
Proof.
  intros Hx Hy. unfold fmul. apply b64_nonneg.
  apply Qmult_le_0_compat; now apply b64_nonneg.
Qed.

Lemma fmul_mono (x x' y y' : Q) :
  0 <= x -> x <= x' -> 0 <= y -> y <= y' -> fmul x y <= fmul x' y'.
Proof.
  intros Hx Hxx Hy Hyy. unfold fmul. apply b64_mono.
  pose proof (b64_nonneg x Hx). pose proof (b64_nonneg y Hy).
  pose proof (b64_mono x x' Hxx). pose proof (b64_mono y y' Hyy).
  apply Qle_trans with (b64 x' * b64 y).
  - apply Qmult_le_compat_r; assumption.
  - rewrite !(Qmult_comm (b64 x')). apply Qmult_le_compat_r; [assumption | lra].
Qed.

Lemma fsub_mono (x x' y y' : Q) : x <= x' -> y' <= y -> fsub x y <= fsub x' y'.
Proof.
  intros Hx Hy. unfold fsub. apply b64_mono.
  pose proof (b64_mono x x' Hx). pose proof (b64_mono y' y Hy). lra.
Qed.

Lemma fadd_mono (x x' y y' : Q) : x <= x' -> y <= y' -> fadd x y <= fadd x' y'.
Proof.
  intros Hx Hy. unfold fadd. apply b64_mono.
  pose proof (b64_mono x x' Hx). pose proof (b64_mono y y' Hy). lra.
Qed.

(** Division by a positive constant. *)
Lemma fdiv_mono (x x' y : Q) : 0 < b64 y -> x <= x' -> fdiv x y <= fdiv x' y.
Proof.
  intros Hy Hx. unfold fdiv. apply b64_mono.
  unfold Qdiv. apply Qmult_le_compat_r; [now apply b64_mono |].
  apply Qlt_le_weak, Qinv_lt_0_compat, Hy.
Qed.

(** Multiplication by a constant that is not negative. *)
Lemma fmul_mono_l (x x' y : Q) : 0 <= b64 y -> x <= x' -> fmul x y <= fmul x' y.
Proof.
  intros Hy Hx. unfold fmul. apply b64_mono.
  apply Qmult_le_compat_r; [now apply b64_mono | exact Hy].
Qed.

Lemma fmul_mono_r (x y y' : Q) : 0 <= b64 x -> y <= y' -> fmul x y <= fmul x y'.
Proof.
  intros Hx Hy. unfold fmul. apply b64_mono.
  rewrite !(Qmult_comm (b64 x)).
  apply Qmult_le_compat_r; [now apply b64_mono | exact Hx].
Qed.

(** The small integers of the source are doubles. *)
Lemma b64_small_Z (n : Z) : (Z.abs n <= 2 ^ 53)%Z -> b64 (inject_Z n) == inject_Z n.
Proof.
  intros H. pose proof (b64_fix n 0 H ltac:(lia)) as E.
  change (pow2 0) with 1 in E.
  assert (E1 : inject_Z n * 1 == inject_Z n) by ring.
  now rewrite E1 in E.
Qed.

Lemma b64_0 : b64 0 == 0.
Proof. apply (b64_small_Z 0). discriminate. Qed.


Lemma b64_100 : b64 100 == 100.
Proof. apply (b64_small_Z 100). discriminate. Qed.

(** ** Computations that only return or raise *)

Section PureOrRaise.
Context {A B : Type}.

Lemma por_ret (P : A -> Prop) (a : A) : P a -> pure_or_raise (ret a) P.
Proof. intros H w. left. exists a. split; [reflexivity | exact H]. Qed.

Lemma por_raise (P : A -> Prop) (e : exn) :
  data_error e -> pure_or_raise (raise e) P.
Proof. intros H w. right. exists e. split; [reflexivity | exact H]. Qed.

Lemma por_bind (c : M A) (k : A -> M B) (P : A -> Prop) (Q : B -> Prop) :
  pure_or_raise c P ->
  (forall a, P a -> pure_or_raise (k a) Q) ->
  pure_or_raise (bind c k) Q.
Proof.
  intros Hc Hk w. unfold bind.
  destruct (Hc w) as [(a & -> & Ha) | (e & -> & He)].
  - apply Hk, Ha.
  - right. exists e. split; [reflexivity | exact He].
Qed.

Lemma por_if (b : bool) (c1 c2 : M A) (P : A -> Prop) :
  pure_or_raise c1 P -> pure_or_raise c2 P ->
  pure_or_raise (if b then c1 else c2) P.
Proof. destruct b; auto. Qed.
End PureOrRaise.

Lemma por_primitive {A} (c : M A) :
  (forall w, match c w with
             | Return _ w' => w' = w
             | Raise e w' => w' = w /\ data_error e
             end) ->
  pure_or_raise c anything.
Proof.
  intros H w. specialize (H w). destruct (c w) as [a w' | e w'].
  - subst w'. left. exists a. split; [reflexivity | exact I].
  - destruct H as [-> He]. right. exists e. split; [reflexivity | exact He].
Qed.

Ltac por_prim := solve [apply por_primitive; intros w; cbn; auto].

Lemma por_response_json body : pure_or_raise (response_json body) anything.
Proof. destruct body; por_prim. Qed.

Lemma por_py_get d k default : pure_or_raise (py_get d k default) anything.
Proof.
  destruct d; try por_prim.
  unfold py_get. destruct (dict_lookup items k); por_prim.
Qed.

Lemma por_py_gt0 v : pure_or_raise (py_gt0 v) anything.
Proof. unfold py_gt0. destruct (py_num v); por_prim. Qed.

Lemma por_py_truediv a b : pure_or_raise (py_truediv a b) anything.
Proof.
  unfold py_truediv. destruct (py_num a), (py_num b); try por_prim.
  unfold truediv.
  repeat match goal with
         | |- context [if ?c then _ else _] => destruct c
         end;
    apply por_primitive; intros w; unfold ret, raise;
    first [reflexivity | split; [reflexivity | exact I]].
Qed.

Lemma por_py_format_percent v : pure_or_raise (py_format_percent v) anything.
Proof.
  destruct v; try por_prim.
  unfold py_format_percent. destruct (too_large q); por_prim.
Qed.

Lemma por_py_in_routes data : pure_or_raise (py_in_routes data) anything.
Proof. destruct data; por_prim. Qed.

Lemma por_py_getitem_str data k : pure_or_raise (py_getitem_str data k) anything.
Proof.
  destruct data; try por_prim.
  unfold py_getitem_str. destruct (dict_lookup items k); por_prim.
Qed.

Lemma por_py_len v : pure_or_raise (py_len v) anything.
Proof. destruct v; por_prim. Qed.

Lemma por_py_getitem0 v : pure_or_raise (py_getitem0 v) anything.
Proof. destruct v as [| | | [|] | [|] |]; por_prim. Qed.

Create HintDb por.
#[global] Hint Resolve por_response_json por_py_get por_py_gt0 por_py_truediv
  por_py_format_percent por_py_in_routes por_py_getitem_str por_py_len
  por_py_getitem0 : por.

(** Walks a client body, one statement at a time; what is left are the
    obligations on the returned values. *)
Ltac por_walk :=
  repeat first
    [ exact I
    | solve [auto with por]
    | apply por_raise; exact I
    | apply por_if
    | eapply por_bind; [solve [auto with por] | intros ? _]
    | eapply (por_bind _ _ anything); [| intros ? _]
    | apply por_ret ].

(** ** Running a sequence of statements *)

Section Bind.
Context {A B : Type}.

Lemma bind_Return (c : M A) (k : A -> M B) (w w' : world) (a : A) :
  c w = Return a w' -> bind c k w = k a w'.
Proof. intros H. unfold bind. now rewrite H. Qed.

Lemma bind_Raise (c : M A) (k : A -> M B) (w w' : world) (e : exn) :
  c w = Raise e w' -> bind c k w = Raise e w'.
Proof. intros H. unfold bind. now rewrite H. Qed.

Lemma bind_ret (a : A) (k : A -> M B) (w : world) : bind (ret a) k w = k a w.
Proof. reflexivity. Qed.

Lemma bind_if (b : bool) (c1 c2 : M A) (k : A -> M B) (w : world) :
  bind (if b then c1 else c2) k w = if b then bind c1 k w else bind c2 k w.
Proof. now destruct b. Qed.

Lemma bind_assoc {C} (c : M A) (k : A -> M B) (k' : B -> M C) (w : world) :
  bind (bind c k) k' w = bind c (fun a => bind (k a) k') w.
Proof. unfold bind. now destruct (c w). Qed.
End Bind.

(** Runs the statements whose outcome is already determined. *)
Ltac run_on :=
  repeat first
    [ rewrite bind_assoc
    | rewrite bind_ret
    | progress cbn [is_none negb andb unpack]
    | progress change (str_in "API" "TomTom Traffic API") with true
    | progress change (str_in "API" "MapmyIndia Route API") with true ].

(** ** What the three sources return *)

Section Sources.
Variable E : env.

(** Client A always returns a tuple: a failure or a success. *)
Lemma tomtom_returns (lat lon : Q) (key : string) (w : world) :
  exists t w',
    get_traffic_from_tomtom E lat lon key w = Return t w' /\
    after_call (RequestingTomTom lat lon) w w' /\
    (failure_tuple t \/ success_tuple "TomTom Traffic API" t).
Proof.
  unfold get_traffic_from_tomtom, after_call.
  unfold try_except, bind at 1, logger_info, bind at 1, requests_get.
  cbn [tick log].
  destruct (net E (tick w) (TomTomFlow key lat lon)) as [| | | status body].
  1-3: (do 2 eexists; split; [reflexivity |]; split; [split; reflexivity |];
        left; eexists; split; reflexivity).
  match goal with
  | |- context [match ?c ?w1 with Return _ _ => _ | Raise _ _ => _ end] =>
      assert (H : pure_or_raise c
                    (fun t => failure_tuple t \/ success_tuple "TomTom Traffic API" t));
      [| destruct (H w1) as [(t & -> & Ht) | (e & -> & _)] ]
  end.
  - por_walk.
    + right. do 3 eexists. split; [reflexivity | apply congestion_of_ratio_range].
    + left. eexists. split; reflexivity.
    + left. eexists. split; reflexivity.
    + left. eexists. split; reflexivity.
    + left. eexists. split; reflexivity.
    + left. eexists. split; reflexivity.
  - do 2 eexists. split; [reflexivity |]. split; [split; reflexivity | exact Ht].
  - destruct e;
      (do 2 eexists; split; [reflexivity |]; split; [split; reflexivity |];
       left; eexists; split; reflexivity).
Qed.

Lemma mapmyindia_returns (lat lon : Q) (key : string) (w : world) :
  exists r w',
    get_traffic_from_mapmyindia E lat lon key w = Return r w' /\
    after_call (RequestingMapmyIndia lat lon) w w' /\
    mapmyindia_shape r.
Proof.
  unfold get_traffic_from_mapmyindia, after_call.
  unfold try_except, bind at 1, logger_info, bind at 1, requests_get.
  cbn [tick log].
  assert (Hfail : forall label, str_in "API" label = false ->
                                mapmyindia_shape (Some (None, label, NA, NA))).
  { intros label Hl. right. eexists. split; [reflexivity |].
    left. exists label. split; [reflexivity | exact Hl]. }
  destruct (net E (tick w) _) as [| | | status body].
  1-3: (do 2 eexists; split; [reflexivity |]; split; [split; reflexivity |];
        apply Hfail; reflexivity).
  match goal with
  | |- context [match ?c ?w1 with Return _ _ => _ | Raise _ _ => _ end] =>
      assert (H : pure_or_raise c mapmyindia_shape);
      [| destruct (H w1) as [(t & -> & Ht) | (e & -> & _)] ]
  end.
  - por_walk; try (left; reflexivity); try (apply Hfail; reflexivity).
    right. eexists. split; [reflexivity |]. right.
    do 3 eexists. split; [reflexivity | apply congestion_of_ratio_range].
  - do 2 eexists. split; [reflexivity |]. split; [split; reflexivity | exact Ht].
  - do 2 eexists. split; [reflexivity |]. split; [split; reflexivity |].
    apply Hfail; reflexivity.
Qed.

(** The simulator always returns, with its own label. *)
Lemma simulator_returns (city : string) (lat lon : Q) (w : world) :
  exists w',
    get_simulated_congestion E city lat lon w
    = Return (simulated_congestion_at (clock E (tick w)) city lat lon) w' /\
    after_call (SimulationFor city) w w'.
Proof.
  eexists. split; [reflexivity |]. split; reflexivity.
Qed.
End Sources.

(** ** The simulator's value *)

Lemma rush_factor_bounds (h : Z) : 0.8 <= rush_factor h <= 1.6.
Proof.
  unfold rush_factor.
  repeat match goal with |- context [if ?b then _ else _] => destruct b end; lra.
Qed.

Lemma weekend_factor_bounds (d : Z) : 0.7 <= weekend_factor d <= 1.
Proof. unfold weekend_factor. destruct (5 <=? d)%Z; lra. Qed.

Lemma factor_get_nonneg (table : list (string * Q)) (key : string) (default : Q) :
  0 <= default -> Forall (fun kv => 0 <= snd kv) table ->
  0 <= factor_get table key default.
Proof.
  intros Hd Ht. induction Ht as [| [k v] rest Hv _ IH]; cbn [factor_get]; [exact Hd |].
  destruct (String.eqb k key); [exact Hv | exact IH].
Qed.

Lemma city_factor_nonneg (city : string) : 0 <= factor_get city_factors city 1.0.
Proof.
  apply factor_get_nonneg; [lra |].
  unfold city_factors. repeat constructor; cbn [snd]; lra.
Qed.

Lemma sim_base_congestion_range (seed : Z) : (20 <= sim_base_congestion seed <= 59)%Z.
Proof.
  unfold sim_base_congestion. pose proof (Z.mod_pos_bound seed 40). lia.
Qed.

Lemma simulated_congestion_in_range (now : datetime) (city : string) (lat lon : Q) :
  success_tuple "AI Prediction Model" (simulated_congestion_at now city lat lon).
Proof.
  unfold simulated_congestion_at, success_tuple. do 3 eexists. split; [reflexivity |].
  pose proof (sim_base_congestion_range (sim_seed city lat lon)) as [Hlo _].
  rewrite Zle_Qle in Hlo.
  pose proof (rush_factor_bounds (hour now)) as [Hr _].
  pose proof (weekend_factor_bounds (weekday now)) as [Hw _].
  pose proof (city_factor_nonneg city) as Hc.
  set (b := inject_Z (sim_base_congestion (sim_seed city lat lon))) in *.
  set (r := rush_factor (hour now)) in *.
  set (wk := weekend_factor (weekday now)) in *.
  set (cf := factor_get city_factors city 1.0) in *.
  assert (Hb : 0 <= b) by (change (inject_Z 20) with 20 in Hlo; lra).
  assert (Hpos : 0 <= fmul (fmul (fmul b r) wk) cf).
  { repeat apply fmul_nonneg; lra. }
  unfold py_min. destruct (Qltb 100 (fmul (fmul (fmul b r) wk) cf)) eqn:Hlt.
  - split; [apply py_round1_nonneg; lra | apply py_round1_le_100; lra].
  - apply Qltb_ge in Hlt.
    split; [apply py_round1_nonneg | apply py_round1_le_100]; assumption.
Qed.

Lemma same_hour_same_bucket (t1 t2 : datetime) :
  hour t1 = hour t2 -> same_hour_bucket t1 t2.
Proof. unfold same_hour_bucket. now intros ->. Qed.

(** ** One iteration of the orchestrator's loop *)

Arguments simulated_congestion_at : simpl never.

Section Iteration.
Variable E : env.
Variables tomtom_key mapmyindia_key : string.

Lemma process_city_outcome (api_working : bool) (api_source : string)
    (city : string) (lat lon : Q) (w : world) :
  match process_city E tomtom_key mapmyindia_key api_working api_source
                     city lat lon w with
  | Return (entry, api_working', api_source') w' =>
      step_ok api_working api_source city lat lon entry api_working' api_source'
  | Raise e w' => e = TypeError /\ fell_off_the_end E mapmyindia_key w'
  end.
Proof.
  (* the last two statements: simulation when nothing was obtained,
     then the entry *)
  assert (Hsim : forall w1,
    match (' (congestion, source, current_speed, free_flow_speed) <-
             get_simulated_congestion E city lat lon ;;
           now <- datetime_now E ;;
           ret ({| r_city := city; r_lat := lat; r_lon := lon;
                   r_congestion := congestion; r_source := source;
                   r_current_speed := current_speed;
                   r_free_flow_speed := free_flow_speed;
                   r_timestamp := isoformat now |},
                api_working, api_source)) w1 with
    | Return (entry, api_working', api_source') _ =>
        step_ok api_working api_source city lat lon entry api_working' api_source'
    | Raise e w' => e = TypeError /\ fell_off_the_end E mapmyindia_key w'
    end).
  { intros w1.
    destruct (simulator_returns E city lat lon w1) as (w2 & Hs & _).
    rewrite (bind_Return _ _ _ _ _ Hs).
    destruct (simulated_congestion_in_range (clock E (tick w1)) city lat lon)
      as (c & cs & ffs & -> & Hc).
    cbn. constructor; cbn; eauto. }
  assert (Hlive : forall w1 c label cs ffs,
    0 <= c <= 100 -> str_in "API" label = true ->
    match (' (congestion, source, current_speed, free_flow_speed) <-
             ret (Some c, label, cs, ffs) ;;
           now <- datetime_now E ;;
           ret ({| r_city := city; r_lat := lat; r_lon := lon;
                   r_congestion := congestion; r_source := source;
                   r_current_speed := current_speed;
                   r_free_flow_speed := free_flow_speed;
                   r_timestamp := isoformat now |},
                true, label)) w1 with
    | Return (entry, api_working', api_source') _ =>
        step_ok api_working api_source city lat lon entry api_working' api_source'
    | Raise e w' => e = TypeError /\ fell_off_the_end E mapmyindia_key w'
    end).
  { intros w1 c label cs ffs Hc Hl. cbn.
    constructor; cbn; eauto. unfold live; cbn [r_source]. rewrite Hl. auto. }
  unfold process_city.
  rewrite bind_if.
  destruct (truthy tomtom_key).
  - rewrite bind_assoc.
    destruct (tomtom_returns E lat lon tomtom_key w) as (t & w1 & Ht & _ & Hs).
    rewrite (bind_Return _ _ _ _ _ Ht).
    destruct Hs as [(label & -> & Hl) | (c & cs & ffs & -> & Hc)].
    + run_on. rewrite bind_if.
      destruct (truthy mapmyindia_key) eqn:Hmk; run_on.
      * destruct (mapmyindia_returns E lat lon mapmyindia_key w1)
          as (r & w2 & Hr & _ & Hs).
        rewrite (bind_Return _ _ _ _ _ Hr).
        destruct Hs as [-> | (t & -> & [(label' & -> & Hl') | (c & cs & ffs & -> & Hc)])].
        -- cbn [unpack]. rewrite (bind_Raise _ _ w2 w2 TypeError) by reflexivity.
           split; [reflexivity |]. split; [exact Hmk | eauto].
        -- run_on. apply (Hsim w2).
        -- run_on. apply Hlive; [exact Hc | reflexivity].
      * apply (Hsim w1).
    + run_on. apply Hlive; [exact Hc | reflexivity].
  - run_on. rewrite bind_if.
    destruct (truthy mapmyindia_key) eqn:Hmk; run_on.
    + destruct (mapmyindia_returns E lat lon mapmyindia_key w)
        as (r & w2 & Hr & _ & Hs).
      rewrite (bind_Return _ _ _ _ _ Hr).
      destruct Hs as [-> | (t & -> & [(label' & -> & Hl') | (c & cs & ffs & -> & Hc)])].
      * cbn [unpack]. rewrite (bind_Raise _ _ w2 w2 TypeError) by reflexivity.
        split; [reflexivity |]. split; [exact Hmk | eauto].
      * run_on. apply (Hsim w2).
      * run_on. apply Hlive; [exact Hc | reflexivity].
    + apply (Hsim w).
Qed.
End Iteration.

(** ** The whole run *)

Section Run.
Variable E : env.
Variables tomtom_key mapmyindia_key : string.

Lemma for_cities_outcome (items : list (string * (Q * Q))) :
  forall (results : list reading) (api_working : bool) (api_source : string)
         (w : world),
    match for_cities E items tomtom_key mapmyindia_key
                     results api_working api_source w with
    | Return (results', api_working', api_source') _ =>
        exists entries,
          results' = (results ++ entries)%list /\
          Forall2 reading_of items entries /\
          api_working' = api_working || existsb live entries /\
          api_source' = last_live_source entries api_source
    | Raise e w' => e = TypeError /\ fell_off_the_end E mapmyindia_key w'
    end.
Proof.
  induction items as [| [city [lat lon]] rest IH]; intros results api_working api_source w.
  - cbn. exists []. rewrite app_nil_r, orb_false_r. repeat split. constructor.
  - cbn [for_cities].
    pose proof (process_city_outcome E tomtom_key mapmyindia_key
                  api_working api_source city lat lon w) as Hstep.
    destruct (process_city E tomtom_key mapmyindia_key
                api_working api_source city lat lon w)
      as [[[entry api_working1] api_source1] w1 | e w1] eqn:Hrun.
    + rewrite (bind_Return _ _ _ _ _ Hrun).
      specialize (IH (results ++ [entry])%list api_working1 api_source1 w1).
      destruct (for_cities E rest tomtom_key mapmyindia_key
                  (results ++ [entry]) api_working1 api_source1 w1)
        as [[[results' api_working'] api_source'] w' | e w']; [| exact IH].
      destruct IH as (entries & -> & Hall & -> & ->).
      destruct Hstep as [Hcity Hlat Hlon Hcong Hsum].
      exists (entry :: entries). rewrite <- app_assoc. split; [reflexivity |].
      split; [constructor; [repeat split; assumption | exact Hall] |].
      cbn [existsb last_live_source fold_left].
      destruct (live entry); destruct Hsum as [-> ->]; split; try reflexivity.
      now rewrite orb_true_r.
    + rewrite (bind_Raise _ _ _ _ _ Hrun). exact Hstep.
Qed.

(** A run that completes: one entry per item of [city_coords], in
    its order, and the summary the entries determine. *)
Lemma run_outcome (city_coords : list (string * (Q * Q))) (w : world) :
  match get_congestion_for_cities E city_coords tomtom_key mapmyindia_key w with
  | Return (results, api_working, api_source) _ =>
      Forall2 reading_of city_coords results /\
      api_working = existsb live results /\
      api_source = last_live_source results "None"
  | Raise e w' => e = TypeError /\ fell_off_the_end E mapmyindia_key w'
  end.
Proof.
  unfold get_congestion_for_cities.
  rewrite (bind_Return _ _ w {| tick := S (tick w); log := log w |} (clock E (tick w)))
    by reflexivity.
  pose proof (for_cities_outcome city_coords [] false "None"
                {| tick := S (tick w); log := log w |}) as H.
  destruct (for_cities E city_coords tomtom_key mapmyindia_key [] false "None" _)
    as [[[results api_working] api_source] w' | e w']; [| exact H].
  destruct H as (entries & -> & Hall & -> & ->). cbn [app orb]. auto.
Qed.

Lemma reading_of_cities (city_coords : list (string * (Q * Q)))
    (results : list reading) :
  Forall2 reading_of city_coords results ->
  map r_city results = map fst city_coords.
Proof.
  induction 1 as [| item r items rs Hr _ IH]; [reflexivity |].
  cbn [map]. destruct Hr as (-> & _). now rewrite IH.
Qed.

(** Without a secondary key the run always completes, with one entry
    per city in the order of [city_coords]. *)
Lemma run_completes_without_secondary_key
    (city_coords : list (string * (Q * Q))) (w : world) :
  truthy mapmyindia_key = false ->
  exists results api_working api_source w',
    get_congestion_for_cities E city_coords tomtom_key mapmyindia_key w
    = Return (results, api_working, api_source) w' /\
    Forall2 reading_of city_coords results /\
    map r_city results = map fst city_coords.
Proof.
  intros Hkey. pose proof (run_outcome city_coords w) as H.
  destruct (get_congestion_for_cities E city_coords tomtom_key mapmyindia_key w)
    as [[[results api_working] api_source] w' | e w'].
  - destruct H as (Hall & _). exists results, api_working, api_source, w'.
    split; [reflexivity |]. split; [exact Hall | apply reading_of_cities, Hall].
  - destruct H as (_ & Htrue & _). congruence.
Qed.
End Run.

Lemma last_live_source_find (entries : list reading) (initial : string) :
  last_live_source entries initial
  = match find live (rev entries) with
    | Some r => r_source r
    | None => initial
    end.
Proof.
  induction entries as [| x l IH] using rev_ind; [reflexivity |].
  unfold last_live_source in *. rewrite fold_left_app, rev_app_distr.
  cbn [fold_left rev app find]. destruct (live x); [reflexivity | exact IH].
Qed.

(** ** The clients on an HTTP 200 *)

Lemma py_get_dict (flow : list (string * pyval)) (k : string) (default : pyval) :
  py_get (PDict flow) k default = ret (field_or flow k default).
Proof. unfold py_get, field_or. now destruct (dict_lookup flow k). Qed.

#[local] Arguments congestion_of_ratio : simpl never.
#[local] Arguments Qltb : simpl never.
#[local] Arguments Qeq_bool : simpl never.
#[local] Arguments Qdiv : simpl never.
#[local] Arguments py_round1 : simpl never.

(** Steps into the HTTP 200 branch of Client A, given the answer of the
    network. *)
Ltac enter_200 Hnet :=
  unfold get_traffic_from_tomtom;
  unfold try_except, bind at 1, logger_info, bind at 1, requests_get;
  cbn [tick log]; rewrite Hnet; cbn beta iota;
  change (200 =? 200)%Z with true; cbn iota.

(** Reads the fields of [flowSegmentData] up to the test on the
    free-flow speed. *)
Ltac read_fields Hflow Hf :=
  cbn [response_json]; rewrite bind_ret; unfold py_get at 1;
  rewrite Hflow, bind_ret, !py_get_dict, !bind_ret;
  unfold py_gt0; rewrite Hf, bind_ret.

Lemma Qeq_bool_pos (x : Q) : 0 < x -> Qeq_bool x 0 = false.
Proof.
  intros H. destruct (Qeq_bool x 0) eqn:Hb; [| reflexivity].
  apply Qeq_bool_eq in Hb. lra.
Qed.

(** Step into a client's body, past the request, given the outcome
    of the request. *)
Ltac tomtom_step Hnet :=
  unfold get_traffic_from_tomtom;
  unfold try_except, bind at 1, logger_info, bind at 1, requests_get;
  cbn [tick log]; rewrite Hnet; cbn beta iota.

Ltac mapmyindia_step Hnet :=
  unfold get_traffic_from_mapmyindia;
  unfold try_except, bind at 1, logger_info, bind at 1, requests_get;
  cbn [tick log]; rewrite Hnet; cbn beta iota.

Ltac mapmyindia_200 Hnet :=
  mapmyindia_step Hnet; change (200 =? 200)%Z with true; cbn iota.

(** Runs Client B's statements on a body whose [routes] entry is known. *)
Ltac mapmyindia_run Hr :=
  repeat first
    [ rewrite bind_assoc
    | rewrite bind_ret
    | rewrite py_get_dict
    | rewrite Hr
    | progress cbn [response_json py_in_routes py_getitem_str py_len py_getitem0
                    List.length Nat.ltb Nat.leb] ].

(** The percentage before rounding, [(1 - speed_ratio) * 100]. *)
Lemma ratio_percent_antitone (r1 r2 : Q) :
  r1 <= r2 -> fmul (fsub 1 r2) 100 <= fmul (fsub 1 r1) 100.
Proof.
  intros H. apply fmul_mono_l; [vm_compute; discriminate |].
  apply fsub_mono; [apply Qle_refl | exact H].
Qed.

Lemma ratio_percent_at_1 : fmul (fsub 1 1) 100 == 0.
Proof. vm_compute. reflexivity. Qed.

Lemma ratio_percent_at_0 : fmul (fsub 1 0) 100 == 100.
Proof. vm_compute. reflexivity. Qed.

(** ** Division, and the range of doubles *)

Lemma b64_abs (x : Q) : b64 (Qabs x) == Qabs (b64 x).
Proof.
  destruct (Qlt_le_dec x 0) as [H | H].
  - assert (E : Qabs x == - x) by (apply Qabs_neg; lra).
    rewrite E, b64_opp.
    assert (Hb : b64 x <= 0).
    { pose proof (b64_mono x 0 ltac:(lra)) as Hm. rewrite b64_0 in Hm. exact Hm. }
    now rewrite (Qabs_neg _ Hb).
  - assert (E : Qabs x == x) by now apply Qabs_pos.
    rewrite E. now rewrite (Qabs_pos _ (b64_nonneg x H)).
Qed.

Lemma too_large_below (x y : Q) :
  Qabs x <= Qabs y -> too_large y = false -> too_large x = false.
Proof.
  unfold too_large. intros Hxy Hy.
  destruct (Qle_bool (pow2 1024) (Qabs (b64 x))) eqn:Hx; [| reflexivity].
  apply Qle_bool_iff in Hx.
  assert (Hy' : Qle_bool (pow2 1024) (Qabs (b64 y)) = true).
  { apply Qle_bool_iff. apply Qle_trans with (1 := Hx).
    rewrite <- !b64_abs. now apply b64_mono. }
  congruence.
Qed.

Lemma is_integer_spec (x : Q) :
  is_integer x = true -> x == inject_Z (Qnum x / Zpos (Qden x)).
Proof.
  unfold is_integer. intros H. apply Z.eqb_eq in H.
  apply Z.div_exact in H; [| discriminate].
  unfold Qeq, inject_Z. cbn [Qnum Qden]. lia.
Qed.

(** An integer that is not zero is at least 1 in magnitude. *)
Lemma integer_magnitude (y : Q) : is_integer y = true -> ~ y == 0 -> 1 <= Qabs y.
Proof.
  intros Hi Hnz. pose proof (is_integer_spec y Hi) as E.
  set (n := (Qnum y / Zpos (Qden y))%Z) in *.
  assert (Hn : n <> 0%Z).
  { intros Hn. apply Hnz. rewrite E, Hn. reflexivity. }
  assert (Habs : Qabs y == inject_Z (Z.abs n)) by (rewrite E; reflexivity).
  rewrite Habs. change 1 with (inject_Z 1). rewrite <- Zle_Qle. lia.
Qed.

Lemma truediv_error (x y : Q) (e : exn) :
  truediv x y = inl e -> e = ZeroDivisionError \/ e = OverflowError.
Proof.
  unfold truediv.
  repeat match goal with
         | |- context [if ?c then _ else _] => destruct c
         end; intros H; inversion H; auto.
Qed.

(** A quotient is a double. *)
Lemma truediv_is_double (x y r : Q) : truediv x y = inr r -> is_double r.
Proof.
  unfold truediv, fdiv.
  repeat match goal with
         | |- context [if ?c then _ else _] => destruct c
         end; intros H; inversion H; apply b64_idem.
Qed.

(** Division succeeds when the operands are within the range of the
    doubles and the divisor is not zero as a double. *)
Lemma truediv_in_range (x y : Q) :
  too_large x = false -> too_large y = false -> ~ b64 y == 0 ->
  exists r, truediv x y = inr r.
Proof.
  intros Hx Hy Hnz. unfold truediv.
  destruct (is_integer x && is_integer y) eqn:Hint.
  - apply andb_prop in Hint. destruct Hint as [_ Hiy].
    assert (Hy0 : ~ y == 0).
    { intros H0. apply Hnz. now apply b64_zero. }
    destruct (Qeq_bool y 0) eqn:Hq; [apply Qeq_bool_eq in Hq; contradiction |].
    assert (Hsmall : too_large (x / y) = false).
    { apply too_large_below with x; [| exact Hx].
      pose proof (integer_magnitude y Hiy Hy0) as H1.
      unfold Qdiv. rewrite Qabs_Qmult, Qabs_Qinv.
      pose proof (Qabs_nonneg x) as Hax.
      assert (Hinv : / Qabs y <= 1).
      { apply Qle_shift_inv_r; lra. }
      rewrite <- (Qmult_1_r (Qabs x)) at 2.
      rewrite !(Qmult_comm (Qabs x)). apply Qmult_le_compat_r; assumption. }
    rewrite Hsmall. eexists. reflexivity.
  - rewrite Hx, Hy. cbn [orb].
    destruct (Qeq_bool (b64 y) 0) eqn:Hq; [apply Qeq_bool_eq in Hq; contradiction |].
    eexists. reflexivity.
Qed.

(** Between two doubles every reading of the division agrees: it is the
    exact quotient rounded once. *)
Lemma truediv_doubles (x y r : Q) :
  is_double x -> is_double y -> truediv x y = inr r -> r == b64 (x / y).
Proof.
  unfold is_double, truediv, fdiv. intros Hx Hy.
  repeat match goal with
         | |- context [if ?c then _ else _] => destruct c
         end; intros H; inversion H; try reflexivity.
  apply b64_comp. now rewrite Hx, Hy.
Qed.

(** ** The error of the derived congestion *)









#[global] Instance py_min_comp : Proper (Qeq ==> Qeq ==> Qeq) py_min.
Proof.
  intros a a' Ha b b' Hb. unfold py_min.
  destruct (Qltb b a) eqn:H1; [apply Qltb_lt in H1 | apply Qltb_ge in H1];
    (destruct (Qltb b' a') eqn:H2; [apply Qltb_lt in H2 | apply Qltb_ge in H2]); lra.
Qed.

#[global] Instance py_max_comp : Proper (Qeq ==> Qeq ==> Qeq) py_max.
Proof.
  intros a a' Ha b b' Hb. unfold py_max.
  destruct (Qltb a b) eqn:H1; [apply Qltb_lt in H1 | apply Qltb_ge in H1];
    (destruct (Qltb a' b') eqn:H2; [apply Qltb_lt in H2 | apply Qltb_ge in H2]); lra.
Qed.




(** ** The clients on an HTTP 200: the arithmetic *)

(** Client A on a 200 whose [flowSegmentData] is an object: the fields
    are read with their defaults, the free-flow speed decides between
    failure and division, and the division between "TomTom Error" and
    the congestion. *)
Lemma tomtom_200_fields
    (E : env) (lat lon : Q) (key : string) (w : world)
    (items flow : list (string * pyval)) (f : Q) :
  net E (tick w) (TomTomFlow key lat lon) = Response 200 (Some (PDict items)) ->
  dict_lookup items "flowSegmentData" = Some (PDict flow) ->
  py_num (field_or flow "freeFlowSpeed" (PNum 1)) = Some f ->
  let w' := {| tick := S (tick w);
               log := (log w ++ [RequestingTomTom lat lon])%list |} in
  (f <= 0 ->
   get_traffic_from_tomtom E lat lon key w
   = Return (None, "TomTom Failed", NA, NA) w') /\
  (0 < f ->
   forall s,
     py_num (field_or flow "currentSpeed" (PNum 0)) = Some s ->
     match truediv s f with
     | inl _ =>
         get_traffic_from_tomtom E lat lon key w
         = Return (None, "TomTom Error", NA, NA) w'
     | inr r =>
         forall q,
           py_num (field_or flow "confidence" (PNum 0)) = Some q ->
           too_large q = false ->
           get_traffic_from_tomtom E lat lon key w
           = Return (Some (congestion_of_ratio r), "TomTom Traffic API",
                     field_or flow "currentSpeed" (PNum 0),
                     field_or flow "freeFlowSpeed" (PNum 1)) w'
     end).
Proof.
  intros Hnet Hflow Hf w'. split.
  - intros Hle. enter_200 Hnet. fold w'. read_fields Hflow Hf.
    apply Qltb_ge in Hle. rewrite Hle. reflexivity.
  - intros Hpos s Hs.
    destruct (truediv s f) as [e | r] eqn:Hdiv.
    + enter_200 Hnet. fold w'. read_fields Hflow Hf.
      rewrite (proj2 (Qltb_lt 0 f) Hpos).
      unfold py_truediv. rewrite Hs, Hf, Hdiv.
      destruct (truediv_error _ _ _ Hdiv) as [-> | ->]; reflexivity.
    + intros q Hq Hsmall. enter_200 Hnet. fold w'. read_fields Hflow Hf.
      rewrite (proj2 (Qltb_lt 0 f) Hpos).
      unfold py_truediv. rewrite Hs, Hf, Hdiv, bind_ret.
      destruct (field_or flow "confidence" (PNum 0)) as [| b | c | | |];
        try discriminate.
      * reflexivity.
      * cbn [py_num] in Hq. injection Hq as ->.
        unfold py_format_percent. rewrite Hsmall. reflexivity.
Qed.

(** Client B on a 200 whose first route has a positive distance and a
    positive duration: three divisions, and "MapmyIndia Error" when one
    of them raises. *)
Lemma mapmyindia_200_route
    (E : env) (lat lon : Q) (key : string) (w : world)
    (items route : list (string * pyval)) (rest : list pyval) (d t : Q) :
  net E (tick w) (MapmyIndiaRoute key lon lat (fadd lon 0.01) (fadd lat 0.01))
  = Response 200 (Some (PDict items)) ->
  dict_lookup items "routes" = Some (PList (PDict route :: rest)) ->
  py_num (field_or route "distance" (PNum 1)) = Some d ->
  py_num (field_or route "duration" (PNum 0)) = Some t ->
  0 < d -> 0 < t ->
  let w' := {| tick := S (tick w);
               log := (log w ++ [RequestingMapmyIndia lat lon])%list |} in
  let returns r := get_traffic_from_mapmyindia E lat lon key w = Return (Some r) w' in
  match truediv d 1000 with
  | inl _ => returns mapmyindia_error
  | inr km =>
      match truediv t 3600 with
      | inl _ => returns mapmyindia_error
      | inr hours =>
          match truediv km hours with
          | inl _ => returns mapmyindia_error
          | inr speed =>
              returns (Some (congestion_of_ratio (fdiv speed 50)),
                       "MapmyIndia Route API", PNum (py_round1 speed), PNum 50)
          end
      end
  end.
Proof.
  intros Hnet Hr Hd Ht Hdpos Htpos w' returns. subst returns.
  assert (Hstart :
    get_traffic_from_mapmyindia E lat lon key w
    = match (km <- py_truediv (field_or route "distance" (PNum 1)) (PNum 1000) ;;
             hours <- py_truediv (field_or route "duration" (PNum 0)) (PNum 3600) ;;
             current_speed <- py_truediv (PNum km) (PNum hours) ;;
             ret (Some (Some (congestion_of_ratio (fdiv current_speed 50)),
                        "MapmyIndia Route API",
                        PNum (py_round1 current_speed), PNum 50))) w' with
      | Return a w1 => Return a w1
      | Raise e w1 => Return (Some mapmyindia_error) w1
      end).
  { mapmyindia_200 Hnet. fold w'. mapmyindia_run Hr.
    unfold py_gt0 at 1. rewrite Hd. mapmyindia_run Hr.
    rewrite (proj2 (Qltb_lt 0 d) Hdpos).
    unfold py_gt0 at 1. rewrite Ht. mapmyindia_run Hr.
    rewrite (proj2 (Qltb_lt 0 t) Htpos). reflexivity. }
  destruct (truediv d 1000) as [e1 | km] eqn:H1;
    [| destruct (truediv t 3600) as [e2 | hours] eqn:H2;
       [| destruct (truediv km hours) as [e3 | speed] eqn:H3]];
    rewrite Hstart; unfold py_truediv; rewrite Hd, ?Ht; cbn [py_num];
    rewrite H1, ?bind_ret, ?H2, ?bind_ret, ?H3; reflexivity.
Qed.


(** ** The clients on doubles *)

Lemma py_round1_ext (x y : Q) : x == y -> py_round1 x = py_round1 y.
Proof.
  intros H. unfold py_round1.
  assert (E : x * 10 == y * 10) by now rewrite H.
  now rewrite (round_half_even_comp _ _ E).
Qed.

Lemma congestion_of_ratio_ext (r r' : Q) :
  r == r' -> congestion_of_ratio r = congestion_of_ratio r'.
Proof.
  intros H. unfold congestion_of_ratio.
  assert (E : fmul (fsub 1 r) 100 == fmul (fsub 1 r') 100).
  { unfold fmul, fsub. now rewrite H. }
  now rewrite (py_round1_ext _ _ E).
Qed.

Lemma fdiv_doubles (x y : Q) : is_double x -> is_double y -> fdiv x y == b64 (x / y).
Proof.
  unfold is_double, fdiv. intros Hx Hy. apply b64_comp. now rewrite Hx, Hy.
Qed.

(** Between two doubles within range the division raises only on a
    zero divisor, and is the quotient rounded once. *)
Lemma truediv_of_doubles (x y : Q) :
  is_double x -> is_double y -> too_large x = false -> too_large y = false ->
  ~ y == 0 ->
  exists r, truediv x y = inr r /\ r == fdiv x y.
Proof.
  intros Hx Hy Hrx Hry Hnz.
  assert (Hnz' : ~ b64 y == 0).
  { unfold is_double in Hy. now rewrite Hy. }
  destruct (truediv_in_range x y Hrx Hry Hnz') as (r & Hr).
  exists r. split; [exact Hr |].
  rewrite (truediv_doubles x y r Hx Hy Hr). symmetry. now apply fdiv_doubles.
Qed.

Lemma truediv_by_zero (x y : Q) :
  is_double x -> is_double y -> too_large x = false -> too_large y = false ->
  y == 0 -> exists e, truediv x y = inl e.
Proof.
  intros Hx Hy Hrx Hry Hz. unfold truediv.
  destruct (is_integer x && is_integer y).
  - rewrite (proj2 (Qeq_bool_iff y 0) Hz). now eexists.
  - rewrite Hrx, Hry. cbn [orb].
    assert (Hb : b64 y == 0) by (unfold is_double in Hy; now rewrite Hy).
    rewrite (proj2 (Qeq_bool_iff _ 0) Hb). now eexists.
Qed.

#[global] Instance too_large_comp : Proper (Qeq ==> eq) too_large.
Proof.
  intros x y H. unfold too_large.
  assert (E : Qabs (b64 x) == Qabs (b64 y)) by now rewrite H.
  destruct (Qle_bool (pow2 1024) (Qabs (b64 x))) eqn:H1;
    destruct (Qle_bool (pow2 1024) (Qabs (b64 y))) eqn:H2; try reflexivity.
  - apply Qle_bool_iff in H1. rewrite E in H1. apply Qle_bool_iff in H1. congruence.
  - apply Qle_bool_iff in H2. rewrite <- E in H2. apply Qle_bool_iff in H2. congruence.
Qed.

Lemma too_large_b64 (x : Q) : too_large (b64 x) = too_large x.
Proof.
  unfold too_large. pose proof (b64_idem x) as Hi. unfold is_double in Hi.
  assert (E : Qabs (b64 (b64 x)) == Qabs (b64 x)) by now rewrite Hi.
  destruct (Qle_bool (pow2 1024) (Qabs (b64 (b64 x)))) eqn:H1;
    destruct (Qle_bool (pow2 1024) (Qabs (b64 x))) eqn:H2; try reflexivity.
  - apply Qle_bool_iff in H1. rewrite E in H1. apply Qle_bool_iff in H1. congruence.
  - apply Qle_bool_iff in H2. rewrite <- E in H2. apply Qle_bool_iff in H2. congruence.
Qed.

Lemma too_large_quotient (x y : Q) :
  too_large x = false -> 1 <= y -> too_large (x / y) = false.
Proof.
  intros Hx Hy. apply too_large_below with x; [| exact Hx].
  unfold Qdiv. rewrite Qabs_Qmult, Qabs_Qinv, (Qabs_pos y) by lra.
  pose proof (Qabs_nonneg x) as Hax.
  assert (Hinv : / y <= 1) by (apply Qle_shift_inv_r; lra).
  rewrite <- (Qmult_1_r (Qabs x)) at 2.
  rewrite !(Qmult_comm (Qabs x)). apply Qmult_le_compat_r; assumption.
Qed.

(** Client A on a 200 whose speeds are doubles within range. *)
Lemma tomtom_200_doubles
    (E : env) (lat lon : Q) (key : string) (w : world)
    (items flow : list (string * pyval)) (s f q : Q) :
  net E (tick w) (TomTomFlow key lat lon) = Response 200 (Some (PDict items)) ->
  dict_lookup items "flowSegmentData" = Some (PDict flow) ->
  py_num (field_or flow "currentSpeed" (PNum 0)) = Some s ->
  py_num (field_or flow "freeFlowSpeed" (PNum 1)) = Some f ->
  py_num (field_or flow "confidence" (PNum 0)) = Some q ->
  is_double s -> is_double f ->
  too_large s = false -> too_large f = false -> too_large q = false ->
  0 < f ->
  get_traffic_from_tomtom E lat lon key w
  = Return (Some (congestion_of_ratio (fdiv s f)), "TomTom Traffic API",
            field_or flow "currentSpeed" (PNum 0),
            field_or flow "freeFlowSpeed" (PNum 1))
           {| tick := S (tick w);
              log := (log w ++ [RequestingTomTom lat lon])%list |}.
Proof.
  intros Hnet Hflow Hs Hf Hq Hds Hdf Hrs Hrf Hrq Hpos.
  destruct (tomtom_200_fields E lat lon key w items flow f Hnet Hflow Hf) as [_ Hok].
  specialize (Hok Hpos s Hs).
  assert (Hnz : ~ f == 0) by lra.
  destruct (truediv_of_doubles s f Hds Hdf Hrs Hrf Hnz) as (r & Hr & Er).
  rewrite Hr in Hok. rewrite <- (congestion_of_ratio_ext _ _ Er).
  exact (Hok q Hq Hrq).
Qed.

(** Client B on a 200 whose first route has a distance and a duration
    that are positive doubles within range: the only failure left is a
    duration so short that its hours underflow to zero. *)
Lemma mapmyindia_200_doubles
    (E : env) (lat lon : Q) (key : string) (w : world)
    (items route : list (string * pyval)) (rest : list pyval) (d t : Q) :
  net E (tick w) (MapmyIndiaRoute key lon lat (fadd lon 0.01) (fadd lat 0.01))
  = Response 200 (Some (PDict items)) ->
  dict_lookup items "routes" = Some (PList (PDict route :: rest)) ->
  py_num (field_or route "distance" (PNum 1)) = Some d ->
  py_num (field_or route "duration" (PNum 0)) = Some t ->
  is_double d -> is_double t -> too_large d = false -> too_large t = false ->
  0 < d -> 0 < t ->
  let w' := {| tick := S (tick w);
               log := (log w ++ [RequestingMapmyIndia lat lon])%list |} in
  let hours := fdiv t 3600 in
  let current_speed := fdiv (fdiv d 1000) hours in
  get_traffic_from_mapmyindia E lat lon key w
  = Return (Some (if Qeq_bool hours 0 then mapmyindia_error
                  else (Some (congestion_of_ratio (fdiv current_speed 50)),
                        "MapmyIndia Route API",
                        PNum (py_round1 current_speed), PNum 50))) w'.
Proof.
  intros Hnet Hr Hd Ht Hdd Hdt Hrd Hrt Hdpos Htpos w' hours current_speed.
  pose proof (mapmyindia_200_route E lat lon key w items route rest d t
                Hnet Hr Hd Ht Hdpos Htpos) as Hroute.
  cbv zeta in Hroute. fold w' in Hroute.
  assert (H1000 : is_double 1000) by (vm_compute; reflexivity).
  assert (H3600 : is_double 3600) by (vm_compute; reflexivity).
  destruct (truediv_of_doubles d 1000 Hdd H1000 Hrd eq_refl) as (km & Hkm & Ekm);
    [discriminate |].
  destruct (truediv_of_doubles t 3600 Hdt H3600 Hrt eq_refl) as (hrs & Hhrs & Ehrs);
    [discriminate |].
  rewrite Hkm, Hhrs in Hroute. fold hours in Ehrs.
  pose proof (truediv_is_double _ _ _ Hkm) as Dkm.
  pose proof (truediv_is_double _ _ _ Hhrs) as Dhrs.
  assert (Rkm : too_large km = false).
  { rewrite Ekm, (fdiv_doubles d 1000 Hdd H1000), too_large_b64.
    apply too_large_quotient; [exact Hrd | discriminate]. }
  assert (Rhrs : too_large hrs = false).
  { rewrite Ehrs. unfold hours.
    rewrite (fdiv_doubles t 3600 Hdt H3600), too_large_b64.
    apply too_large_quotient; [exact Hrt | discriminate]. }
  destruct (Qeq_bool hours 0) eqn:Hz.
  - apply Qeq_bool_iff in Hz. rewrite <- Ehrs in Hz.
    destruct (truediv_by_zero km hrs Dkm Dhrs Rkm Rhrs Hz) as (e & He).
    rewrite He in Hroute. exact Hroute.
  - assert (Hnz : ~ hrs == 0).
    { intros H0. rewrite Ehrs in H0. apply Qeq_bool_iff in H0. congruence. }
    destruct (truediv_of_doubles km hrs Dkm Dhrs Rkm Rhrs Hnz) as (sp & Hsp & Esp).
    rewrite Hsp in Hroute.
    assert (Espeed : sp == current_speed).
    { rewrite Esp. unfold current_speed, fdiv. now rewrite Ekm, Ehrs. }
    rewrite <- (py_round1_ext _ _ Espeed).
    assert (Eratio : fdiv sp 50 == fdiv current_speed 50).
    { apply b64_comp. now rewrite Espeed. }
    rewrite <- (congestion_of_ratio_ext _ _ Eratio).
    exact Hroute.
Qed.

(** ** The seed of the simulator *)

Lemma fold_left_add (l : list Z) (a : Z) : fold_left Z.add l a = (a + Zsum l)%Z.
Proof.
  revert a. induction l as [| x l IH]; intros a; cbn [fold_left Zsum fold_right].
  - lia.
  - rewrite IH. unfold Zsum. lia.
Qed.

(** Python's [sum] adds from the left, starting from 0. *)
Lemma sum_ord_Zsum (s : string) : sum_ord s = Zsum (ords s).
Proof. unfold sum_ord. now rewrite fold_left_add. Qed.

(** The characters of an ASCII string are its bytes. *)
Lemma ords_from_ascii (s : string) (pending : option Z) :
  all_ascii s = true ->
  ords_from s pending
  = (match pending with Some c => [c] | None => [] end
     ++ map byte_value (list_ascii_of_string s))%list.
Proof.
  revert pending. induction s as [| b rest IH]; intros pending Hs.
  - cbn. now rewrite app_nil_r.
  - unfold all_ascii in Hs. cbn [list_ascii_of_string forallb] in Hs.
    apply andb_prop in Hs. destruct Hs as [Hb Hrest].
    cbn [ords_from list_ascii_of_string map].
    assert (Hlow : (128 <=? byte_value b)%Z = false).
    { apply Z.ltb_lt in Hb. apply Z.leb_gt. exact Hb. }
    rewrite Hlow, Hb. cbn [andb].
    destruct pending as [c |]; rewrite (IH _ Hrest); reflexivity.
Qed.

Lemma ords_ascii (s : string) :
  all_ascii s = true -> ords s = map byte_value (list_ascii_of_string s).
Proof. intros H. unfold ords. now rewrite ords_from_ascii. Qed.

(** The quotient and the remainder of the seed by 40. *)
Lemma sim_base_congestion_euclid (seed : Z) :
  (seed = 40 * (seed / 40) + (sim_base_congestion seed - 20))%Z.
Proof.
  unfold sim_base_congestion. pose proof (Z.div_mod seed 40). lia.
Qed.

(** The seeds of some names and coordinates, as the code computes them:
    0.29 * 100 is below 29 in doubles, and a character beyond ASCII
    counts with its code point. *)
Lemma seed_samples :
  ords "Pune" = [80; 117; 110; 101]%Z /\
  ords "पुणे" = [2346; 2369; 2339; 2375]%Z /\
  sum_ord "पुणे" = 9429%Z /\
  sim_seed "Pune" 0.29 73.8567 = 7821%Z /\
  sim_seed "Pune" 18.5204 73.8567 = 9645%Z /\
  sim_base_congestion 9645 = 25%Z.
Proof. repeat split; vm_compute; reflexivity. Qed.

(** * The claims *)

(** C1 (the code departs from the claim). The claim: no failure of
    Client A or Client B reaches the caller as an exception, and every
    city gets a row, also when Client B receives an HTTP 200 whose body
    has no [routes], an empty [routes], or a route whose distance or
    duration is not positive. On each such body, with only the
    secondary key configured, Client B falls off the end of its body,
    the unpacking of its result raises TypeError, and the run ends with
    that exception and no row. *)
Theorem routeless_200_raises_to_the_caller :
  let run body :=
    get_congestion_for_cities (env_always_200 body) [pune] EmptyString "MMI-KEY" w0 in
  let crashed := Raise TypeError
                   {| tick := 2; log := [RequestingMapmyIndia 18.5204 73.8567] |} in
  run (PDict []) = crashed /\
  run (PDict [("routes", PList [])]) = crashed /\
  run (route_body 0 1000) = crashed /\
  run (route_body 90 0) = crashed.
Proof. repeat split; vm_compute; reflexivity. Qed.

(** C2, as stated, fails: the claim has every HTTP 200 whose payload
    lacks the speed fields end in a parse failure. On the body
    {"flowSegmentData": {}} the client takes the defaults
    currentSpeed = 0 and freeFlowSpeed = 1 and returns a success:
    congestion 100 under the label "TomTom Traffic API". *)
Lemma missing_speed_fields_are_a_success :
  get_traffic_from_tomtom
    (env_always_200 (PDict [("flowSegmentData", PDict [])]))
    18.5204 73.8567 "TT-KEY" w0
  = Return (Some 100, "TomTom Traffic API", PNum 0, PNum 1)
           {| tick := 1; log := [RequestingTomTom 18.5204 73.8567] |} /\
  ~ parse_failure (Some 100, "TomTom Traffic API", PNum 0, PNum 1).
Proof.
  split; [vm_compute; reflexivity |].
  intros [H _]. discriminate H.
Qed.

(** C2, amended. On an HTTP 200 the primary client answers as follows.
    A body that is not a JSON object gives the failure "TomTom Error".
    When [flowSegmentData] is an object, its missing fields take the
    defaults currentSpeed = 0, freeFlowSpeed = 1 and confidence = 0;
    a free-flow speed that is then at most 0 gives the parse failure
    "TomTom Failed" with no congestion and no speeds. A free-flow speed
    above 0 gives, when the two speeds are doubles within range and the
    confidence is a number within range, a success labelled
    "TomTom Traffic API" whose congestion is derived from the quotient
    of the two speeds, so that missing speed fields end in a success;
    and it gives the failure "TomTom Error" when the speeds are two
    integers whose quotient is beyond the doubles.
    Every answer to a 200 is one of: the failure "TomTom Failed", the
    failure "TomTom Error", a success with a congestion in [0, 100]. *)
Theorem tomtom_200_outcome
    (E : env) (lat lon : Q) (key : string) (w : world) (body : option pyval) :
  net E (tick w) (TomTomFlow key lat lon) = Response 200 body ->
  let w' := {| tick := S (tick w);
               log := (log w ++ [RequestingTomTom lat lon])%list |} in
  let answer t := get_traffic_from_tomtom E lat lon key w = Return t w' in
  ((forall items, body <> Some (PDict items)) ->
   answer (None, "TomTom Error", NA, NA)) /\
  (forall items flow f,
      body = Some (PDict items) ->
      dict_lookup items "flowSegmentData" = Some (PDict flow) ->
      let current_speed := field_or flow "currentSpeed" (PNum 0) in
      let free_flow_speed := field_or flow "freeFlowSpeed" (PNum 1) in
      let confidence := field_or flow "confidence" (PNum 0) in
      py_num free_flow_speed = Some f ->
      (f <= 0 -> answer (None, "TomTom Failed", NA, NA)) /\
      (0 < f ->
       forall s, py_num current_speed = Some s ->
         (forall q, py_num confidence = Some q ->
            is_double s -> is_double f ->
            too_large s = false -> too_large f = false -> too_large q = false ->
            answer (Some (congestion_of_ratio (fdiv s f)), "TomTom Traffic API",
                    current_speed, free_flow_speed)) /\
         (is_integer s = true -> is_integer f = true -> too_large (s / f) = true ->
          answer (None, "TomTom Error", NA, NA)))) /\
  (exists t,
      answer t /\
      (t = (None, "TomTom Failed", NA, NA) \/
       t = (None, "TomTom Error", NA, NA) \/
       success_tuple "TomTom Traffic API" t)).
Proof.
  intros Hnet w' answer. subst answer.
  split; [| split].
  - intros Hbody. enter_200 Hnet.
    destruct body as [data |]; [| reflexivity].
    cbn [response_json]. rewrite bind_ret.
    destruct data; try reflexivity.
    exfalso. apply (Hbody items). reflexivity.
  - intros items flow f Hbody Hflow. cbv zeta. intros Hf. subst body.
    destruct (tomtom_200_fields E lat lon key w items flow f Hnet Hflow Hf)
      as [Hfail Hdiv].
    split; [exact Hfail |].
    intros Hpos s Hs. split.
    + intros q Hq Hds Hdf Hrs Hrf Hrq.
      exact (tomtom_200_doubles E lat lon key w items flow s f q
               Hnet Hflow Hs Hf Hq Hds Hdf Hrs Hrf Hrq Hpos).
    + intros His Hif Hbig. specialize (Hdiv Hpos s Hs).
      unfold truediv in Hdiv. rewrite His, Hif in Hdiv. cbn [andb] in Hdiv.
      rewrite (Qeq_bool_pos f Hpos), Hbig in Hdiv. exact Hdiv.
  - enter_200 Hnet. fold w'.
    match goal with
    | |- context [match ?c w' with Return _ _ => _ | Raise _ _ => _ end] =>
        assert (H : pure_or_raise c
                      (fun t => t = (None, "TomTom Failed", NA, NA) \/
                                success_tuple "TomTom Traffic API" t));
        [| destruct (H w') as [(t & -> & Ht) | (e & Hraise & He)] ]
    end.
    + por_walk. right.
      do 3 eexists. split; [reflexivity | apply congestion_of_ratio_range].
    + exists t. split; [reflexivity |]. destruct Ht as [Ht | Ht]; auto.
    + exists (None, "TomTom Error", NA, NA). split; [| auto].
      rewrite Hraise. destruct e; try reflexivity; contradiction.
Qed.

Lemma tomtom_200_outcome_witness :
  get_traffic_from_tomtom (env_always_200 (flow_body 29 80))
                          18.5204 73.8567 "TT-KEY" w0
  = Return (Some (congestion_of_ratio (fdiv 29 80)), "TomTom Traffic API",
            PNum 29, PNum 80)
           {| tick := 1; log := [RequestingTomTom 18.5204 73.8567] |} /\
  congestion_of_ratio (fdiv 29 80) == 63.7.
Proof.
  pose proof (tomtom_200_outcome (env_always_200 (flow_body 29 80))
                18.5204 73.8567 "TT-KEY" w0 (Some (flow_body 29 80)) eq_refl) as H.
  cbv zeta in H. destruct H as (_ & H & _).
  destruct (H _ _ 80 eq_refl eq_refl eq_refl) as (_ & Hpos).
  destruct (Hpos eq_refl 29 eq_refl) as (Hok & _).
  split; [| vm_compute; reflexivity].
  apply (Hok 0.9 eq_refl); vm_compute; reflexivity.
Defined.

(** C3, as stated, fails: the claim reports the first live source of
    the run, and the primary's name whenever the primary succeeded for
    some city. With both keys configured, the primary succeeds for
    Mumbai; for Pune it is rate limited and the secondary succeeds: the
    run reports "MapmyIndia Route API". *)
Lemma later_secondary_success_renames_the_source :
  let run := get_congestion_for_cities
               (env_primary_once (Response 200 (Some (route_body 90 1000))))
               [mumbai; pune] "TT-KEY" "MMI-KEY" w0 in
  (exists results w',
      run = Return (results, true, "MapmyIndia Route API") w' /\
      map r_source results = ["TomTom Traffic API"; "MapmyIndia Route API"]) /\
  ~ names_first_live_source run.
Proof.
  split.
  - do 2 eexists. split; [vm_compute; reflexivity | reflexivity].
  - intros H. vm_compute in H. destruct H as [H _]. discriminate H.
Qed.

(** C3, amended. For every run that completes, [activeSourceName] is
    the label of the last city, in iteration order, that a live source
    resolved (each live success overwrites the name, so a later success
    of the secondary replaces an earlier one of the primary), and it is
    "None" when no city was resolved by a live source; the flag
    [anyLiveSourceActive] tells whether some city was. *)
Theorem active_source_is_the_last_live
    (E : env) (city_coords : list (string * (Q * Q)))
    (tomtom_key mapmyindia_key : string) (w w' : world)
    (results : list reading) (api_working : bool) (api_source : string) :
  get_congestion_for_cities E city_coords tomtom_key mapmyindia_key w
  = Return (results, api_working, api_source) w' ->
  api_source = source_of_last_live results /\
  api_working = existsb live results /\
  (api_working = false -> api_source = "None").
Proof.
  intros Hrun.
  pose proof (run_outcome E tomtom_key mapmyindia_key city_coords w) as H.
  rewrite Hrun in H. destruct H as (_ & -> & ->).
  rewrite last_live_source_find. fold (source_of_last_live results).
  repeat split. intros Hnone. unfold source_of_last_live.
  destruct (find live (rev results)) as [r |] eqn:Hfind; [| reflexivity].
  apply find_some in Hfind. destruct Hfind as [Hin Hlive].
  apply in_rev in Hin.
  assert (Hex : existsb live results = true).
  { apply existsb_exists. exists r. split; assumption. }
  congruence.
Qed.

Lemma active_source_is_the_last_live_witness :
  "MapmyIndia Route API"
  = source_of_last_live
      [ {| r_city := "Mumbai"; r_lat := 19.0760; r_lon := 72.8777;
           r_congestion := Some 50.0; r_source := "TomTom Traffic API";
           r_current_speed := PNum 25; r_free_flow_speed := PNum 50;
           r_timestamp := "2024-01-03T08:00:00" |};
        {| r_city := "Pune"; r_lat := 18.5204; r_lon := 73.8567;
           r_congestion := Some 20.0; r_source := "MapmyIndia Route API";
           r_current_speed := PNum 40.0; r_free_flow_speed := PNum 50;
           r_timestamp := "2024-01-03T08:00:00" |} ].
Proof.
  refine (proj1 (active_source_is_the_last_live
                   (env_primary_once (Response 200 (Some (route_body 90 1000))))
                   [mumbai; pune] "TT-KEY" "MMI-KEY" w0
                   {| tick := 6;
                      log := [RequestingTomTom 19.0760 72.8777;
                              RequestingTomTom 18.5204 73.8567;
                              RequestingMapmyIndia 18.5204 73.8567] |}
                   _ true _ _)).
  vm_compute. reflexivity.
Defined.

(** C4 (the code departs from the claim, by the defect of C1). The
    claim: for any city mapping and any keys the run returns one
    reading per city, in order. With both keys configured, the primary
    succeeds for Mumbai; for Pune the primary is rate limited and the
    secondary answers 200 with an empty [routes]: the run raises
    TypeError and returns no reading, not even Mumbai's. *)
Theorem no_reading_when_secondary_falls_off :
  get_congestion_for_cities
    (env_primary_once (Response 200 (Some (PDict [("routes", PList [])]))))
    [mumbai; pune] "TT-KEY" "MMI-KEY" w0
  = Raise TypeError
      {| tick := 5;
         log := [RequestingTomTom 19.0760 72.8777;
                 RequestingTomTom 18.5204 73.8567;
                 RequestingMapmyIndia 18.5204 73.8567] |}.
Proof. vm_compute. reflexivity. Qed.

(** C5. Every congestion value that a component produces lies in
    [0, 100]: a success of Client A, a success of Client B, the
    simulator's value (which it always produces), and with them every
    entry of a run that completes. *)
Theorem every_congestion_in_range :
  (forall E lat lon key w c label cs ffs w',
      get_traffic_from_tomtom E lat lon key w = Return (Some c, label, cs, ffs) w' ->
      0 <= c <= 100) /\
  (forall E lat lon key w c label cs ffs w',
      get_traffic_from_mapmyindia E lat lon key w
      = Return (Some (Some c, label, cs, ffs)) w' ->
      0 <= c <= 100) /\
  (forall E city lat lon w,
      exists c cs ffs w',
        get_simulated_congestion E city lat lon w
        = Return (Some c, "AI Prediction Model", cs, ffs) w' /\
        0 <= c <= 100) /\
  (forall E city_coords tomtom_key mapmyindia_key w results api_working api_source w',
      get_congestion_for_cities E city_coords tomtom_key mapmyindia_key w
      = Return (results, api_working, api_source) w' ->
      Forall (fun r => exists c, r_congestion r = Some c /\ 0 <= c <= 100) results).
Proof.
  split; [| split; [| split]].
  - intros E lat lon key w c label cs ffs w' Hrun.
    destruct (tomtom_returns E lat lon key w) as (t & w1 & Ht & _ & Hs).
    rewrite Hrun in Ht. injection Ht as <- <-.
    destruct Hs as [(l & Heq & _) | (c' & cs' & ffs' & Heq & Hc)];
      [discriminate | injection Heq as -> _ _ _; exact Hc].
  - intros E lat lon key w c label cs ffs w' Hrun.
    destruct (mapmyindia_returns E lat lon key w) as (r & w1 & Hr & _ & Hs).
    rewrite Hrun in Hr. injection Hr as <- <-.
    destruct Hs as [Hnone | (t & Ht & [(l & Heq & _) | (c' & cs' & ffs' & Heq & Hc)])];
      [discriminate | |]; injection Ht as <-;
      [discriminate | injection Heq as -> _ _ _; exact Hc].
  - intros E city lat lon w.
    destruct (simulator_returns E city lat lon w) as (w' & Hs & _).
    destruct (simulated_congestion_in_range (clock E (tick w)) city lat lon)
      as (c & cs & ffs & Heq & Hc).
    rewrite Heq in Hs. exists c, cs, ffs, w'. split; [exact Hs | exact Hc].
  - intros E city_coords tomtom_key mapmyindia_key w results api_working api_source w' Hrun.
    pose proof (run_outcome E tomtom_key mapmyindia_key city_coords w) as H.
    rewrite Hrun in H. destruct H as (Hall & _).
    clear Hrun. induction Hall as [| item r items rs Hr _ IH]; constructor; [| exact IH].
    destruct Hr as (_ & _ & _ & Hc). exact Hc.
Qed.

Lemma every_congestion_in_range_witness : 0 <= 50.0 <= 100.
Proof.
  apply (proj1 every_congestion_in_range
           (env_always_200 (flow_body 25 50)) 18.5204 73.8567 "TT-KEY" w0
           50.0 "TomTom Traffic API" (PNum 25) (PNum 50)
           {| tick := 1; log := [RequestingTomTom 18.5204 73.8567] |}).
  vm_compute. reflexivity.
Defined.




(** C7. Two calls of the simulator for the same city name, latitude and
    longitude, made at times of the same hour-of-day bucket (the same
    hour in particular) and the same class of day, return the same
    tuple: congestion, label, current speed and free-flow speed. *)
Theorem simulator_is_deterministic
    (E1 E2 : env) (w1 w2 : world) (city : string) (lat lon : Q) :
  same_hour_bucket (clock E1 (tick w1)) (clock E2 (tick w2)) ->
  same_day_class (clock E1 (tick w1)) (clock E2 (tick w2)) ->
  exists result w1' w2',
    get_simulated_congestion E1 city lat lon w1 = Return result w1' /\
    get_simulated_congestion E2 city lat lon w2 = Return result w2'.
Proof.
  intros Hhour Hday.
  destruct (simulator_returns E1 city lat lon w1) as (w1' & H1 & _).
  destruct (simulator_returns E2 city lat lon w2) as (w2' & H2 & _).
  exists (simulated_congestion_at (clock E1 (tick w1)) city lat lon), w1', w2'.
  split; [exact H1 |]. rewrite H2.
  assert (Hsame : simulated_congestion_at (clock E2 (tick w2)) city lat lon
                  = simulated_congestion_at (clock E1 (tick w1)) city lat lon).
  { unfold simulated_congestion_at, weekend_factor.
    unfold same_hour_bucket in Hhour. unfold same_day_class in Hday.
    rewrite Hhour, Hday. reflexivity. }
  rewrite Hsame. reflexivity.
Qed.

Lemma simulator_is_deterministic_witness :
  exists result w1' w2',
    get_simulated_congestion (env_at (mkDatetime 8 2 "2024-01-03T08:05:00"))
                             "Mumbai" 19.0760 72.8777 w0 = Return result w1' /\
    get_simulated_congestion (env_at (mkDatetime 9 4 "2024-01-05T09:40:00"))
                             "Mumbai" 19.0760 72.8777 w0 = Return result w2'.
Proof.
  apply (simulator_is_deterministic
           (env_at (mkDatetime 8 2 "2024-01-03T08:05:00"))
           (env_at (mkDatetime 9 4 "2024-01-05T09:40:00")) w0 w0);
    reflexivity.
Defined.

(** C8, as stated, fails: the claim gives the seed as the sum of the
    character codes plus floor(lat*100) plus floor(lon*100) for every
    latitude and longitude, negative ones included. At latitude -0.125
    the code adds int(-12.5) = -12 where the floor is -13. *)
Lemma seed_differs_from_floor_below_zero :
  ~ (sim_seed "Pune" (-0.125) 73.8567 = seed_spec "Pune" (-0.125) 73.8567 /\
     (20 <= sim_base_congestion (sim_seed "Pune" (-0.125) 73.8567) <= 59)%Z).
Proof. intros [H _]. vm_compute in H. discriminate H. Qed.

(** C8, amended. For every city name, latitude and longitude the seed
    is the sum of the character codes of the name (the code points of
    its characters: for an ASCII name, its bytes) plus the products
    lat*100 and lon*100, each computed in doubles and then rounded
    towards zero, which is the floor of the computed product when the
    coordinate is not negative. The seed is the specification's when
    the coordinates are not negative and the two products are exact.
    The base congestion is the remainder of the seed by 40, between 0
    and 39, plus 20: it lies between 20 and 59. *)
Theorem seed_rounds_toward_zero (city : string) (lat lon : Q) :
  let seed := sim_seed city lat lon in
  seed = (Zsum (ords city)
          + toward_zero (fmul lat 100) + toward_zero (fmul lon 100))%Z /\
  (all_ascii city = true ->
   Zsum (ords city) = Zsum (map byte_value (list_ascii_of_string city))) /\
  (0 <= lat -> 0 <= lon ->
   seed = (Zsum (ords city) + Qfloor (fmul lat 100) + Qfloor (fmul lon 100))%Z) /\
  (0 <= lat -> 0 <= lon -> fmul lat 100 == lat * 100 -> fmul lon 100 == lon * 100 ->
   seed = seed_spec city lat lon) /\
  (20 <= sim_base_congestion seed <= 59)%Z /\
  (exists k : Z, seed = 40 * k + (sim_base_congestion seed - 20))%Z.
Proof.
  cbv zeta.
  assert (Hfloor : 0 <= lat -> 0 <= lon ->
            sim_seed city lat lon
            = (Zsum (ords city) + Qfloor (fmul lat 100) + Qfloor (fmul lon 100))%Z).
  { intros Hlat Hlon. unfold sim_seed.
    rewrite sum_ord_Zsum, !py_int_floor_nonneg; [reflexivity | |];
      apply fmul_nonneg; lra. }
  split; [| split; [| split; [| split; [| split]]]].
  - unfold sim_seed. now rewrite sum_ord_Zsum, !py_int_toward_zero.
  - intros Hascii. now rewrite ords_ascii.
  - exact Hfloor.
  - intros Hlat Hlon Elat Elon. rewrite (Hfloor Hlat Hlon). unfold seed_spec.
    now rewrite (Qfloor_comp _ _ Elat), (Qfloor_comp _ _ Elon).
  - apply sim_base_congestion_range.
  - eexists. apply sim_base_congestion_euclid.
Qed.

Lemma seed_rounds_toward_zero_witness :
  Zsum (ords "Pune") = Zsum (map byte_value (list_ascii_of_string "Pune")) /\
  sim_seed "Pune" 18.5 73.75 = seed_spec "Pune" 18.5 73.75 /\
  sim_seed "Pune" 18.5204 73.8567
  = (Zsum (ords "Pune") + Qfloor (fmul 18.5204 100) + Qfloor (fmul 73.8567 100))%Z.
Proof.
  split; [| split].
  - apply (proj1 (proj2 (seed_rounds_toward_zero "Pune" 18.5 73.75))). reflexivity.
  - apply (proj1 (proj2 (proj2 (proj2 (seed_rounds_toward_zero "Pune" 18.5 73.75)))));
      vm_compute; first [discriminate | reflexivity].
  - apply (proj1 (proj2 (proj2 (seed_rounds_toward_zero "Pune" 18.5204 73.8567))));
      discriminate.
Defined.

(** C9. For every city of a run (every execution of the loop body, in
    any world and with any values of the summary so far): if the
    primary key is configured and Client A returns a congestion for the
    city, the entry carries that congestion under the label
    "TomTom Traffic API", never the secondary's or the simulator's; and
    the iteration made one request and one clock reading and logged the
    primary's request alone, so neither Client B nor the simulator was
    called. *)
Theorem primary_success_is_final
    (E : env) (tomtom_key mapmyindia_key : string)
    (api_working : bool) (api_source : string)
    (city : string) (lat lon : Q) (w w1 : world) (t : tuple4) (c : Q) :
  truthy tomtom_key = true ->
  get_traffic_from_tomtom E lat lon tomtom_key w = Return t w1 ->
  fst (fst (fst t)) = Some c ->
  exists entry w',
    process_city E tomtom_key mapmyindia_key api_working api_source city lat lon w
    = Return (entry, true, "TomTom Traffic API") w' /\
    r_city entry = city /\
    r_congestion entry = Some c /\
    r_source entry = "TomTom Traffic API" /\
    r_source entry <> "MapmyIndia Route API" /\
    r_source entry <> "AI Prediction Model" /\
    tick w' = S (S (tick w)) /\
    log w' = (log w ++ [RequestingTomTom lat lon])%list.
Proof.
  intros Hkey Hrun Hc.
  destruct (tomtom_returns E lat lon tomtom_key w) as (t' & w1' & Ht & Hafter & Hs).
  rewrite Hrun in Ht. injection Ht as <- <-.
  destruct Hafter as [Htick Hlog].
  destruct Hs as [(label & -> & _) | (c' & cs & ffs & -> & _)]; [discriminate |].
  cbn in Hc. injection Hc as ->.
  unfold process_city. rewrite bind_if, Hkey.
  run_on. rewrite (bind_Return _ _ _ _ _ Hrun). run_on.
  do 2 eexists. split; [reflexivity |].
  cbn [r_city r_congestion r_source tick log].
  repeat split; try discriminate; [now rewrite Htick | exact Hlog].
Qed.

Lemma primary_success_is_final_witness :
  exists entry w',
    process_city (env_always_200 (flow_body 25 50)) "TT-KEY" "MMI-KEY" false "None"
                 "Pune" 18.5204 73.8567 w0
    = Return (entry, true, "TomTom Traffic API") w' /\
    r_city entry = "Pune" /\
    r_congestion entry = Some 50.0 /\
    r_source entry = "TomTom Traffic API" /\
    r_source entry <> "MapmyIndia Route API" /\
    r_source entry <> "AI Prediction Model" /\
    tick w' = 2%nat /\
    log w' = [RequestingTomTom 18.5204 73.8567].
Proof.
  apply (primary_success_is_final (env_always_200 (flow_body 25 50))
           "TT-KEY" "MMI-KEY" false "None" "Pune" 18.5204 73.8567 w0
           {| tick := 1; log := [RequestingTomTom 18.5204 73.8567] |}
           (Some 50.0, "TomTom Traffic API", PNum 25, PNum 50) 50.0).
  - reflexivity.
  - vm_compute. reflexivity.
  - reflexivity.
Defined.

(** C10. For every congestion value the colour of [congestion_to_color]
    is the colour component of [get_congestion_status], and both use
    the same thresholds: green "#48bb78" below 30, yellow "#ecc94b" from
    30 up to but excluding 60, red "#f56565" from 60 on. *)
Theorem color_agrees_with_status (congestion : Q) :
  congestion_to_color congestion = snd (get_congestion_status congestion) /\
  (congestion < 30 ->
   congestion_to_color congestion = "#48bb78" /\
   get_congestion_status congestion = ("Free Flow", "🟢", "#48bb78")) /\
  (30 <= congestion -> congestion < 60 ->
   congestion_to_color congestion = "#ecc94b" /\
   get_congestion_status congestion = ("Moderate Traffic", "🟡", "#ecc94b")) /\
  (60 <= congestion ->
   congestion_to_color congestion = "#f56565" /\
   get_congestion_status congestion = ("Heavy Congestion", "🔴", "#f56565")).
Proof.
  unfold congestion_to_color, get_congestion_status.
  destruct (Qltb congestion 30) eqn:H30;
    [apply Qltb_lt in H30 | apply Qltb_ge in H30];
    (destruct (Qltb congestion 60) eqn:H60;
     [apply Qltb_lt in H60 | apply Qltb_ge in H60]);
    repeat split; intros; try reflexivity; lra.
Qed.

Lemma color_agrees_with_status_witness :
  congestion_to_color 45 = "#ecc94b" /\
  get_congestion_status 45 = ("Moderate Traffic", "🟡", "#ecc94b").
Proof.
  apply (proj1 (proj2 (proj2 (color_agrees_with_status 45)))).
  - discriminate.
  - reflexivity.
Defined.

(** * Further properties *)

(** ** Monotonicity of the arithmetic *)

Lemma py_round1_mono (x y : Q) : x <= y -> py_round1 x <= py_round1 y.
Proof.
  intros Hxy. unfold py_round1.
  assert (H : (round_half_even (x * 10) <= round_half_even (y * 10))%Z).
  { apply round_half_even_mono. lra. }
  rewrite Zle_Qle in H. qlra.
Qed.

Lemma py_min_mono_l (a b c : Q) : a <= b -> py_min a c <= py_min b c.
Proof.
  intros H. unfold py_min.
  destruct (Qltb c a) eqn:H1; [apply Qltb_lt in H1 | apply Qltb_ge in H1];
    (destruct (Qltb c b) eqn:H2; [apply Qltb_lt in H2 | apply Qltb_ge in H2]); lra.
Qed.

Lemma py_min_mono_r (a b c : Q) : a <= b -> py_min c a <= py_min c b.
Proof.
  intros H. unfold py_min.
  destruct (Qltb a c) eqn:H1; [apply Qltb_lt in H1 | apply Qltb_ge in H1];
    (destruct (Qltb b c) eqn:H2; [apply Qltb_lt in H2 | apply Qltb_ge in H2]); lra.
Qed.

Lemma py_max_mono_l (a b c : Q) : a <= b -> py_max a c <= py_max b c.
Proof.
  intros H. unfold py_max.
  destruct (Qltb a c) eqn:H1; [apply Qltb_lt in H1 | apply Qltb_ge in H1];
    (destruct (Qltb b c) eqn:H2; [apply Qltb_lt in H2 | apply Qltb_ge in H2]); lra.
Qed.

Lemma py_max_mono_r (a b c : Q) : a <= b -> py_max c a <= py_max c b.
Proof.
  intros H. unfold py_max.
  destruct (Qltb c a) eqn:H1; [apply Qltb_lt in H1 | apply Qltb_ge in H1];
    (destruct (Qltb c b) eqn:H2; [apply Qltb_lt in H2 | apply Qltb_ge in H2]); lra.
Qed.

Lemma py_int_mono (x y : Q) : x <= y -> (py_int x <= py_int y)%Z.
Proof.
  intros Hxy. rewrite !py_int_toward_zero. unfold toward_zero.
  destruct (Qle_bool 0 x) eqn:Hx; destruct (Qle_bool 0 y) eqn:Hy.
  - now apply Qfloor_resp_le.
  - apply Qle_bool_iff in Hx.
    assert (Hy' : ~ 0 <= y) by (intros H; apply Qle_bool_iff in H; congruence).
    lra.
  - assert (Hx' : ~ 0 <= x) by (intros H; apply Qle_bool_iff in H; congruence).
    apply Qle_bool_iff in Hy.
    assert (H1 : (Qceiling x <= 0)%Z).
    { change 0%Z with (Qceiling 0). apply Qceiling_resp_le. lra. }
    assert (H2 : (0 <= Qfloor y)%Z).
    { change 0%Z with (Qfloor 0). now apply Qfloor_resp_le. }
    lia.
  - now apply Qceiling_resp_le.
Qed.

(** ** utils.py: scaling for the map *)

Lemma percent_of_0 : fdiv 0 100 == 0.
Proof. vm_compute. reflexivity. Qed.

Lemma percent_of_100 : fdiv 100 100 == 1.
Proof. vm_compute. reflexivity. Qed.

Lemma b64_100_pos : 0 < b64 100.
Proof. rewrite b64_100. reflexivity. Qed.

(** [congestion / 100] for a percentage. *)
Lemma percent_in_unit (c : Q) : 0 <= c <= 100 -> 0 <= fdiv c 100 <= 1.
Proof.
  intros [Hlo Hhi].
  pose proof (fdiv_mono 0 c 100 b64_100_pos Hlo) as H1.
  pose proof (fdiv_mono c 100 100 b64_100_pos Hhi) as H2.
  rewrite percent_of_0 in H1. rewrite percent_of_100 in H2. split; assumption.
Qed.

Lemma normalize_congestion_cases (c : Q) :
  (1 < fdiv c 100 /\ normalize_congestion c = 1.0) \/
  (fdiv c 100 < 0 /\ normalize_congestion c = 0) \/
  (0 <= fdiv c 100 <= 1 /\ normalize_congestion c = fdiv c 100).
Proof.
  unfold normalize_congestion, py_min, py_max.
  destruct (Qltb (fdiv c 100) 0) eqn:H0;
    [apply Qltb_lt in H0 | apply Qltb_ge in H0].
  - right; left. change (Qltb 1.0 0) with false. cbv iota.
    split; [exact H0 | reflexivity].
  - destruct (Qltb 1.0 (fdiv c 100)) eqn:H1;
      [apply Qltb_lt in H1 | apply Qltb_ge in H1].
    + left. split; [lra | reflexivity].
    + right; right. split; [split; lra | reflexivity].
Qed.

Lemma normalize_congestion_mono (a b : Q) :
  a <= b -> normalize_congestion a <= normalize_congestion b.
Proof.
  intros Hab. unfold normalize_congestion.
  apply py_min_mono_l, py_max_mono_l, fdiv_mono; [exact b64_100_pos | exact Hab].
Qed.

Lemma radius_from_congestion_mono (a b : Q) :
  a <= b -> (radius_from_congestion a <= radius_from_congestion b)%Z.
Proof.
  intros Hab. unfold radius_from_congestion.
  apply py_int_mono, fadd_mono; [apply Qle_refl |].
  apply fmul_mono_l; [vm_compute; discriminate |].
  apply fdiv_mono; [exact b64_100_pos | exact Hab].
Qed.

Lemma radius_at_0 : radius_from_congestion 0 = 5%Z.
Proof. vm_compute. reflexivity. Qed.

Lemma radius_at_100 : radius_from_congestion 100 = 20%Z.
Proof. vm_compute. reflexivity. Qed.

Lemma radius_on_percent (c : Q) :
  0 <= c <= 100 -> (5 <= radius_from_congestion c <= 20)%Z.
Proof.
  intros [Hlo Hhi].
  pose proof (radius_from_congestion_mono 0 c Hlo) as H1.
  pose proof (radius_from_congestion_mono c 100 Hhi) as H2.
  rewrite radius_at_0 in H1. rewrite radius_at_100 in H2. lia.
Qed.

(** X1. [normalize_congestion] always lands in the unit interval: it is
    congestion / 100 on percentages between 0 and 100, 0 below, 1 above,
    and it never decreases when the congestion grows. *)
Theorem normalize_congestion_unit_interval (c1 c2 : Q) :
  0 <= normalize_congestion c1 <= 1 /\
  (0 <= c1 <= 100 -> normalize_congestion c1 == fdiv c1 100) /\
  (c1 <= 0 -> normalize_congestion c1 == 0) /\
  (100 <= c1 -> normalize_congestion c1 == 1) /\
  (c1 <= c2 -> normalize_congestion c1 <= normalize_congestion c2).
Proof.
  split; [| split; [| split; [| split]]].
  - destruct (normalize_congestion_cases c1) as [(H1 & E1) | [(H1 & E1) | (H1 & E1)]];
      rewrite E1; lra.
  - intros Hc. pose proof (percent_in_unit c1 Hc) as Hx.
    destruct (normalize_congestion_cases c1) as [(H1 & E1) | [(H1 & E1) | (H1 & E1)]];
      rewrite E1; [lra | lra | reflexivity].
  - intros Hc.
    pose proof (fdiv_mono c1 0 100 b64_100_pos Hc) as Hx. rewrite percent_of_0 in Hx.
    destruct (normalize_congestion_cases c1) as [(H1 & E1) | [(H1 & E1) | (H1 & E1)]];
      rewrite E1; lra.
  - intros Hc.
    pose proof (fdiv_mono 100 c1 100 b64_100_pos Hc) as Hx. rewrite percent_of_100 in Hx.
    destruct (normalize_congestion_cases c1) as [(H1 & E1) | [(H1 & E1) | (H1 & E1)]];
      rewrite E1; lra.
  - apply normalize_congestion_mono.
Qed.

Lemma normalize_congestion_unit_interval_witness :
  normalize_congestion 45 == fdiv 45 100 /\
  normalize_congestion 45 <= normalize_congestion 80.
Proof.
  destruct (normalize_congestion_unit_interval 45 80) as (_ & Hmid & _ & _ & Hmono).
  split; [apply Hmid; split; discriminate | apply Hmono; discriminate].
Defined.

(** X2. [radius_from_congestion] keeps the marker within the documented
    5 to 20 pixels on percentages between 0 and 100: it is 5 at 0 and
    20 at 100, at most 19 up to 99.9, the largest one-decimal percentage
    below 100, and it never shrinks when the congestion grows. *)
Theorem radius_within_5_and_20 (c1 c2 : Q) :
  (0 <= c1 <= 100 -> (5 <= radius_from_congestion c1 <= 20)%Z) /\
  radius_from_congestion 0 = 5%Z /\
  radius_from_congestion 100 = 20%Z /\
  (c1 <= 99.9 -> (radius_from_congestion c1 <= 19)%Z) /\
  (c1 <= c2 -> (radius_from_congestion c1 <= radius_from_congestion c2)%Z).
Proof.
  split; [| split; [| split; [| split]]].
  - apply radius_on_percent.
  - exact radius_at_0.
  - exact radius_at_100.
  - intros H. pose proof (radius_from_congestion_mono c1 99.9 H) as Hm.
    assert (E : radius_from_congestion 99.9 = 19%Z) by (vm_compute; reflexivity).
    lia.
  - apply radius_from_congestion_mono.
Qed.

Lemma radius_within_5_and_20_witness :
  (5 <= radius_from_congestion 43.1 <= 20)%Z /\
  (radius_from_congestion 43.1 <= 19)%Z /\
  (radius_from_congestion 43.1 <= radius_from_congestion 67.5)%Z.
Proof.
  destruct (radius_within_5_and_20 43.1 67.5) as (Hrange & _ & _ & Hlow & Hmono).
  split; [apply Hrange; split; discriminate |].
  split; [apply Hlow; discriminate | apply Hmono; discriminate].
Defined.

(** ** utils.py: the classifiers agree *)

(** X3. The advice of [get_traffic_advice] refines the status of
    [get_congestion_status]: "moving smoothly" exactly under Free Flow,
    the light and moderate advice exactly under Moderate Traffic, the
    heavy and severe advice exactly under Heavy Congestion; within them
    the advice changes at 45 and at 75. *)
Theorem advice_refines_status (congestion : Q) :
  let status := fst (fst (get_congestion_status congestion)) in
  let advice := get_traffic_advice congestion in
  (status = "Free Flow" <->
   advice = "Traffic is moving smoothly. Excellent time to travel!") /\
  (status = "Moderate Traffic" <->
   advice = "Light traffic. Good conditions for travel with minimal delays." \/
   advice = "Moderate traffic. Expect some delays. Plan extra time.") /\
  (status = "Heavy Congestion" <->
   advice = "Heavy traffic. Significant delays expected. Consider alternate routes." \/
   advice = "Severe congestion. Major delays. Avoid if possible or use public transport.") /\
  (advice = "Light traffic. Good conditions for travel with minimal delays."
   <-> 30 <= congestion /\ congestion < 45) /\
  (advice = "Severe congestion. Major delays. Avoid if possible or use public transport."
   <-> 75 <= congestion).
Proof.
  unfold get_congestion_status, get_traffic_advice. cbv zeta.
  destruct (Qltb congestion 30) eqn:H30;
    [apply Qltb_lt in H30 | apply Qltb_ge in H30];
    (destruct (Qltb congestion 45) eqn:H45;
     [apply Qltb_lt in H45 | apply Qltb_ge in H45]);
    (destruct (Qltb congestion 60) eqn:H60;
     [apply Qltb_lt in H60 | apply Qltb_ge in H60]);
    (destruct (Qltb congestion 75) eqn:H75;
     [apply Qltb_lt in H75 | apply Qltb_ge in H75]);
    try (exfalso; lra);
    cbn [fst];
    repeat split; intros; try discriminate; try lra; auto;
    repeat match goal with
           | H : _ \/ _ |- _ => destruct H
           | H : _ /\ _ |- _ => destruct H
           end;
    try discriminate; try lra.
Qed.

(** X4. [categorize_congestion] and [congestion_to_color] cut at the
    same places: "Low" is green, "Moderate" is yellow, "High" and
    "Severe" are red, and "Severe" starts at 80. *)
Theorem category_agrees_with_color (congestion : Q) :
  let category := categorize_congestion congestion in
  let color := congestion_to_color congestion in
  (category = "Low" <-> color = "#48bb78") /\
  (category = "Moderate" <-> color = "#ecc94b") /\
  (category = "High" \/ category = "Severe" <-> color = "#f56565") /\
  (category = "Severe" <-> 80 <= congestion).
Proof.
  unfold categorize_congestion, congestion_to_color. cbv zeta.
  destruct (Qltb congestion 30) eqn:H30;
    [apply Qltb_lt in H30 | apply Qltb_ge in H30];
    (destruct (Qltb congestion 60) eqn:H60;
     [apply Qltb_lt in H60 | apply Qltb_ge in H60]);
    (destruct (Qltb congestion 80) eqn:H80;
     [apply Qltb_lt in H80 | apply Qltb_ge in H80]);
    try (exfalso; lra);
    repeat split; intros; try discriminate; try lra; auto;
    repeat match goal with
           | H : _ \/ _ |- _ => destruct H
           end;
    try discriminate.
Qed.

(** X5. [get_rush_hour_info] and the simulator agree on the rush hours:
    the flag [is_rush_hour] is set exactly for the hours 7 to 10 and 17
    to 20, which are the hours whose simulated rush factor is 1.5 or
    more; the period is "Morning Rush" exactly where the factor is 1.5
    and "Evening Rush" exactly where it is 1.6; a "Night" hour has the
    factor 0.8. *)
Theorem rush_hour_info_agrees_with_simulator (h : Z) :
  let info := get_rush_hour_info h in
  (is_rush_hour info = true <-> (7 <= h <= 10 \/ 17 <= h <= 20)%Z) /\
  (is_rush_hour info = true <-> 1.5 <= rush_factor h) /\
  (period info = "Morning Rush" <-> rush_factor h = 1.5) /\
  (period info = "Evening Rush" <-> rush_factor h = 1.6) /\
  (period info = "Night" -> rush_factor h = 0.8).
Proof.
  unfold get_rush_hour_info, rush_factor. cbv zeta.
  destruct (7 <=? h)%Z eqn:H7; destruct (h <=? 10)%Z eqn:H10;
    destruct (17 <=? h)%Z eqn:H17; destruct (h <=? 20)%Z eqn:H20;
    destruct (0 <=? h)%Z eqn:H0; destruct (h <=? 6)%Z eqn:H6;
    destruct (11 <=? h)%Z eqn:H11; destruct (h <=? 16)%Z eqn:H16;
    cbn [andb is_rush_hour period];
    rewrite ?Z.leb_le, ?Z.leb_gt in *;
    try (exfalso; lia);
    repeat split; intros; try discriminate; try lia; try lra; auto.
Qed.

Lemma rush_hour_info_agrees_with_simulator_witness :
  rush_factor 3 = 0.8.
Proof.
  apply (proj2 (proj2 (proj2 (proj2 (rush_hour_info_agrees_with_simulator 3))))).
  reflexivity.
Defined.

(** ** The simulator's values *)

Lemma factor_get_ge (table : list (string * Q)) (key : string) (default bound : Q) :
  bound <= default -> Forall (fun kv => bound <= snd kv) table ->
  bound <= factor_get table key default.
Proof.
  intros Hd Ht. induction Ht as [| [k v] rest Hv _ IH]; cbn [factor_get]; [exact Hd |].
  destruct (String.eqb k key); [exact Hv | exact IH].
Qed.

Lemma city_factor_ge (city : string) : 0.95 <= factor_get city_factors city 1.0.
Proof.
  apply factor_get_ge; [lra |].
  unfold city_factors. repeat constructor; cbn [snd]; lra.
Qed.

(** The tuple of the simulator, by its two roundings. *)
Lemma simulated_tuple (now : datetime) (city : string) (lat lon : Q) :
  let raw := fmul (fmul (fmul (inject_Z (sim_base_congestion (sim_seed city lat lon)))
                              (rush_factor (hour now)))
                        (weekend_factor (weekday now)))
                  (factor_get city_factors city 1.0) in
  let c := py_round1 (py_min raw 100) in
  simulated_congestion_at now city lat lon
  = (Some c, "AI Prediction Model",
     PNum (py_round1 (fmul 50 (fsub 1 (fdiv c 100)))), PNum 50).
Proof. unfold simulated_congestion_at. reflexivity. Qed.

Lemma simulated_raw_mono (b r1 r2 k1 k2 f : Q) :
  0 <= b -> 0 <= f -> 0 <= r1 -> 0 <= k1 -> r1 <= r2 -> k1 <= k2 ->
  fmul (fmul (fmul b r1) k1) f <= fmul (fmul (fmul b r2) k2) f.
Proof.
  intros Hb Hf Hr Hk Hr12 Hk12.
  apply fmul_mono; [| | exact Hf | apply Qle_refl].
  - repeat apply fmul_nonneg; assumption.
  - apply fmul_mono; [| | exact Hk | exact Hk12].
    + now apply fmul_nonneg.
    + apply fmul_mono; [exact Hb | apply Qle_refl | exact Hr | exact Hr12].
Qed.

(** The simulated speed falls as the simulated congestion rises. *)
Lemma simulated_speed_antitone (c1 c2 : Q) :
  c1 <= c2 ->
  py_round1 (fmul 50 (fsub 1 (fdiv c2 100))) <= py_round1 (fmul 50 (fsub 1 (fdiv c1 100))).
Proof.
  intros H. apply py_round1_mono, fmul_mono_r; [vm_compute; discriminate |].
  apply fsub_mono; [apply Qle_refl |].
  apply fdiv_mono; [exact b64_100_pos | exact H].
Qed.

Lemma simulated_values_mono (t1 t2 : datetime) (city : string) (lat lon : Q) :
  rush_factor (hour t1) <= rush_factor (hour t2) ->
  weekend_factor (weekday t1) <= weekend_factor (weekday t2) ->
  exists c1 s1 c2 s2,
    simulated_congestion_at t1 city lat lon
    = (Some c1, "AI Prediction Model", PNum s1, PNum 50) /\
    simulated_congestion_at t2 city lat lon
    = (Some c2, "AI Prediction Model", PNum s2, PNum 50) /\
    c1 <= c2 /\ s2 <= s1.
Proof.
  intros Hr Hk.
  do 4 eexists. split; [apply simulated_tuple |]. split; [apply simulated_tuple |].
  cbv zeta.
  pose proof (sim_base_congestion_range (sim_seed city lat lon)) as [Hlo _].
  rewrite Zle_Qle in Hlo. change (inject_Z 20) with 20 in Hlo.
  pose proof (rush_factor_bounds (hour t1)) as [Hr1 _].
  pose proof (weekend_factor_bounds (weekday t1)) as [Hk1 _].
  pose proof (city_factor_nonneg city) as Hf.
  set (b := inject_Z (sim_base_congestion (sim_seed city lat lon))) in *.
  assert (Hc : py_round1 (py_min (fmul (fmul (fmul b (rush_factor (hour t1)))
                                             (weekend_factor (weekday t1)))
                                       (factor_get city_factors city 1.0)) 100)
               <= py_round1 (py_min (fmul (fmul (fmul b (rush_factor (hour t2)))
                                                (weekend_factor (weekday t2)))
                                          (factor_get city_factors city 1.0)) 100)).
  { apply py_round1_mono, py_min_mono_l, simulated_raw_mono; lra. }
  split; [exact Hc |].
  apply simulated_speed_antitone, Hc.
Qed.

Lemma simulated_lowest :
  py_round1 (py_min (fmul (fmul (fmul 20 0.8) 0.7) 0.95) 100) == 10.6 /\
  py_round1 (fmul 50 (fsub 1 (fdiv 10.6 100))) == 44.7 /\
  py_round1 (fmul 50 (fsub 1 (fdiv 100 100))) == 0.
Proof. repeat split; vm_compute; reflexivity. Qed.

(** X6. The simulator never reports less than 10.6 percent nor more
    than 100, and its current speed lies between 0 and 44.7 km/h
    against its fixed free-flow speed of 50. *)
Theorem simulator_value_bounds (now : datetime) (city : string) (lat lon : Q) :
  exists c s,
    simulated_congestion_at now city lat lon
    = (Some c, "AI Prediction Model", PNum s, PNum 50) /\
    10.6 <= c <= 100 /\ 0 <= s <= 44.7.
Proof.
  do 2 eexists. split; [apply simulated_tuple |]. cbv zeta.
  pose proof (sim_base_congestion_range (sim_seed city lat lon)) as [Hlo _].
  rewrite Zle_Qle in Hlo. change (inject_Z 20) with 20 in Hlo.
  pose proof (rush_factor_bounds (hour now)) as [Hr _].
  pose proof (weekend_factor_bounds (weekday now)) as [Hk _].
  pose proof (city_factor_ge city) as Hf.
  destruct simulated_lowest as (Elow & Etop & Ezero).
  set (raw := fmul (fmul (fmul (inject_Z (sim_base_congestion (sim_seed city lat lon)))
                               (rush_factor (hour now)))
                         (weekend_factor (weekday now)))
                   (factor_get city_factors city 1.0)).
  assert (Hraw : fmul (fmul (fmul 20 0.8) 0.7) 0.95 <= raw).
  { unfold raw.
    apply fmul_mono; [repeat apply fmul_nonneg; lra | | lra | lra].
    apply fmul_mono; [apply fmul_nonneg; lra | | lra | lra].
    apply fmul_mono; lra. }
  assert (Hc : 10.6 <= py_round1 (py_min raw 100) <= 100).
  { split.
    - rewrite <- Elow. apply py_round1_mono, py_min_mono_l, Hraw.
    - apply py_round1_le_100. unfold py_min.
      destruct (Qltb 100 raw) eqn:H; [| apply Qltb_ge in H]; lra. }
  split; [exact Hc |]. destruct Hc as [Hc1 Hc2].
  split.
  - rewrite <- Ezero. now apply simulated_speed_antitone.
  - rewrite <- Etop. now apply simulated_speed_antitone.
Qed.

(** X7. At the same hour, for the same city and coordinates, the
    simulator reports on a weekend day at most the congestion, and at
    least the speed, that it reports on a weekday. *)
Theorem simulator_quieter_on_weekends
    (weekend_time weekday_time : datetime) (city : string) (lat lon : Q) :
  hour weekend_time = hour weekday_time ->
  (5 <= weekday weekend_time)%Z -> (weekday weekday_time < 5)%Z ->
  exists c1 s1 c2 s2,
    simulated_congestion_at weekend_time city lat lon
    = (Some c1, "AI Prediction Model", PNum s1, PNum 50) /\
    simulated_congestion_at weekday_time city lat lon
    = (Some c2, "AI Prediction Model", PNum s2, PNum 50) /\
    c1 <= c2 /\ s2 <= s1.
Proof.
  intros Hh Hend Hday. apply simulated_values_mono.
  - rewrite Hh. lra.
  - unfold weekend_factor.
    apply Z.leb_le in Hend. apply Z.leb_gt in Hday. rewrite Hend, Hday. lra.
Qed.

Lemma simulator_quieter_on_weekends_witness :
  exists c1 s1 c2 s2,
    simulated_congestion_at (mkDatetime 8 6 "2024-01-07T08:00:00")
                            "Pune" 18.5204 73.8567
    = (Some c1, "AI Prediction Model", PNum s1, PNum 50) /\
    simulated_congestion_at wednesday_8am "Pune" 18.5204 73.8567
    = (Some c2, "AI Prediction Model", PNum s2, PNum 50) /\
    c1 <= c2 /\ s2 <= s1.
Proof.
  apply (simulator_quieter_on_weekends
           (mkDatetime 8 6 "2024-01-07T08:00:00") wednesday_8am);
    [reflexivity | discriminate | reflexivity].
Defined.

(** X8. On days of the same class the simulator orders the hours of the
    day: for the same city and coordinates, a night hour (before 7 or
    after 20) gives at most the congestion of a midday hour (11 to 16),
    which gives at most that of a morning rush hour (7 to 10), which
    gives at most that of an evening rush hour (17 to 20). *)
Theorem simulator_orders_the_hours
    (night midday morning evening : datetime) (city : string) (lat lon : Q) :
  (hour night < 7 \/ 20 < hour night)%Z ->
  (11 <= hour midday <= 16)%Z ->
  (7 <= hour morning <= 10)%Z ->
  (17 <= hour evening <= 20)%Z ->
  same_day_class night midday -> same_day_class midday morning ->
  same_day_class morning evening ->
  exists cn cd cm ce sn sd sm se,
    simulated_congestion_at night city lat lon
    = (Some cn, "AI Prediction Model", PNum sn, PNum 50) /\
    simulated_congestion_at midday city lat lon
    = (Some cd, "AI Prediction Model", PNum sd, PNum 50) /\
    simulated_congestion_at morning city lat lon
    = (Some cm, "AI Prediction Model", PNum sm, PNum 50) /\
    simulated_congestion_at evening city lat lon
    = (Some ce, "AI Prediction Model", PNum se, PNum 50) /\
    cn <= cd /\ cd <= cm /\ cm <= ce.
Proof.
  intros Hn Hd Hm He Hnd Hdm Hme.
  assert (Fn : rush_factor (hour night) = 0.8).
  { unfold rush_factor.
    destruct (7 <=? hour night)%Z eqn:H1; destruct (hour night <=? 10)%Z eqn:H2;
      destruct (17 <=? hour night)%Z eqn:H3; destruct (hour night <=? 20)%Z eqn:H4;
      destruct (11 <=? hour night)%Z eqn:H5; destruct (hour night <=? 16)%Z eqn:H6;
      cbn [andb]; rewrite ?Z.leb_le, ?Z.leb_gt in *; try reflexivity; lia. }
  assert (Fd : rush_factor (hour midday) = 1.2).
  { unfold rush_factor.
    destruct (7 <=? hour midday)%Z eqn:H1; destruct (hour midday <=? 10)%Z eqn:H2;
      destruct (17 <=? hour midday)%Z eqn:H3; destruct (hour midday <=? 20)%Z eqn:H4;
      destruct (11 <=? hour midday)%Z eqn:H5; destruct (hour midday <=? 16)%Z eqn:H6;
      cbn [andb]; rewrite ?Z.leb_le, ?Z.leb_gt in *; try reflexivity; lia. }
  assert (Fm : rush_factor (hour morning) = 1.5).
  { unfold rush_factor.
    destruct (7 <=? hour morning)%Z eqn:H1; destruct (hour morning <=? 10)%Z eqn:H2;
      cbn [andb]; rewrite ?Z.leb_le, ?Z.leb_gt in *; try reflexivity; lia. }
  assert (Fe : rush_factor (hour evening) = 1.6).
  { unfold rush_factor.
    destruct (7 <=? hour evening)%Z eqn:H1; destruct (hour evening <=? 10)%Z eqn:H2;
      destruct (17 <=? hour evening)%Z eqn:H3; destruct (hour evening <=? 20)%Z eqn:H4;
      cbn [andb]; rewrite ?Z.leb_le, ?Z.leb_gt in *; try reflexivity; lia. }
  assert (Hk : forall t1 t2, same_day_class t1 t2 ->
                 weekend_factor (weekday t1) <= weekend_factor (weekday t2)).
  { intros t1 t2 H. unfold weekend_factor, same_day_class in *. rewrite H. lra. }
  destruct (simulated_values_mono night midday city lat lon)
    as (cn & sn & cd & sd & En & Ed & H1 & _); [rewrite Fn, Fd; lra | auto |].
  destruct (simulated_values_mono midday morning city lat lon)
    as (cd' & sd' & cm & sm & Ed' & Em & H2 & _); [rewrite Fd, Fm; lra | auto |].
  destruct (simulated_values_mono morning evening city lat lon)
    as (cm' & sm' & ce & se & Em' & Ee & H3 & _); [rewrite Fm, Fe; lra | auto |].
  rewrite Ed in Ed'. injection Ed' as <- <-.
  rewrite Em in Em'. injection Em' as <- <-.
  exists cn, cd, cm, ce, sn, sd, sm, se. repeat split; assumption.
Qed.

Lemma simulator_orders_the_hours_witness :
  exists cn cd cm ce sn sd sm se,
    simulated_congestion_at (mkDatetime 3 2 "2024-01-03T03:00:00") "Pune" 18.5204 73.8567
    = (Some cn, "AI Prediction Model", PNum sn, PNum 50) /\
    simulated_congestion_at (mkDatetime 13 2 "2024-01-03T13:00:00") "Pune" 18.5204 73.8567
    = (Some cd, "AI Prediction Model", PNum sd, PNum 50) /\
    simulated_congestion_at (mkDatetime 8 2 "2024-01-03T08:00:00") "Pune" 18.5204 73.8567
    = (Some cm, "AI Prediction Model", PNum sm, PNum 50) /\
    simulated_congestion_at (mkDatetime 18 2 "2024-01-03T18:00:00") "Pune" 18.5204 73.8567
    = (Some ce, "AI Prediction Model", PNum se, PNum 50) /\
    cn <= cd /\ cd <= cm /\ cm <= ce.
Proof.
  apply (simulator_orders_the_hours
           (mkDatetime 3 2 "2024-01-03T03:00:00")
           (mkDatetime 13 2 "2024-01-03T13:00:00")
           (mkDatetime 8 2 "2024-01-03T08:00:00")
           (mkDatetime 18 2 "2024-01-03T18:00:00"));
    cbn [hour]; try lia; reflexivity.
Defined.

(** ** The clients: failures and the derived congestion *)

(** X9. The congestion that the clients derive never rises when the
    ratio of current to free-flow speed rises; it is 0 as soon as the
    current speed reaches the free-flow speed, and 100 when the current
    speed is 0 or less. *)
Theorem congestion_falls_as_speed_rises (ratio1 ratio2 : Q) :
  (ratio1 <= ratio2 -> congestion_of_ratio ratio2 <= congestion_of_ratio ratio1) /\
  (1 <= ratio1 -> congestion_of_ratio ratio1 == 0) /\
  (ratio1 <= 0 -> congestion_of_ratio ratio1 == 100).
Proof.
  unfold congestion_of_ratio. split; [| split].
  - intros H. apply py_max_mono_r, py_min_mono_r, py_round1_mono.
    now apply ratio_percent_antitone.
  - intros H. apply (proj1 (round_then_clamp_cases _)).
    pose proof (ratio_percent_antitone 1 ratio1 H) as Hm.
    pose proof ratio_percent_at_1 as E. lra.
  - intros H. apply (proj2 (proj2 (round_then_clamp_cases _))).
    pose proof (ratio_percent_antitone ratio1 0 H) as Hm.
    pose proof ratio_percent_at_0 as E. lra.
Qed.

Lemma congestion_falls_as_speed_rises_witness :
  congestion_of_ratio (40 / 50) <= congestion_of_ratio (25 / 50) /\
  congestion_of_ratio (60 / 50) == 0.
Proof.
  split.
  - apply (proj1 (congestion_falls_as_speed_rises (25 / 50) (40 / 50))). discriminate.
  - apply (proj1 (proj2 (congestion_falls_as_speed_rises (60 / 50) 0))). discriminate.
Defined.

(** X10. Client A returns every failure labelled by its cause:
    a timeout, a connection error and any other exception of the
    request get "TomTom Timeout", "TomTom Connection Failed" and
    "TomTom Error"; the statuses 401, 403 and 429 get "TomTom Auth
    Failed", "TomTom Forbidden" and "TomTom Rate Limited"; any other
    status but 200 gets "TomTom Failed"; a 200 whose body is not JSON
    gets "TomTom Error". Each comes with no congestion and the speeds
    "N/A", after one request. *)
Theorem tomtom_failure_labels
    (E : env) (lat lon : Q) (key : string) (w : world) :
  let w' := {| tick := S (tick w);
               log := (log w ++ [RequestingTomTom lat lon])%list |} in
  let fails label :=
    get_traffic_from_tomtom E lat lon key w = Return (None, label, NA, NA) w' in
  match net E (tick w) (TomTomFlow key lat lon) with
  | NetTimeout => fails "TomTom Timeout"
  | NetConnectionError => fails "TomTom Connection Failed"
  | NetOtherError => fails "TomTom Error"
  | Response status body =>
      (status = 401%Z -> fails "TomTom Auth Failed") /\
      (status = 403%Z -> fails "TomTom Forbidden") /\
      (status = 429%Z -> fails "TomTom Rate Limited") /\
      (status <> 200%Z -> status <> 401%Z -> status <> 403%Z -> status <> 429%Z ->
       fails "TomTom Failed") /\
      (status = 200%Z -> body = None -> fails "TomTom Error")
  end.
Proof.
  intros w' fails. subst fails.
  destruct (net E (tick w) (TomTomFlow key lat lon)) as [| | | status body] eqn:Hnet.
  1-3: (tomtom_step Hnet; reflexivity).
  split; [| split; [| split; [| split]]].
  - intros ->. tomtom_step Hnet. reflexivity.
  - intros ->. tomtom_step Hnet. reflexivity.
  - intros ->. tomtom_step Hnet. reflexivity.
  - intros H200 H401 H403 H429. tomtom_step Hnet.
    apply Z.eqb_neq in H200, H401, H403, H429.
    rewrite H200, H401, H403, H429. reflexivity.
  - intros -> ->. tomtom_step Hnet. reflexivity.
Qed.

Lemma tomtom_failure_labels_witness :
  get_traffic_from_tomtom (env_always (Response 429 None)) 18.5204 73.8567 "TT-KEY" w0
  = Return (None, "TomTom Rate Limited", NA, NA)
           {| tick := 1; log := [RequestingTomTom 18.5204 73.8567] |}.
Proof.
  apply (proj1 (proj2 (proj2
           (tomtom_failure_labels (env_always (Response 429 None))
              18.5204 73.8567 "TT-KEY" w0)))).
  reflexivity.
Defined.

(** X11. Client B labels its failures more coarsely: the status 401
    gets "MapmyIndia Auth Failed" and any other status but 200 gets
    "MapmyIndia Failed", while a timeout, a connection error, any other
    exception of the request and a 200 whose body is not JSON all get
    "MapmyIndia Error". Each comes with no congestion and the speeds
    "N/A", after one request. *)
Theorem mapmyindia_failure_labels
    (E : env) (lat lon : Q) (key : string) (w : world) :
  let w' := {| tick := S (tick w);
               log := (log w ++ [RequestingMapmyIndia lat lon])%list |} in
  let fails label :=
    get_traffic_from_mapmyindia E lat lon key w
    = Return (Some (None, label, NA, NA)) w' in
  match net E (tick w) (MapmyIndiaRoute key lon lat (fadd lon 0.01) (fadd lat 0.01)) with
  | NetTimeout | NetConnectionError | NetOtherError => fails "MapmyIndia Error"
  | Response status body =>
      (status = 401%Z -> fails "MapmyIndia Auth Failed") /\
      (status <> 200%Z -> status <> 401%Z -> fails "MapmyIndia Failed") /\
      (status = 200%Z -> body = None -> fails "MapmyIndia Error")
  end.
Proof.
  intros w' fails. subst fails.
  destruct (net E (tick w) _) as [| | | status body] eqn:Hnet.
  1-3: (mapmyindia_step Hnet; reflexivity).
  split; [| split].
  - intros ->. mapmyindia_step Hnet. reflexivity.
  - intros H200 H401. mapmyindia_step Hnet.
    apply Z.eqb_neq in H200, H401. rewrite H200, H401. reflexivity.
  - intros -> ->. mapmyindia_step Hnet. reflexivity.
Qed.

Lemma mapmyindia_failure_labels_witness :
  get_traffic_from_mapmyindia (env_always (Response 503 None))
                              18.5204 73.8567 "MMI-KEY" w0
  = Return (Some (None, "MapmyIndia Failed", NA, NA))
           {| tick := 1; log := [RequestingMapmyIndia 18.5204 73.8567] |}.
Proof.
  apply (proj1 (proj2
           (mapmyindia_failure_labels (env_always (Response 503 None))
              18.5204 73.8567 "MMI-KEY" w0)));
    discriminate.
Defined.

(** X12. On an HTTP 200 whose body is a JSON object, the first route
    decides what Client B returns. Without a [routes] key, or with an
    empty list of routes, it returns nothing. With a first route, the
    distance (1 when missing) and duration (0 when missing) are read:
    a distance of 0 or less, or a duration of 0 or less, gives nothing
    (so does a route without a duration). Otherwise Client B returns a
    tuple: the failure "MapmyIndia Error" when one of its three
    divisions raises, and else a success whose speed is the distance in
    km over the duration in hours, as the divisions compute it, rounded
    to a tenth, against a free-flow speed of 50. When the distance and
    the duration are doubles within range, a division raises only when
    the duration in hours underflows to zero. *)
Theorem mapmyindia_first_route_decides
    (E : env) (lat lon : Q) (key : string) (w : world)
    (items : list (string * pyval)) :
  net E (tick w) (MapmyIndiaRoute key lon lat (fadd lon 0.01) (fadd lat 0.01))
  = Response 200 (Some (PDict items)) ->
  let w' := {| tick := S (tick w);
               log := (log w ++ [RequestingMapmyIndia lat lon])%list |} in
  let returns r := get_traffic_from_mapmyindia E lat lon key w = Return r w' in
  (dict_lookup items "routes" = None -> returns None) /\
  (dict_lookup items "routes" = Some (PList []) -> returns None) /\
  (forall route rest d,
      dict_lookup items "routes" = Some (PList (PDict route :: rest)) ->
      py_num (field_or route "distance" (PNum 1)) = Some d ->
      (d <= 0 -> returns None) /\
      (0 < d ->
       forall t,
         py_num (field_or route "duration" (PNum 0)) = Some t ->
         (t <= 0 -> returns None) /\
         (0 < t ->
          match truediv d 1000 with
          | inl _ => returns (Some mapmyindia_error)
          | inr km =>
              match truediv t 3600 with
              | inl _ => returns (Some mapmyindia_error)
              | inr hours =>
                  match truediv km hours with
                  | inl _ => returns (Some mapmyindia_error)
                  | inr current_speed =>
                      returns (Some (Some (congestion_of_ratio (fdiv current_speed 50)),
                                     "MapmyIndia Route API",
                                     PNum (py_round1 current_speed), PNum 50))
                  end
              end
          end) /\
         (0 < t ->
          is_double d -> is_double t -> too_large d = false -> too_large t = false ->
          let hours := fdiv t 3600 in
          let current_speed := fdiv (fdiv d 1000) hours in
          returns (Some (if Qeq_bool hours 0 then mapmyindia_error
                         else (Some (congestion_of_ratio (fdiv current_speed 50)),
                               "MapmyIndia Route API",
                               PNum (py_round1 current_speed), PNum 50)))))).
Proof.
  intros Hnet w' returns. subst returns.
  split; [| split].
  - intros Hr. mapmyindia_200 Hnet. fold w'. mapmyindia_run Hr. reflexivity.
  - intros Hr. mapmyindia_200 Hnet. fold w'. mapmyindia_run Hr. reflexivity.
  - intros route rest d Hr Hd. split.
    + intros Hle. mapmyindia_200 Hnet. fold w'. mapmyindia_run Hr.
      unfold py_gt0 at 1. rewrite Hd. mapmyindia_run Hr.
      apply Qltb_ge in Hle. rewrite Hle. mapmyindia_run Hr. reflexivity.
    + intros Hpos t Ht. split; [| split].
      * intros Hle. mapmyindia_200 Hnet. fold w'. mapmyindia_run Hr.
        unfold py_gt0 at 1. rewrite Hd. mapmyindia_run Hr.
        rewrite (proj2 (Qltb_lt 0 d) Hpos).
        unfold py_gt0 at 1. rewrite Ht. mapmyindia_run Hr.
        apply Qltb_ge in Hle. rewrite Hle. reflexivity.
      * intros Htpos.
        exact (mapmyindia_200_route E lat lon key w items route rest d t
                 Hnet Hr Hd Ht Hpos Htpos).
      * intros Htpos Hdd Hdt Hrd Hrt.
        exact (mapmyindia_200_doubles E lat lon key w items route rest d t
                 Hnet Hr Hd Ht Hdd Hdt Hrd Hrt Hpos Htpos).
Qed.

Lemma mapmyindia_first_route_decides_witness :
  let current_speed := fdiv (fdiv 350 1000) (fdiv 32 3600) in
  get_traffic_from_mapmyindia
    (env_always (Response 200 (Some (route_body 32 350))))
    18.5204 73.8567 "MMI-KEY" w0
  = Return (Some (Some (congestion_of_ratio (fdiv current_speed 50)),
                  "MapmyIndia Route API", PNum (py_round1 current_speed), PNum 50))
           {| tick := 1; log := [RequestingMapmyIndia 18.5204 73.8567] |} /\
  congestion_of_ratio (fdiv current_speed 50) == 21.3 /\
  py_round1 current_speed == 39.4.
Proof.
  cbv zeta. split; [| split; vm_compute; reflexivity].
  pose proof (mapmyindia_first_route_decides
                (env_always (Response 200 (Some (route_body 32 350))))
                18.5204 73.8567 "MMI-KEY" w0 _ eq_refl) as H.
  cbv zeta in H. destruct H as (_ & _ & H).
  destruct (H _ [] 350 eq_refl eq_refl) as (_ & Hpos).
  destruct (Hpos eq_refl 32 eq_refl) as (_ & _ & Hok).
  assert (Hz : Qeq_bool (fdiv 32 3600) 0 = false) by (vm_compute; reflexivity).
  rewrite Hz in Hok.
  apply Hok; vm_compute; reflexivity.
Defined.

(** ** Which sources a run consults *)

(** Closes a leaf of the case analysis of an iteration: the label is
    known, and the log and the clock are known step by step. *)
Ltac trace_leaf :=
  unfold entry_ticks, entry_log, consulted, final_label;
  cbn [r_city r_lat r_lon r_source tick log];
  repeat match goal with
         | H : truthy _ = _ |- _ => rewrite H
         end;
  cbn [String.eqb Ascii.eqb Bool.eqb andb app List.length];
  repeat match goal with
         | H : log _ = _ |- _ => rewrite H
         | H : tick _ = _ |- _ => rewrite H
         end;
  rewrite <- ?app_assoc; cbn [app];
  repeat split; auto; try discriminate; try lia.

(** The same for an entry that a live client produced: only the
    timestamp is left to read. *)
Ltac live_leaf :=
  unfold bind, datetime_now, ret; cbn [tick log]; trace_leaf.

Section Trace.
Variable E : env.
Variables tomtom_key mapmyindia_key : string.

(** One iteration: the entry's label is one of the three final labels,
    and the log and the clock moved by what [consulted] tells. *)
Lemma process_city_trace (api_working : bool) (api_source : string)
    (city : string) (lat lon : Q) (w : world) :
  match process_city E tomtom_key mapmyindia_key api_working api_source
                     city lat lon w with
  | Return (entry, _, _) w' =>
      r_city entry = city /\ r_lat entry = lat /\ r_lon entry = lon /\
      final_label (r_source entry) /\
      (r_source entry = "TomTom Traffic API" -> truthy tomtom_key = true) /\
      (r_source entry = "MapmyIndia Route API" -> truthy mapmyindia_key = true) /\
      log w' = (log w ++ entry_log tomtom_key mapmyindia_key entry)%list /\
      tick w' = (tick w + entry_ticks tomtom_key mapmyindia_key entry)%nat
  | Raise _ w' =>
      truthy mapmyindia_key = true /\
      log w' = (log w ++ (if truthy tomtom_key then [RequestingTomTom lat lon] else [])
                      ++ [RequestingMapmyIndia lat lon])%list
  end.
Proof.
  assert (Hsim : forall w1 (aw : bool) (asrc : string),
    exists c cs ffs w',
      (' (congestion, source, current_speed, free_flow_speed) <-
         get_simulated_congestion E city lat lon ;;
       now <- datetime_now E ;;
       ret ({| r_city := city; r_lat := lat; r_lon := lon;
               r_congestion := congestion; r_source := source;
               r_current_speed := current_speed;
               r_free_flow_speed := free_flow_speed;
               r_timestamp := isoformat now |},
            aw, asrc)) w1
      = Return ({| r_city := city; r_lat := lat; r_lon := lon;
                   r_congestion := Some c; r_source := "AI Prediction Model";
                   r_current_speed := cs; r_free_flow_speed := ffs;
                   r_timestamp := isoformat (clock E (S (tick w1))) |},
                aw, asrc) w' /\
      log w' = (log w1 ++ [SimulationFor city])%list /\
      tick w' = S (S (tick w1))).
  { intros w1 aw asrc.
    destruct (simulator_returns E city lat lon w1) as (w2 & Hs & Ht & Hl).
    destruct (simulated_congestion_in_range (clock E (tick w1)) city lat lon)
      as (c & cs & ffs & Heq & _).
    rewrite Heq in Hs. exists c, cs, ffs. eexists.
    rewrite (bind_Return _ _ _ _ _ Hs). cbn. rewrite Ht, Hl. repeat split. }
  unfold process_city.
  rewrite bind_if.
  destruct (truthy tomtom_key) eqn:Htk.
  - rewrite bind_assoc.
    destruct (tomtom_returns E lat lon tomtom_key w) as (t & w1 & Ht & [Ht1 Hl1] & Hs).
    rewrite (bind_Return _ _ _ _ _ Ht).
    destruct Hs as [(label & -> & Hl) | (c & cs & ffs & -> & Hc)].
    + run_on. rewrite bind_if.
      destruct (truthy mapmyindia_key) eqn:Hmk; run_on.
      * destruct (mapmyindia_returns E lat lon mapmyindia_key w1)
          as (r & w2 & Hr & [Ht2 Hl2] & Hs).
        rewrite (bind_Return _ _ _ _ _ Hr).
        destruct Hs as [-> | (t & -> & [(label' & -> & Hl') | (c & cs & ffs & -> & Hc)])].
        -- cbn [unpack]. rewrite (bind_Raise _ _ w2 w2 TypeError) by reflexivity.
           split; [reflexivity |]. rewrite Hl2, Hl1, <- app_assoc. reflexivity.
        -- run_on.
           destruct (Hsim w2 api_working api_source) as (c & cs & ffs & w' & -> & Hl3 & Ht3).
           trace_leaf.
        -- run_on.
           live_leaf.
      * destruct (Hsim w1 api_working api_source) as (c & cs & ffs & w' & -> & Hl3 & Ht3).
        trace_leaf.
    + run_on.
      live_leaf.
  - run_on. rewrite bind_if.
    destruct (truthy mapmyindia_key) eqn:Hmk; run_on.
    + destruct (mapmyindia_returns E lat lon mapmyindia_key w)
        as (r & w2 & Hr & [Ht2 Hl2] & Hs).
      rewrite (bind_Return _ _ _ _ _ Hr).
      destruct Hs as [-> | (t & -> & [(label' & -> & Hl') | (c & cs & ffs & -> & Hc)])].
      * cbn [unpack]. rewrite (bind_Raise _ _ w2 w2 TypeError) by reflexivity.
        split; [reflexivity |]. rewrite Hl2. reflexivity.
      * run_on.
        destruct (Hsim w2 api_working api_source) as (c & cs & ffs & w' & -> & Hl3 & Ht3).
        trace_leaf.
      * run_on.
        live_leaf.
    + destruct (Hsim w api_working api_source) as (c & cs & ffs & w' & -> & Hl3 & Ht3).
      trace_leaf.
Qed.
End Trace.

Lemma consulted_allowed (tomtom_key mapmyindia_key city : string) (lat lon : Q)
    (source : string) :
  Forall (allowed_by_keys tomtom_key mapmyindia_key)
         (consulted tomtom_key mapmyindia_key city lat lon source).
Proof.
  unfold consulted.
  destruct (truthy tomtom_key) eqn:Htk; destruct (truthy mapmyindia_key) eqn:Hmk;
    destruct (String.eqb source "TomTom Traffic API");
    destruct (String.eqb source "MapmyIndia Route API");
    cbn [app]; repeat constructor; cbn [allowed_by_keys]; assumption.
Qed.

Section RunTrace.
Variable E : env.
Variables tomtom_key mapmyindia_key : string.

Lemma for_cities_trace (items : list (string * (Q * Q))) :
  forall (results : list reading) (api_working : bool) (api_source : string)
         (w : world),
    match for_cities E items tomtom_key mapmyindia_key
                     results api_working api_source w with
    | Return (results', _, _) w' =>
        exists entries,
          results' = (results ++ entries)%list /\
          Forall (fun r => label_with_key tomtom_key mapmyindia_key (r_source r)) entries /\
          log w' = (log w ++ flat_map (entry_log tomtom_key mapmyindia_key) entries)%list /\
          tick w' = (tick w
                     + list_sum (map (entry_ticks tomtom_key mapmyindia_key) entries))%nat
    | Raise _ w' =>
        exists added,
          log w' = (log w ++ added)%list /\
          Forall (allowed_by_keys tomtom_key mapmyindia_key) added
    end.
Proof.
  induction items as [| [city [lat lon]] rest IH]; intros results api_working api_source w.
  - cbn. exists []. cbn. rewrite !app_nil_r, Nat.add_0_r. repeat split. constructor.
  - cbn [for_cities].
    pose proof (process_city_trace E tomtom_key mapmyindia_key
                  api_working api_source city lat lon w) as Hstep.
    destruct (process_city E tomtom_key mapmyindia_key
                api_working api_source city lat lon w)
      as [[[entry api_working1] api_source1] w1 | e w1] eqn:Hrun.
    + rewrite (bind_Return _ _ _ _ _ Hrun).
      specialize (IH (results ++ [entry])%list api_working1 api_source1 w1).
      destruct Hstep as (_ & _ & _ & Hlabel & Htt & Hmm & Hlog & Htick).
      destruct (for_cities E rest tomtom_key mapmyindia_key
                  (results ++ [entry]) api_working1 api_source1 w1)
        as [[[results' api_working'] api_source'] w' | e w'].
      * destruct IH as (entries & -> & Hall & Hlog' & Htick').
        exists (entry :: entries). rewrite <- app_assoc. split; [reflexivity |].
        split; [constructor; [repeat split; assumption | assumption] |].
        cbn [flat_map map list_sum]. rewrite Hlog', Hlog, Htick', Htick.
        rewrite <- app_assoc. split; [reflexivity |].
        unfold list_sum. cbn [fold_right]. lia.
      * destruct IH as (added & Hlog' & Hall).
        exists (entry_log tomtom_key mapmyindia_key entry ++ added)%list.
        rewrite Hlog', Hlog, <- app_assoc. split; [reflexivity |].
        apply Forall_app. split; [apply consulted_allowed | exact Hall].
    + rewrite (bind_Raise _ _ _ _ _ Hrun).
      destruct Hstep as (Hmk & Hlog). eexists. split; [exact Hlog |].
      apply Forall_app. split.
      * destruct (truthy tomtom_key) eqn:Htk; repeat constructor. exact Htk.
      * repeat constructor. exact Hmk.
Qed.

Lemma run_trace (city_coords : list (string * (Q * Q))) (w : world) :
  match get_congestion_for_cities E city_coords tomtom_key mapmyindia_key w with
  | Return (results, _, _) w' =>
      Forall (fun r => label_with_key tomtom_key mapmyindia_key (r_source r)) results /\
      log w' = (log w ++ flat_map (entry_log tomtom_key mapmyindia_key) results)%list /\
      tick w' = (S (tick w)
                 + list_sum (map (entry_ticks tomtom_key mapmyindia_key) results))%nat
  | Raise _ w' =>
      exists added,
        log w' = (log w ++ added)%list /\
        Forall (allowed_by_keys tomtom_key mapmyindia_key) added
  end.
Proof.
  unfold get_congestion_for_cities.
  rewrite (bind_Return _ _ w {| tick := S (tick w); log := log w |} (clock E (tick w)))
    by reflexivity.
  pose proof (for_cities_trace city_coords [] false "None"
                {| tick := S (tick w); log := log w |}) as H.
  destruct (for_cities E city_coords tomtom_key mapmyindia_key [] false "None" _)
    as [[[results api_working] api_source] w' | e w']; [| exact H].
  destruct H as (entries & -> & Hall & Hlog & Htick). cbn [app]. auto.
Qed.
End RunTrace.

(** ** The entries and the summary of a run *)

Lemma final_label_live (r : reading) :
  final_label (r_source r) ->
  (live r = true <->
   r_source r = "TomTom Traffic API" \/ r_source r = "MapmyIndia Route API") /\
  (live r = false <-> r_source r = "AI Prediction Model").
Proof.
  unfold live. intros [H | [H | H]]; rewrite H;
    (split; split; intros; try discriminate; try reflexivity; auto);
    repeat match goal with
           | H : _ \/ _ |- _ => destruct H
           end; discriminate.
Qed.

Lemma simulated_entries_summary (tomtom_key mapmyindia_key : string)
    (results : list reading) (initial : string) :
  Forall (fun r => r_source r = "AI Prediction Model") results ->
  existsb live results = false /\
  last_live_source results initial = initial /\
  (truthy tomtom_key = false -> truthy mapmyindia_key = false ->
   flat_map (entry_log tomtom_key mapmyindia_key) results
   = map SimulationFor (map r_city results) /\
   list_sum (map (entry_ticks tomtom_key mapmyindia_key) results)
   = (2 * List.length results)%nat).
Proof.
  induction 1 as [| r rs Hr _ IH]; [repeat split |].
  destruct IH as (Hex & Hlast & Hlog).
  assert (Hlive : live r = false) by (unfold live; now rewrite Hr).
  split; [cbn [existsb]; now rewrite Hlive, Hex |].
  split.
  - unfold last_live_source in *. cbn [fold_left]. now rewrite Hlive.
  - intros Htk Hmk. destruct (Hlog Htk Hmk) as [Hl Ht].
    cbn [flat_map map List.length]. unfold list_sum in *. cbn [fold_right].
    rewrite Hl, Ht. unfold entry_ticks, entry_log, consulted.
    rewrite Htk, Hmk, Hr. cbn. split; [reflexivity | lia].
Qed.

(** X13. Every entry of a run that completes carries one of the three
    final labels, "TomTom Traffic API", "MapmyIndia Route API" or
    "AI Prediction Model", never the initial "Unknown" nor the label of
    a failure; and a live label appears only when the key of its client
    is configured. *)
Theorem entries_carry_final_labels
    (E : env) (city_coords : list (string * (Q * Q)))
    (tomtom_key mapmyindia_key : string) (w w' : world)
    (results : list reading) (api_working : bool) (api_source : string) :
  get_congestion_for_cities E city_coords tomtom_key mapmyindia_key w
  = Return (results, api_working, api_source) w' ->
  Forall (fun r =>
            final_label (r_source r) /\
            (r_source r = "TomTom Traffic API" -> truthy tomtom_key = true) /\
            (r_source r = "MapmyIndia Route API" -> truthy mapmyindia_key = true))
         results.
Proof.
  intros Hrun.
  pose proof (run_trace E tomtom_key mapmyindia_key city_coords w) as H.
  rewrite Hrun in H. exact (proj1 H).
Qed.

Lemma entries_carry_final_labels_witness :
  Forall (fun r =>
            final_label (r_source r) /\
            (r_source r = "TomTom Traffic API" -> truthy "TT-KEY" = true) /\
            (r_source r = "MapmyIndia Route API" -> truthy "MMI-KEY" = true))
         two_city_results.
Proof.
  apply (entries_carry_final_labels two_city_env [mumbai; pune]
           "TT-KEY" "MMI-KEY" w0 two_city_world two_city_results
           true "MapmyIndia Route API").
  vm_compute. reflexivity.
Defined.

(** X14. The log and the clock of a run that completes are determined
    by the keys and the labels of its entries: for each entry in order,
    a request to the primary when its key is set; then, unless the
    primary produced the entry, a request to the secondary when its key
    is set; then, unless the secondary produced it, the simulation. The
    clock is read once at the start and once per entry for its
    timestamp, and each consulted source takes one more instant. *)
Theorem run_log_follows_labels
    (E : env) (city_coords : list (string * (Q * Q)))
    (tomtom_key mapmyindia_key : string) (w w' : world)
    (results : list reading) (api_working : bool) (api_source : string) :
  get_congestion_for_cities E city_coords tomtom_key mapmyindia_key w
  = Return (results, api_working, api_source) w' ->
  log w' = (log w ++ flat_map (entry_log tomtom_key mapmyindia_key) results)%list /\
  tick w' = (S (tick w)
             + list_sum (map (entry_ticks tomtom_key mapmyindia_key) results))%nat.
Proof.
  intros Hrun.
  pose proof (run_trace E tomtom_key mapmyindia_key city_coords w) as H.
  rewrite Hrun in H. exact (proj2 H).
Qed.

Lemma run_log_follows_labels_witness :
  log two_city_world
  = [RequestingTomTom 19.0760 72.8777;
     RequestingTomTom 18.5204 73.8567;
     RequestingMapmyIndia 18.5204 73.8567] /\
  tick two_city_world = 6%nat.
Proof.
  apply (run_log_follows_labels two_city_env [mumbai; pune]
           "TT-KEY" "MMI-KEY" w0 two_city_world two_city_results
           true "MapmyIndia Route API").
  vm_compute. reflexivity.
Defined.

(** X15. A client whose key is not configured is never called: whatever
    the run does, and also when it ends in an exception, every request
    that it logged went to a client whose key is set. *)
Theorem clients_need_their_keys
    (E : env) (city_coords : list (string * (Q * Q)))
    (tomtom_key mapmyindia_key : string) (w : world) :
  exists added,
    log (world_of (get_congestion_for_cities E city_coords
                     tomtom_key mapmyindia_key w))
    = (log w ++ added)%list /\
    Forall (allowed_by_keys tomtom_key mapmyindia_key) added.
Proof.
  pose proof (run_trace E tomtom_key mapmyindia_key city_coords w) as H.
  destruct (get_congestion_for_cities E city_coords tomtom_key mapmyindia_key w)
    as [[[results api_working] api_source] w' | e w']; cbn [world_of].
  - destruct H as (_ & Hlog & _). eexists. split; [exact Hlog |].
    apply Forall_flat_map. apply Forall_forall. intros r _.
    apply consulted_allowed.
  - exact H.
Qed.

(** X16. With neither key configured the run always completes without
    a single request: one entry per city in order, each from the
    simulator under "AI Prediction Model"; the summary is
    (False, "None"); the log holds one simulation line per city, and
    the clock was read once at the start and twice per city. *)
Theorem run_without_keys_is_simulated
    (E : env) (city_coords : list (string * (Q * Q)))
    (tomtom_key mapmyindia_key : string) (w : world) :
  truthy tomtom_key = false -> truthy mapmyindia_key = false ->
  exists results w',
    get_congestion_for_cities E city_coords tomtom_key mapmyindia_key w
    = Return (results, false, "None") w' /\
    map r_city results = map fst city_coords /\
    Forall (fun r => r_source r = "AI Prediction Model") results /\
    log w' = (log w ++ map SimulationFor (map fst city_coords))%list /\
    tick w' = (S (tick w) + 2 * List.length city_coords)%nat.
Proof.
  intros Htk Hmk.
  pose proof (run_outcome E tomtom_key mapmyindia_key city_coords w) as Hout.
  pose proof (run_trace E tomtom_key mapmyindia_key city_coords w) as Htr.
  destruct (get_congestion_for_cities E city_coords tomtom_key mapmyindia_key w)
    as [[[results api_working] api_source] w' | e w'].
  - destruct Hout as (Hall & -> & ->). destruct Htr as (Hlabels & Hlog & Htick).
    assert (Hsim : Forall (fun r => r_source r = "AI Prediction Model") results).
    { eapply Forall_impl; [| exact Hlabels].
      intros r ([H | [H | H]] & Htt & Hmm); [| | exact H].
      - specialize (Htt H). congruence.
      - specialize (Hmm H). congruence. }
    destruct (simulated_entries_summary tomtom_key mapmyindia_key results "None" Hsim)
      as (Hex & Hlast & Hrest).
    destruct (Hrest Htk Hmk) as [Hl Ht].
    pose proof (reading_of_cities city_coords results Hall) as Hcities.
    exists results, w'. rewrite Hex, Hlast.
    split; [reflexivity |]. split; [exact Hcities |]. split; [exact Hsim |].
    rewrite Hlog, Htick, Hl, Ht, Hcities.
    split; [reflexivity |].
    apply (f_equal (@List.length string)) in Hcities. rewrite !length_map in Hcities.
    lia.
  - destruct Hout as (_ & Htrue & _). congruence.
Qed.

Lemma run_without_keys_is_simulated_witness :
  exists results w',
    get_congestion_for_cities (env_always NetTimeout) [mumbai; pune]
                              EmptyString EmptyString w0
    = Return (results, false, "None") w' /\
    map r_city results = ["Mumbai"; "Pune"] /\
    Forall (fun r => r_source r = "AI Prediction Model") results /\
    log w' = [SimulationFor "Mumbai"; SimulationFor "Pune"] /\
    tick w' = 5%nat.
Proof.
  apply (run_without_keys_is_simulated (env_always NetTimeout) [mumbai; pune]
           EmptyString EmptyString w0); reflexivity.
Defined.

Lemma mapmyindia_none_needs_200
    (E : env) (lat lon : Q) (key : string) (w w' : world) :
  get_traffic_from_mapmyindia E lat lon key w = Return None w' ->
  exists body,
    net E (tick w) (MapmyIndiaRoute key lon lat (fadd lon 0.01) (fadd lat 0.01))
    = Response 200 (Some body).
Proof.
  intros Hrun.
  destruct (net E (tick w) (MapmyIndiaRoute key lon lat (fadd lon 0.01) (fadd lat 0.01)))
    as [| | | status body] eqn:Hnet.
  1-3: (revert Hrun; mapmyindia_step Hnet; discriminate).
  destruct (Z.eq_dec status 200) as [-> | H200].
  - destruct body as [body |]; [now exists body |].
    revert Hrun. mapmyindia_step Hnet. discriminate.
  - revert Hrun. mapmyindia_step Hnet.
    apply Z.eqb_neq in H200. rewrite H200.
    destruct (status =? 401)%Z; discriminate.
Qed.

Lemma entries_echo_the_mapping (city_coords : list (string * (Q * Q)))
    (results : list reading) :
  Forall2 reading_of city_coords results ->
  map (fun r => (r_city r, (r_lat r, r_lon r))) results = city_coords.
Proof.
  induction 1 as [| [city [lat lon]] r items rs Hr _ IH]; [reflexivity |].
  cbn [map]. destruct Hr as (-> & -> & -> & _). cbn [fst snd]. now rewrite IH.
Qed.

(** X17. The run can only fail through a 200 of the secondary: when the
    secondary key is not configured, or when the network never answers a
    route request made with that key by a status 200 with a JSON body,
    the run completes, whatever else the network and the clock do, and
    its entries repeat the city mapping, name and coordinates, one entry
    per city in the order of the mapping. *)
Theorem run_completes_without_a_route_200
    (E : env) (city_coords : list (string * (Q * Q)))
    (tomtom_key mapmyindia_key : string) (w : world) :
  (truthy mapmyindia_key = false \/
   forall t lat lon body,
     net E t (MapmyIndiaRoute mapmyindia_key lon lat (fadd lon 0.01) (fadd lat 0.01))
     <> Response 200 (Some body)) ->
  exists results api_working api_source w',
    get_congestion_for_cities E city_coords tomtom_key mapmyindia_key w
    = Return (results, api_working, api_source) w' /\
    map (fun r => (r_city r, (r_lat r, r_lon r))) results = city_coords /\
    List.length results = List.length city_coords.
Proof.
  intros Hsafe.
  pose proof (run_outcome E tomtom_key mapmyindia_key city_coords w) as H.
  destruct (get_congestion_for_cities E city_coords tomtom_key mapmyindia_key w)
    as [[[results api_working] api_source] w' | e w'].
  - destruct H as (Hall & _). exists results, api_working, api_source, w'.
    split; [reflexivity |]. split; [now apply entries_echo_the_mapping |].
    symmetry. exact (Forall2_length Hall).
  - exfalso. destruct H as (_ & Hkey & lat & lon & w1 & Hnone).
    destruct Hsafe as [Hoff | Hnet]; [congruence |].
    destruct (mapmyindia_none_needs_200 _ _ _ _ _ _ Hnone) as (body & Hbody).
    exact (Hnet _ _ _ _ Hbody).
Qed.

Lemma run_completes_without_a_route_200_witness :
  exists results api_working api_source w',
    get_congestion_for_cities (env_always (Response 200 None)) [mumbai; pune]
                              "TT-KEY" "MMI-KEY" w0
    = Return (results, api_working, api_source) w' /\
    map (fun r => (r_city r, (r_lat r, r_lon r))) results = [mumbai; pune] /\
    List.length results = 2%nat.
Proof.
  apply (run_completes_without_a_route_200 (env_always (Response 200 None))
           [mumbai; pune] "TT-KEY" "MMI-KEY" w0).
  right. intros t lat lon body. discriminate.
Defined.

(** ** Where a run fails *)

Section Failure.
Variable E : env.
Variables tomtom_key mapmyindia_key : string.



End Failure.



Lemma summary_of_labelled_entries (tomtom_key mapmyindia_key : string)
    (results : list reading) :
  Forall (fun r => label_with_key tomtom_key mapmyindia_key (r_source r)) results ->
  match find live (rev results) with
  | Some r =>
      existsb live results = true /\ In r results /\
      (r_source r = "TomTom Traffic API" \/ r_source r = "MapmyIndia Route API")
  | None =>
      existsb live results = false /\
      Forall (fun r => r_source r = "AI Prediction Model") results
  end.
Proof.
  intros Hlab. destruct (find live (rev results)) as [r |] eqn:Hfind.
  - apply find_some in Hfind. destruct Hfind as [Hin Hlive].
    apply in_rev in Hin. split; [| split; [exact Hin |]].
    + apply existsb_exists. now exists r.
    + rewrite Forall_forall in Hlab. destruct (Hlab r Hin) as (Hfin & _).
      now apply (final_label_live r Hfin).
  - assert (Hnone : forall r, In r results -> live r = false).
    { intros r Hin. apply (find_none _ _ Hfind). now apply in_rev in Hin. }
    split.
    + destruct (existsb live results) eqn:Hex; [| reflexivity].
      apply existsb_exists in Hex. destruct Hex as (r & Hin & Hlive).
      rewrite (Hnone r Hin) in Hlive. discriminate.
    + apply Forall_forall. intros r Hin. rewrite Forall_forall in Hlab.
      destruct (Hlab r Hin) as (Hfin & _).
      now apply (final_label_live r Hfin), Hnone.
Qed.

(** X19. The summary of a completed run agrees with its entries. The
    reported source is "None", "TomTom Traffic API" or
    "MapmyIndia Route API", and it is "None" exactly when the flag is
    False. When the flag is True some entry carries the reported source
    as its label, and the key of that client is configured; when it is
    False every entry comes from the simulator. *)
Theorem summary_agrees_with_entries
    (E : env) (city_coords : list (string * (Q * Q)))
    (tomtom_key mapmyindia_key : string) (w w' : world)
    (results : list reading) (api_working : bool) (api_source : string) :
  get_congestion_for_cities E city_coords tomtom_key mapmyindia_key w
  = Return (results, api_working, api_source) w' ->
  (api_source = "None" \/ api_source = "TomTom Traffic API" \/
   api_source = "MapmyIndia Route API") /\
  (api_working = false <-> api_source = "None") /\
  (api_working = true ->
   (exists r, In r results /\ r_source r = api_source) /\
   (api_source = "TomTom Traffic API" -> truthy tomtom_key = true) /\
   (api_source = "MapmyIndia Route API" -> truthy mapmyindia_key = true)) /\
  (api_working = false ->
   Forall (fun r => r_source r = "AI Prediction Model") results).
Proof.
  intros Hrun.
  pose proof (run_outcome E tomtom_key mapmyindia_key city_coords w) as Hout.
  pose proof (run_trace E tomtom_key mapmyindia_key city_coords w) as Htr.
  rewrite Hrun in Hout, Htr.
  destruct Hout as (_ & -> & ->). destruct Htr as (Hlab & _).
  pose proof (summary_of_labelled_entries _ _ _ Hlab) as Hsum.
  rewrite last_live_source_find.
  destruct (find live (rev results)) as [r |].
  - destruct Hsum as (-> & Hin & Hsrc).
    rewrite Forall_forall in Hlab. destruct (Hlab r Hin) as (_ & Htt & Hmm).
    split; [now right |]. split; [| split].
    + split; [discriminate |]. intros Hnone. rewrite Hnone in Hsrc.
      destruct Hsrc; discriminate.
    + intros _. split; [now exists r |]. split; assumption.
    + discriminate.
  - destruct Hsum as (-> & Hsim).
    split; [now left |]. split; [tauto |]. split; [discriminate |].
    intros _. exact Hsim.
Qed.

Lemma summary_agrees_with_entries_witness :
  exists r, In r two_city_results /\ r_source r = "MapmyIndia Route API".
Proof.
  refine (proj1 (proj1 (proj2 (proj2
            (summary_agrees_with_entries two_city_env [mumbai; pune]
               "TT-KEY" "MMI-KEY" w0 two_city_world two_city_results
               true "MapmyIndia Route API" _))) eq_refl)).
  vm_compute. reflexivity.
Defined.

Lemma eta_multiplier_mono (a b : Q) :
  a <= b -> calculate_eta_multiplier a <= calculate_eta_multiplier b.
Proof.
  intros Hab. unfold calculate_eta_multiplier.
  apply fadd_mono; [apply Qle_refl |].
  apply fmul_mono_l; [vm_compute; discriminate |].
  apply fdiv_mono; [exact b64_100_pos | exact Hab].
Qed.

Lemma eta_multiplier_ends :
  calculate_eta_multiplier 0 == 1 /\ calculate_eta_multiplier 100 == 3.
Proof. split; vm_compute; reflexivity. Qed.

(** X20. What the map draws from a completed run needs no clipping: for
    the congestion c of every entry, [normalize_congestion] is exactly
    c / 100, the marker radius lies between 5 and 20 pixels, and the
    journey-time multiplier lies between 1 and 3. *)
Theorem run_readings_fit_the_map
    (E : env) (city_coords : list (string * (Q * Q)))
    (tomtom_key mapmyindia_key : string) (w w' : world)
    (results : list reading) (api_working : bool) (api_source : string) :
  get_congestion_for_cities E city_coords tomtom_key mapmyindia_key w
  = Return (results, api_working, api_source) w' ->
  Forall (fun r =>
            exists c,
              r_congestion r = Some c /\
              normalize_congestion c = fdiv c 100 /\
              (5 <= radius_from_congestion c <= 20)%Z /\
              1 <= calculate_eta_multiplier c <= 3)
         results.
Proof.
  intros Hrun.
  pose proof (run_outcome E tomtom_key mapmyindia_key city_coords w) as H.
  rewrite Hrun in H. destruct H as (Hall & _). clear Hrun.
  induction Hall as [| item r items rs Hr _ IH]; constructor; [| exact IH].
  destruct Hr as (_ & _ & _ & c & Hc & Hrange). exists c.
  split; [exact Hc |]. split; [| split].
  - pose proof (percent_in_unit c Hrange) as Hx.
    destruct (normalize_congestion_cases c) as [[H _] | [[H _] | [_ H]]];
      [lra | lra | exact H].
  - now apply radius_on_percent.
  - destruct Hrange as [Hlo Hhi]. destruct eta_multiplier_ends as [E0 E100].
    pose proof (eta_multiplier_mono 0 c Hlo). pose proof (eta_multiplier_mono c 100 Hhi).
    lra.
Qed.

Lemma run_readings_fit_the_map_witness :
  Forall (fun r =>
            exists c,
              r_congestion r = Some c /\
              normalize_congestion c = fdiv c 100 /\
              (5 <= radius_from_congestion c <= 20)%Z /\
              1 <= calculate_eta_multiplier c <= 3)
         two_city_results.
Proof.
  apply (run_readings_fit_the_map two_city_env [mumbai; pune]
           "TT-KEY" "MMI-KEY" w0 two_city_world two_city_results
           true "MapmyIndia Route API").
  vm_compute. reflexivity.
Defined.

(** ** The order of the fallback *)

Lemma process_city_after_primary
    (E : env) (tomtom_key mapmyindia_key : string)
    (api_working : bool) (api_source : string)
    (city : string) (lat lon : Q) (w w1 : world) :
  primary_gave_nothing E tomtom_key lat lon w w1 ->
  exists source cs ffs,
    process_city E tomtom_key mapmyindia_key api_working api_source city lat lon w
    = bind
        (if truthy mapmyindia_key then
           returned <- get_traffic_from_mapmyindia E lat lon mapmyindia_key ;;
           '(congestion, source, current_speed, free_flow_speed) <- unpack returned ;;
           if negb (is_none congestion) && str_in "API" source
           then ret (congestion, source, current_speed, free_flow_speed,
                     true, "MapmyIndia Route API")
           else ret (congestion, source, current_speed, free_flow_speed,
                     api_working, api_source)
         else ret (None, source, cs, ffs, api_working, api_source))
        (fun '(congestion, source, current_speed, free_flow_speed,
               api_working, api_source) =>
           '(congestion, source, current_speed, free_flow_speed) <-
             (if is_none congestion then get_simulated_congestion E city lat lon
              else ret (congestion, source, current_speed, free_flow_speed)) ;;
           now <- datetime_now E ;;
           ret ({| r_city := city; r_lat := lat; r_lon := lon;
                   r_congestion := congestion; r_source := source;
                   r_current_speed := current_speed;
                   r_free_flow_speed := free_flow_speed;
                   r_timestamp := isoformat now |},
                api_working, api_source))
        w1.
Proof.
  intros [[Hkey ->] | (Hkey & label & cs & ffs & Hrun)].
  - exists "Unknown", NA, NA. unfold process_city. rewrite bind_if, Hkey.
    rewrite bind_ret. cbn [is_none andb]. reflexivity.
  - exists label, cs, ffs. unfold process_city. rewrite bind_if, Hkey.
    rewrite bind_assoc, (bind_Return _ _ _ _ _ Hrun).
    cbn [is_none negb andb]. rewrite bind_ret. cbn [is_none andb]. reflexivity.
Qed.

(** X21. The secondary is the second resort and its success is final:
    when the primary left a city without a congestion (its key not set,
    or a failure) and Client B, called next, returns a congestion, the
    entry carries that congestion and Client B's speeds under
    "MapmyIndia Route API", the summary becomes
    (True, "MapmyIndia Route API"), and the simulator is not called:
    after Client B only the timestamp is read. *)
Theorem secondary_success_is_final
    (E : env) (tomtom_key mapmyindia_key : string)
    (api_working : bool) (api_source : string)
    (city : string) (lat lon : Q) (w w1 w2 : world)
    (c : Q) (label : string) (cs ffs : pyval) :
  truthy mapmyindia_key = true ->
  primary_gave_nothing E tomtom_key lat lon w w1 ->
  get_traffic_from_mapmyindia E lat lon mapmyindia_key w1
  = Return (Some (Some c, label, cs, ffs)) w2 ->
  exists entry w',
    process_city E tomtom_key mapmyindia_key api_working api_source city lat lon w
    = Return (entry, true, "MapmyIndia Route API") w' /\
    r_city entry = city /\
    r_congestion entry = Some c /\
    r_source entry = "MapmyIndia Route API" /\
    r_current_speed entry = cs /\
    r_free_flow_speed entry = ffs /\
    r_timestamp entry = isoformat (clock E (tick w2)) /\
    tick w' = S (tick w2) /\
    log w' = log w2 /\
    log w2 = (log w1 ++ [RequestingMapmyIndia lat lon])%list.
Proof.
  intros Hkey Hprimary Hrun.
  destruct (mapmyindia_returns E lat lon mapmyindia_key w1)
    as (r & w2' & Hr & [_ Hlog] & Hshape).
  rewrite Hrun in Hr. injection Hr as <- <-.
  destruct Hshape as [Hnone | (t & Ht & [(l & Heq & _) | (c' & cs' & ffs' & Heq & _)])];
    [discriminate | |]; injection Ht as <-; [discriminate |].
  injection Heq as _ -> _ _.
  destruct (process_city_after_primary E tomtom_key mapmyindia_key
              api_working api_source city lat lon w w1 Hprimary)
    as (source0 & cs0 & ffs0 & ->).
  rewrite bind_if, Hkey. run_on. rewrite (bind_Return _ _ _ _ _ Hrun). run_on.
  do 2 eexists. split; [reflexivity |].
  cbn [r_city r_congestion r_source r_current_speed r_free_flow_speed
       r_timestamp tick log].
  repeat split. exact Hlog.
Qed.

Lemma secondary_success_is_final_witness :
  exists entry w',
    process_city (env_always (Response 200 (Some (route_body 90 1000))))
                 EmptyString "MMI-KEY" false "None" "Pune" 18.5204 73.8567 w0
    = Return (entry, true, "MapmyIndia Route API") w' /\
    r_city entry = "Pune" /\
    r_congestion entry = Some 20.0 /\
    r_source entry = "MapmyIndia Route API" /\
    r_current_speed entry = PNum 40.0 /\
    r_free_flow_speed entry = PNum 50 /\
    r_timestamp entry = "2024-01-03T08:00:00" /\
    tick w' = 2%nat /\
    log w' = [RequestingMapmyIndia 18.5204 73.8567] /\
    [RequestingMapmyIndia 18.5204 73.8567]
    = [RequestingMapmyIndia 18.5204 73.8567].
Proof.
  apply (secondary_success_is_final
           (env_always (Response 200 (Some (route_body 90 1000))))
           EmptyString "MMI-KEY" false "None" "Pune" 18.5204 73.8567 w0 w0
           {| tick := 1; log := [RequestingMapmyIndia 18.5204 73.8567] |}
           20.0 "MapmyIndia Route API" (PNum 40.0) (PNum 50)).
  - reflexivity.
  - left. split; reflexivity.
  - vm_compute. reflexivity.
Defined.

(** X22. The simulator is the last resort and leaves the summary alone:
    when the primary and then the secondary left a city without a
    congestion (each by its key not being set or by a failure), the
    entry is exactly what the simulator computes from the clock at that
    instant, under "AI Prediction Model"; the flag and the source name
    of the summary keep the values they had; the log gains the
    simulation line and the clock is read twice, for the simulation and
    for the timestamp. *)
Theorem simulation_is_the_last_resort
    (E : env) (tomtom_key mapmyindia_key : string)
    (api_working : bool) (api_source : string)
    (city : string) (lat lon : Q) (w w1 w2 : world) :
  primary_gave_nothing E tomtom_key lat lon w w1 ->
  secondary_gave_nothing E mapmyindia_key lat lon w1 w2 ->
  exists entry w',
    process_city E tomtom_key mapmyindia_key api_working api_source city lat lon w
    = Return (entry, api_working, api_source) w' /\
    (r_congestion entry, r_source entry, r_current_speed entry,
     r_free_flow_speed entry)
    = simulated_congestion_at (clock E (tick w2)) city lat lon /\
    r_source entry = "AI Prediction Model" /\
    r_timestamp entry = isoformat (clock E (S (tick w2))) /\
    tick w' = S (S (tick w2)) /\
    log w' = (log w2 ++ [SimulationFor city])%list.
Proof.
  intros Hprimary Hsecondary.
  destruct (process_city_after_primary E tomtom_key mapmyindia_key
              api_working api_source city lat lon w w1 Hprimary)
    as (source0 & cs0 & ffs0 & ->).
  rewrite bind_if.
  destruct Hsecondary as [[Hkey ->] | (Hkey & label & cs & ffs & Hrun)];
    rewrite Hkey.
  - rewrite bind_ret. cbn [is_none].
    unfold bind, get_simulated_congestion, bind, datetime_now, logger_info, ret.
    cbn [tick log].
    rewrite (simulated_tuple (clock E (tick w1)) city lat lon). cbn zeta.
    do 2 eexists. split; [reflexivity |].
    cbn [r_congestion r_source r_current_speed r_free_flow_speed r_timestamp
         tick log].
    repeat split.
  - rewrite bind_assoc, (bind_Return _ _ _ _ _ Hrun). run_on.
    unfold bind, get_simulated_congestion, bind, datetime_now, logger_info, ret.
    cbn [tick log].
    rewrite (simulated_tuple (clock E (tick w2)) city lat lon). cbn zeta.
    do 2 eexists. split; [reflexivity |].
    cbn [r_congestion r_source r_current_speed r_free_flow_speed r_timestamp
         tick log].
    repeat split.
Qed.

Lemma simulation_is_the_last_resort_witness :
  exists entry w',
    process_city (env_always NetTimeout) "TT-KEY" "MMI-KEY" false "None"
                 "Pune" 18.5204 73.8567 w0
    = Return (entry, false, "None") w' /\
    (r_congestion entry, r_source entry, r_current_speed entry,
     r_free_flow_speed entry)
    = simulated_congestion_at wednesday_8am "Pune" 18.5204 73.8567 /\
    r_source entry = "AI Prediction Model" /\
    r_timestamp entry = "2024-01-03T08:00:00" /\
    tick w' = 4%nat /\
    log w' = [RequestingTomTom 18.5204 73.8567;
              RequestingMapmyIndia 18.5204 73.8567;
              SimulationFor "Pune"].
Proof.
  apply (simulation_is_the_last_resort (env_always NetTimeout)
           "TT-KEY" "MMI-KEY" false "None" "Pune" 18.5204 73.8567 w0
           {| tick := 1; log := [RequestingTomTom 18.5204 73.8567] |}
           {| tick := 2;
              log := [RequestingTomTom 18.5204 73.8567;
                      RequestingMapmyIndia 18.5204 73.8567] |}).
  - right. split; [reflexivity |].
    exists "TomTom Timeout", NA, NA. vm_compute. reflexivity.
  - right. split; [reflexivity |].
    exists "MapmyIndia Error", NA, NA. vm_compute. reflexivity.
Defined.
